(** * Issue -> Feishu Bitable synchronisation: the field-mapping and upsert
      engine of [scripts/issue_to_feishu_ids.py], embedded and verified.

    Conventions of the embedding.
    - A Python [str] is the list of its Unicode code points ([list N]);
      literals are written in UTF-8 and decoded by [u].  White space and
      case mapping are those of CPython 3.11 (Unicode 14.0).
    - A Python [dict] is a stdpp [gmap]; [d.get(k)] is [d !! k].
    - A value of type [Any] (what [json.load] and [r.json()] produce) is a
      [pyval].
    - A function that can raise returns a [result]; code that talks to the
      remote store runs in the monad [M], which threads the remote store and
      records every HTTP call that was issued, also when the run ends in an
      exception. *)

From Stdlib Require Import ZArith NArith List String Ascii SpecFloat Lia.
From stdpp Require Import base option list gmap fin_maps.

Local Open Scope N_scope.

(** ** Python strings *)

Abbreviation str := (list N).

(** UTF-8 decoding of a literal: [k] continuation bytes are still expected
    for the code point accumulated in [acc]. *)
Fixpoint utf8_decode (bs : list N) (k : nat) (acc : N) : str :=
  match bs with
  | [] => []
  | b :: r =>
    match k with
    | O =>
      if b <? 128 then b :: utf8_decode r 0 0
      else if b <? 224 then utf8_decode r 1 (b - 192)
      else if b <? 240 then utf8_decode r 2 (b - 224)
      else utf8_decode r 3 (b - 240)
    | S k' =>
      let acc' := acc * 64 + (b - 128) in
      match k' with
      | O => acc' :: utf8_decode r 0 0
      | S _ => utf8_decode r k' acc'
      end
    end
  end.

Definition u (s : string) : str :=
  utf8_decode (map N_of_ascii (list_ascii_of_string s)) 0 0.
Arguments u : simpl never.

(** [str.isspace] on one code point: the code points CPython's
    [Py_UNICODE_ISSPACE] accepts.  [str.strip] and the regular expression
    class [\s] both use it. *)
Definition py_isspace (c : N) : bool :=
  ((9 <=? c) && (c <=? 13)) || ((28 <=? c) && (c <=? 32))
  || (c =? 133) || (c =? 160) || (c =? 5760)
  || ((8192 <=? c) && (c <=? 8202))
  || (c =? 8232) || (c =? 8233) || (c =? 8239) || (c =? 8287)
  || (c =? 12288).

Fixpoint py_lstrip (s : str) : str :=
  match s with
  | [] => []
  | c :: r => if py_isspace c then py_lstrip r else s
  end.

Definition py_rstrip (s : str) : str := rev (py_lstrip (rev s)).

(** [s.strip()] *)
Definition py_strip (s : str) : str := py_rstrip (py_lstrip s).

(** ** Case mapping

    [str.upper], [str.lower] and [str.capitalize] map by the Unicode
    character database (version 14.0, the one of CPython 3.11), as
    [unicodeobject.c] does: [_PyUnicode_ToUpperFull], [_PyUnicode_ToLowerFull]
    and [_PyUnicode_ToTitleFull] give the one to three code points a code
    point becomes, and a capital sigma is lower-cased by its context.  The
    tables list the code points a mapping changes; every other code point
    is left as it is. *)

(** The code points [str.upper] changes, each with what it becomes. *)
Definition UPPER_TABLE : list (N * list N) :=
  [
    (97, [65]); (98, [66]); (99, [67]); (100, [68]); (101, [69]);
    (102, [70]); (103, [71]); (104, [72]); (105, [73]); (106, [74]);
    (107, [75]); (108, [76]); (109, [77]); (110, [78]); (111, [79]);
    (112, [80]); (113, [81]); (114, [82]); (115, [83]); (116, [84]);
    (117, [85]); (118, [86]); (119, [87]); (120, [88]); (121, [89]);
    (122, [90]); (181, [924]); (223, [83; 83]); (224, [192]); (225, [193]);
    (226, [194]); (227, [195]); (228, [196]); (229, [197]); (230, [198]);
    (231, [199]); (232, [200]); (233, [201]); (234, [202]); (235, [203]);
    (236, [204]); (237, [205]); (238, [206]); (239, [207]); (240, [208]);
    (241, [209]); (242, [210]); (243, [211]); (244, [212]); (245, [213]);
    (246, [214]); (248, [216]); (249, [217]); (250, [218]); (251, [219]);
    (252, [220]); (253, [221]); (254, [222]); (255, [376]); (257, [256]);
    (259, [258]); (261, [260]); (263, [262]); (265, [264]); (267, [266]);
    (269, [268]); (271, [270]); (273, [272]); (275, [274]); (277, [276]);
    (279, [278]); (281, [280]); (283, [282]); (285, [284]); (287, [286]);
    (289, [288]); (291, [290]); (293, [292]); (295, [294]); (297, [296]);
    (299, [298]); (301, [300]); (303, [302]); (305, [73]); (307, [306]);
    (309, [308]); (311, [310]); (314, [313]); (316, [315]); (318, [317]);
    (320, [319]); (322, [321]); (324, [323]); (326, [325]); (328, [327]);
    (329, [700; 78]); (331, [330]); (333, [332]); (335, [334]); (337, [336]);
    (339, [338]); (341, [340]); (343, [342]); (345, [344]); (347, [346]);
    (349, [348]); (351, [350]); (353, [352]); (355, [354]); (357, [356]);
    (359, [358]); (361, [360]); (363, [362]); (365, [364]); (367, [366]);
    (369, [368]); (371, [370]); (373, [372]); (375, [374]); (378, [377]);
    (380, [379]); (382, [381]); (383, [83]); (384, [579]); (387, [386]);
    (389, [388]); (392, [391]); (396, [395]); (402, [401]); (405, [502]);
    (409, [408]); (410, [573]); (414, [544]); (417, [416]); (419, [418]);
    (421, [420]); (424, [423]); (429, [428]); (432, [431]); (436, [435]);
    (438, [437]); (441, [440]); (445, [444]); (447, [503]); (453, [452]);
    (454, [452]); (456, [455]); (457, [455]); (459, [458]); (460, [458]);
    (462, [461]); (464, [463]); (466, [465]); (468, [467]); (470, [469]);
    (472, [471]); (474, [473]); (476, [475]); (477, [398]); (479, [478]);
    (481, [480]); (483, [482]); (485, [484]); (487, [486]); (489, [488]);
    (491, [490]); (493, [492]); (495, [494]); (496, [74; 780]); (498, [497]);
    (499, [497]); (501, [500]); (505, [504]); (507, [506]); (509, [508]);
    (511, [510]); (513, [512]); (515, [514]); (517, [516]); (519, [518]);
    (521, [520]); (523, [522]); (525, [524]); (527, [526]); (529, [528]);
    (531, [530]); (533, [532]); (535, [534]); (537, [536]); (539, [538]);
    (541, [540]); (543, [542]); (547, [546]); (549, [548]); (551, [550]);
    (553, [552]); (555, [554]); (557, [556]); (559, [558]); (561, [560]);
    (563, [562]); (572, [571]); (575, [11390]); (576, [11391]); (578, [577]);
    (583, [582]); (585, [584]); (587, [586]); (589, [588]); (591, [590]);
    (592, [11375]); (593, [11373]); (594, [11376]); (595, [385]);
    (596, [390]); (598, [393]); (599, [394]); (601, [399]); (603, [400]);
    (604, [42923]); (608, [403]); (609, [42924]); (611, [404]);
    (613, [42893]); (614, [42922]); (616, [407]); (617, [406]);
    (618, [42926]); (619, [11362]); (620, [42925]); (623, [412]);
    (625, [11374]); (626, [413]); (629, [415]); (637, [11364]); (640, [422]);
    (642, [42949]); (643, [425]); (647, [42929]); (648, [430]); (649, [580]);
    (650, [433]); (651, [434]); (652, [581]); (658, [439]); (669, [42930]);
    (670, [42928]); (837, [921]); (881, [880]); (883, [882]); (887, [886]);
    (891, [1021]); (892, [1022]); (893, [1023]); (912, [921; 776; 769]);
    (940, [902]); (941, [904]); (942, [905]); (943, [906]);
    (944, [933; 776; 769]); (945, [913]); (946, [914]); (947, [915]);
    (948, [916]); (949, [917]); (950, [918]); (951, [919]); (952, [920]);
    (953, [921]); (954, [922]); (955, [923]); (956, [924]); (957, [925]);
    (958, [926]); (959, [927]); (960, [928]); (961, [929]); (962, [931]);
    (963, [931]); (964, [932]); (965, [933]); (966, [934]); (967, [935]);
    (968, [936]); (969, [937]); (970, [938]); (971, [939]); (972, [908]);
    (973, [910]); (974, [911]); (976, [914]); (977, [920]); (981, [934]);
    (982, [928]); (983, [975]); (985, [984]); (987, [986]); (989, [988]);
    (991, [990]); (993, [992]); (995, [994]); (997, [996]); (999, [998]);
    (1001, [1000]); (1003, [1002]); (1005, [1004]); (1007, [1006]);
    (1008, [922]); (1009, [929]); (1010, [1017]); (1011, [895]);
    (1013, [917]); (1016, [1015]); (1019, [1018]); (1072, [1040]);
    (1073, [1041]); (1074, [1042]); (1075, [1043]); (1076, [1044]);
    (1077, [1045]); (1078, [1046]); (1079, [1047]); (1080, [1048]);
    (1081, [1049]); (1082, [1050]); (1083, [1051]); (1084, [1052]);
    (1085, [1053]); (1086, [1054]); (1087, [1055]); (1088, [1056]);
    (1089, [1057]); (1090, [1058]); (1091, [1059]); (1092, [1060]);
    (1093, [1061]); (1094, [1062]); (1095, [1063]); (1096, [1064]);
    (1097, [1065]); (1098, [1066]); (1099, [1067]); (1100, [1068]);
    (1101, [1069]); (1102, [1070]); (1103, [1071]); (1104, [1024]);
    (1105, [1025]); (1106, [1026]); (1107, [1027]); (1108, [1028]);
    (1109, [1029]); (1110, [1030]); (1111, [1031]); (1112, [1032]);
    (1113, [1033]); (1114, [1034]); (1115, [1035]); (1116, [1036]);
    (1117, [1037]); (1118, [1038]); (1119, [1039]); (1121, [1120]);
    (1123, [1122]); (1125, [1124]); (1127, [1126]); (1129, [1128]);
    (1131, [1130]); (1133, [1132]); (1135, [1134]); (1137, [1136]);
    (1139, [1138]); (1141, [1140]); (1143, [1142]); (1145, [1144]);
    (1147, [1146]); (1149, [1148]); (1151, [1150]); (1153, [1152]);
    (1163, [1162]); (1165, [1164]); (1167, [1166]); (1169, [1168]);
    (1171, [1170]); (1173, [1172]); (1175, [1174]); (1177, [1176]);
    (1179, [1178]); (1181, [1180]); (1183, [1182]); (1185, [1184]);
    (1187, [1186]); (1189, [1188]); (1191, [1190]); (1193, [1192]);
    (1195, [1194]); (1197, [1196]); (1199, [1198]); (1201, [1200]);
    (1203, [1202]); (1205, [1204]); (1207, [1206]); (1209, [1208]);
    (1211, [1210]); (1213, [1212]); (1215, [1214]); (1218, [1217]);
    (1220, [1219]); (1222, [1221]); (1224, [1223]); (1226, [1225]);
    (1228, [1227]); (1230, [1229]); (1231, [1216]); (1233, [1232]);
    (1235, [1234]); (1237, [1236]); (1239, [1238]); (1241, [1240]);
    (1243, [1242]); (1245, [1244]); (1247, [1246]); (1249, [1248]);
    (1251, [1250]); (1253, [1252]); (1255, [1254]); (1257, [1256]);
    (1259, [1258]); (1261, [1260]); (1263, [1262]); (1265, [1264]);
    (1267, [1266]); (1269, [1268]); (1271, [1270]); (1273, [1272]);
    (1275, [1274]); (1277, [1276]); (1279, [1278]); (1281, [1280]);
    (1283, [1282]); (1285, [1284]); (1287, [1286]); (1289, [1288]);
    (1291, [1290]); (1293, [1292]); (1295, [1294]); (1297, [1296]);
    (1299, [1298]); (1301, [1300]); (1303, [1302]); (1305, [1304]);
    (1307, [1306]); (1309, [1308]); (1311, [1310]); (1313, [1312]);
    (1315, [1314]); (1317, [1316]); (1319, [1318]); (1321, [1320]);
    (1323, [1322]); (1325, [1324]); (1327, [1326]); (1377, [1329]);
    (1378, [1330]); (1379, [1331]); (1380, [1332]); (1381, [1333]);
    (1382, [1334]); (1383, [1335]); (1384, [1336]); (1385, [1337]);
    (1386, [1338]); (1387, [1339]); (1388, [1340]); (1389, [1341]);
    (1390, [1342]); (1391, [1343]); (1392, [1344]); (1393, [1345]);
    (1394, [1346]); (1395, [1347]); (1396, [1348]); (1397, [1349]);
    (1398, [1350]); (1399, [1351]); (1400, [1352]); (1401, [1353]);
    (1402, [1354]); (1403, [1355]); (1404, [1356]); (1405, [1357]);
    (1406, [1358]); (1407, [1359]); (1408, [1360]); (1409, [1361]);
    (1410, [1362]); (1411, [1363]); (1412, [1364]); (1413, [1365]);
    (1414, [1366]); (1415, [1333; 1362]); (4304, [7312]); (4305, [7313]);
    (4306, [7314]); (4307, [7315]); (4308, [7316]); (4309, [7317]);
    (4310, [7318]); (4311, [7319]); (4312, [7320]); (4313, [7321]);
    (4314, [7322]); (4315, [7323]); (4316, [7324]); (4317, [7325]);
    (4318, [7326]); (4319, [7327]); (4320, [7328]); (4321, [7329]);
    (4322, [7330]); (4323, [7331]); (4324, [7332]); (4325, [7333]);
    (4326, [7334]); (4327, [7335]); (4328, [7336]); (4329, [7337]);
    (4330, [7338]); (4331, [7339]); (4332, [7340]); (4333, [7341]);
    (4334, [7342]); (4335, [7343]); (4336, [7344]); (4337, [7345]);
    (4338, [7346]); (4339, [7347]); (4340, [7348]); (4341, [7349]);
    (4342, [7350]); (4343, [7351]); (4344, [7352]); (4345, [7353]);
    (4346, [7354]); (4349, [7357]); (4350, [7358]); (4351, [7359]);
    (5112, [5104]); (5113, [5105]); (5114, [5106]); (5115, [5107]);
    (5116, [5108]); (5117, [5109]); (7296, [1042]); (7297, [1044]);
    (7298, [1054]); (7299, [1057]); (7300, [1058]); (7301, [1058]);
    (7302, [1066]); (7303, [1122]); (7304, [42570]); (7545, [42877]);
    (7549, [11363]); (7566, [42950]); (7681, [7680]); (7683, [7682]);
    (7685, [7684]); (7687, [7686]); (7689, [7688]); (7691, [7690]);
    (7693, [7692]); (7695, [7694]); (7697, [7696]); (7699, [7698]);
    (7701, [7700]); (7703, [7702]); (7705, [7704]); (7707, [7706]);
    (7709, [7708]); (7711, [7710]); (7713, [7712]); (7715, [7714]);
    (7717, [7716]); (7719, [7718]); (7721, [7720]); (7723, [7722]);
    (7725, [7724]); (7727, [7726]); (7729, [7728]); (7731, [7730]);
    (7733, [7732]); (7735, [7734]); (7737, [7736]); (7739, [7738]);
    (7741, [7740]); (7743, [7742]); (7745, [7744]); (7747, [7746]);
    (7749, [7748]); (7751, [7750]); (7753, [7752]); (7755, [7754]);
    (7757, [7756]); (7759, [7758]); (7761, [7760]); (7763, [7762]);
    (7765, [7764]); (7767, [7766]); (7769, [7768]); (7771, [7770]);
    (7773, [7772]); (7775, [7774]); (7777, [7776]); (7779, [7778]);
    (7781, [7780]); (7783, [7782]); (7785, [7784]); (7787, [7786]);
    (7789, [7788]); (7791, [7790]); (7793, [7792]); (7795, [7794]);
    (7797, [7796]); (7799, [7798]); (7801, [7800]); (7803, [7802]);
    (7805, [7804]); (7807, [7806]); (7809, [7808]); (7811, [7810]);
    (7813, [7812]); (7815, [7814]); (7817, [7816]); (7819, [7818]);
    (7821, [7820]); (7823, [7822]); (7825, [7824]); (7827, [7826]);
    (7829, [7828]); (7830, [72; 817]); (7831, [84; 776]); (7832, [87; 778]);
    (7833, [89; 778]); (7834, [65; 702]); (7835, [7776]); (7841, [7840]);
    (7843, [7842]); (7845, [7844]); (7847, [7846]); (7849, [7848]);
    (7851, [7850]); (7853, [7852]); (7855, [7854]); (7857, [7856]);
    (7859, [7858]); (7861, [7860]); (7863, [7862]); (7865, [7864]);
    (7867, [7866]); (7869, [7868]); (7871, [7870]); (7873, [7872]);
    (7875, [7874]); (7877, [7876]); (7879, [7878]); (7881, [7880]);
    (7883, [7882]); (7885, [7884]); (7887, [7886]); (7889, [7888]);
    (7891, [7890]); (7893, [7892]); (7895, [7894]); (7897, [7896]);
    (7899, [7898]); (7901, [7900]); (7903, [7902]); (7905, [7904]);
    (7907, [7906]); (7909, [7908]); (7911, [7910]); (7913, [7912]);
    (7915, [7914]); (7917, [7916]); (7919, [7918]); (7921, [7920]);
    (7923, [7922]); (7925, [7924]); (7927, [7926]); (7929, [7928]);
    (7931, [7930]); (7933, [7932]); (7935, [7934]); (7936, [7944]);
    (7937, [7945]); (7938, [7946]); (7939, [7947]); (7940, [7948]);
    (7941, [7949]); (7942, [7950]); (7943, [7951]); (7952, [7960]);
    (7953, [7961]); (7954, [7962]); (7955, [7963]); (7956, [7964]);
    (7957, [7965]); (7968, [7976]); (7969, [7977]); (7970, [7978]);
    (7971, [7979]); (7972, [7980]); (7973, [7981]); (7974, [7982]);
    (7975, [7983]); (7984, [7992]); (7985, [7993]); (7986, [7994]);
    (7987, [7995]); (7988, [7996]); (7989, [7997]); (7990, [7998]);
    (7991, [7999]); (8000, [8008]); (8001, [8009]); (8002, [8010]);
    (8003, [8011]); (8004, [8012]); (8005, [8013]); (8016, [933; 787]);
    (8017, [8025]); (8018, [933; 787; 768]); (8019, [8027]);
    (8020, [933; 787; 769]); (8021, [8029]); (8022, [933; 787; 834]);
    (8023, [8031]); (8032, [8040]); (8033, [8041]); (8034, [8042]);
    (8035, [8043]); (8036, [8044]); (8037, [8045]); (8038, [8046]);
    (8039, [8047]); (8048, [8122]); (8049, [8123]); (8050, [8136]);
    (8051, [8137]); (8052, [8138]); (8053, [8139]); (8054, [8154]);
    (8055, [8155]); (8056, [8184]); (8057, [8185]); (8058, [8170]);
    (8059, [8171]); (8060, [8186]); (8061, [8187]); (8064, [7944; 921]);
    (8065, [7945; 921]); (8066, [7946; 921]); (8067, [7947; 921]);
    (8068, [7948; 921]); (8069, [7949; 921]); (8070, [7950; 921]);
    (8071, [7951; 921]); (8072, [7944; 921]); (8073, [7945; 921]);
    (8074, [7946; 921]); (8075, [7947; 921]); (8076, [7948; 921]);
    (8077, [7949; 921]); (8078, [7950; 921]); (8079, [7951; 921]);
    (8080, [7976; 921]); (8081, [7977; 921]); (8082, [7978; 921]);
    (8083, [7979; 921]); (8084, [7980; 921]); (8085, [7981; 921]);
    (8086, [7982; 921]); (8087, [7983; 921]); (8088, [7976; 921]);
    (8089, [7977; 921]); (8090, [7978; 921]); (8091, [7979; 921]);
    (8092, [7980; 921]); (8093, [7981; 921]); (8094, [7982; 921]);
    (8095, [7983; 921]); (8096, [8040; 921]); (8097, [8041; 921]);
    (8098, [8042; 921]); (8099, [8043; 921]); (8100, [8044; 921]);
    (8101, [8045; 921]); (8102, [8046; 921]); (8103, [8047; 921]);
    (8104, [8040; 921]); (8105, [8041; 921]); (8106, [8042; 921]);
    (8107, [8043; 921]); (8108, [8044; 921]); (8109, [8045; 921]);
    (8110, [8046; 921]); (8111, [8047; 921]); (8112, [8120]); (8113, [8121]);
    (8114, [8122; 921]); (8115, [913; 921]); (8116, [902; 921]);
    (8118, [913; 834]); (8119, [913; 834; 921]); (8124, [913; 921]);
    (8126, [921]); (8130, [8138; 921]); (8131, [919; 921]);
    (8132, [905; 921]); (8134, [919; 834]); (8135, [919; 834; 921]);
    (8140, [919; 921]); (8144, [8152]); (8145, [8153]);
    (8146, [921; 776; 768]); (8147, [921; 776; 769]); (8150, [921; 834]);
    (8151, [921; 776; 834]); (8160, [8168]); (8161, [8169]);
    (8162, [933; 776; 768]); (8163, [933; 776; 769]); (8164, [929; 787]);
    (8165, [8172]); (8166, [933; 834]); (8167, [933; 776; 834]);
    (8178, [8186; 921]); (8179, [937; 921]); (8180, [911; 921]);
    (8182, [937; 834]); (8183, [937; 834; 921]); (8188, [937; 921]);
    (8526, [8498]); (8560, [8544]); (8561, [8545]); (8562, [8546]);
    (8563, [8547]); (8564, [8548]); (8565, [8549]); (8566, [8550]);
    (8567, [8551]); (8568, [8552]); (8569, [8553]); (8570, [8554]);
    (8571, [8555]); (8572, [8556]); (8573, [8557]); (8574, [8558]);
    (8575, [8559]); (8580, [8579]); (9424, [9398]); (9425, [9399]);
    (9426, [9400]); (9427, [9401]); (9428, [9402]); (9429, [9403]);
    (9430, [9404]); (9431, [9405]); (9432, [9406]); (9433, [9407]);
    (9434, [9408]); (9435, [9409]); (9436, [9410]); (9437, [9411]);
    (9438, [9412]); (9439, [9413]); (9440, [9414]); (9441, [9415]);
    (9442, [9416]); (9443, [9417]); (9444, [9418]); (9445, [9419]);
    (9446, [9420]); (9447, [9421]); (9448, [9422]); (9449, [9423]);
    (11312, [11264]); (11313, [11265]); (11314, [11266]); (11315, [11267]);
    (11316, [11268]); (11317, [11269]); (11318, [11270]); (11319, [11271]);
    (11320, [11272]); (11321, [11273]); (11322, [11274]); (11323, [11275]);
    (11324, [11276]); (11325, [11277]); (11326, [11278]); (11327, [11279]);
    (11328, [11280]); (11329, [11281]); (11330, [11282]); (11331, [11283]);
    (11332, [11284]); (11333, [11285]); (11334, [11286]); (11335, [11287]);
    (11336, [11288]); (11337, [11289]); (11338, [11290]); (11339, [11291]);
    (11340, [11292]); (11341, [11293]); (11342, [11294]); (11343, [11295]);
    (11344, [11296]); (11345, [11297]); (11346, [11298]); (11347, [11299]);
    (11348, [11300]); (11349, [11301]); (11350, [11302]); (11351, [11303]);
    (11352, [11304]); (11353, [11305]); (11354, [11306]); (11355, [11307]);
    (11356, [11308]); (11357, [11309]); (11358, [11310]); (11359, [11311]);
    (11361, [11360]); (11365, [570]); (11366, [574]); (11368, [11367]);
    (11370, [11369]); (11372, [11371]); (11379, [11378]); (11382, [11381]);
    (11393, [11392]); (11395, [11394]); (11397, [11396]); (11399, [11398]);
    (11401, [11400]); (11403, [11402]); (11405, [11404]); (11407, [11406]);
    (11409, [11408]); (11411, [11410]); (11413, [11412]); (11415, [11414]);
    (11417, [11416]); (11419, [11418]); (11421, [11420]); (11423, [11422]);
    (11425, [11424]); (11427, [11426]); (11429, [11428]); (11431, [11430]);
    (11433, [11432]); (11435, [11434]); (11437, [11436]); (11439, [11438]);
    (11441, [11440]); (11443, [11442]); (11445, [11444]); (11447, [11446]);
    (11449, [11448]); (11451, [11450]); (11453, [11452]); (11455, [11454]);
    (11457, [11456]); (11459, [11458]); (11461, [11460]); (11463, [11462]);
    (11465, [11464]); (11467, [11466]); (11469, [11468]); (11471, [11470]);
    (11473, [11472]); (11475, [11474]); (11477, [11476]); (11479, [11478]);
    (11481, [11480]); (11483, [11482]); (11485, [11484]); (11487, [11486]);
    (11489, [11488]); (11491, [11490]); (11500, [11499]); (11502, [11501]);
    (11507, [11506]); (11520, [4256]); (11521, [4257]); (11522, [4258]);
    (11523, [4259]); (11524, [4260]); (11525, [4261]); (11526, [4262]);
    (11527, [4263]); (11528, [4264]); (11529, [4265]); (11530, [4266]);
    (11531, [4267]); (11532, [4268]); (11533, [4269]); (11534, [4270]);
    (11535, [4271]); (11536, [4272]); (11537, [4273]); (11538, [4274]);
    (11539, [4275]); (11540, [4276]); (11541, [4277]); (11542, [4278]);
    (11543, [4279]); (11544, [4280]); (11545, [4281]); (11546, [4282]);
    (11547, [4283]); (11548, [4284]); (11549, [4285]); (11550, [4286]);
    (11551, [4287]); (11552, [4288]); (11553, [4289]); (11554, [4290]);
    (11555, [4291]); (11556, [4292]); (11557, [4293]); (11559, [4295]);
    (11565, [4301]); (42561, [42560]); (42563, [42562]); (42565, [42564]);
    (42567, [42566]); (42569, [42568]); (42571, [42570]); (42573, [42572]);
    (42575, [42574]); (42577, [42576]); (42579, [42578]); (42581, [42580]);
    (42583, [42582]); (42585, [42584]); (42587, [42586]); (42589, [42588]);
    (42591, [42590]); (42593, [42592]); (42595, [42594]); (42597, [42596]);
    (42599, [42598]); (42601, [42600]); (42603, [42602]); (42605, [42604]);
    (42625, [42624]); (42627, [42626]); (42629, [42628]); (42631, [42630]);
    (42633, [42632]); (42635, [42634]); (42637, [42636]); (42639, [42638]);
    (42641, [42640]); (42643, [42642]); (42645, [42644]); (42647, [42646]);
    (42649, [42648]); (42651, [42650]); (42787, [42786]); (42789, [42788]);
    (42791, [42790]); (42793, [42792]); (42795, [42794]); (42797, [42796]);
    (42799, [42798]); (42803, [42802]); (42805, [42804]); (42807, [42806]);
    (42809, [42808]); (42811, [42810]); (42813, [42812]); (42815, [42814]);
    (42817, [42816]); (42819, [42818]); (42821, [42820]); (42823, [42822]);
    (42825, [42824]); (42827, [42826]); (42829, [42828]); (42831, [42830]);
    (42833, [42832]); (42835, [42834]); (42837, [42836]); (42839, [42838]);
    (42841, [42840]); (42843, [42842]); (42845, [42844]); (42847, [42846]);
    (42849, [42848]); (42851, [42850]); (42853, [42852]); (42855, [42854]);
    (42857, [42856]); (42859, [42858]); (42861, [42860]); (42863, [42862]);
    (42874, [42873]); (42876, [42875]); (42879, [42878]); (42881, [42880]);
    (42883, [42882]); (42885, [42884]); (42887, [42886]); (42892, [42891]);
    (42897, [42896]); (42899, [42898]); (42900, [42948]); (42903, [42902]);
    (42905, [42904]); (42907, [42906]); (42909, [42908]); (42911, [42910]);
    (42913, [42912]); (42915, [42914]); (42917, [42916]); (42919, [42918]);
    (42921, [42920]); (42933, [42932]); (42935, [42934]); (42937, [42936]);
    (42939, [42938]); (42941, [42940]); (42943, [42942]); (42945, [42944]);
    (42947, [42946]); (42952, [42951]); (42954, [42953]); (42961, [42960]);
    (42967, [42966]); (42969, [42968]); (42998, [42997]); (43859, [42931]);
    (43888, [5024]); (43889, [5025]); (43890, [5026]); (43891, [5027]);
    (43892, [5028]); (43893, [5029]); (43894, [5030]); (43895, [5031]);
    (43896, [5032]); (43897, [5033]); (43898, [5034]); (43899, [5035]);
    (43900, [5036]); (43901, [5037]); (43902, [5038]); (43903, [5039]);
    (43904, [5040]); (43905, [5041]); (43906, [5042]); (43907, [5043]);
    (43908, [5044]); (43909, [5045]); (43910, [5046]); (43911, [5047]);
    (43912, [5048]); (43913, [5049]); (43914, [5050]); (43915, [5051]);
    (43916, [5052]); (43917, [5053]); (43918, [5054]); (43919, [5055]);
    (43920, [5056]); (43921, [5057]); (43922, [5058]); (43923, [5059]);
    (43924, [5060]); (43925, [5061]); (43926, [5062]); (43927, [5063]);
    (43928, [5064]); (43929, [5065]); (43930, [5066]); (43931, [5067]);
    (43932, [5068]); (43933, [5069]); (43934, [5070]); (43935, [5071]);
    (43936, [5072]); (43937, [5073]); (43938, [5074]); (43939, [5075]);
    (43940, [5076]); (43941, [5077]); (43942, [5078]); (43943, [5079]);
    (43944, [5080]); (43945, [5081]); (43946, [5082]); (43947, [5083]);
    (43948, [5084]); (43949, [5085]); (43950, [5086]); (43951, [5087]);
    (43952, [5088]); (43953, [5089]); (43954, [5090]); (43955, [5091]);
    (43956, [5092]); (43957, [5093]); (43958, [5094]); (43959, [5095]);
    (43960, [5096]); (43961, [5097]); (43962, [5098]); (43963, [5099]);
    (43964, [5100]); (43965, [5101]); (43966, [5102]); (43967, [5103]);
    (64256, [70; 70]); (64257, [70; 73]); (64258, [70; 76]);
    (64259, [70; 70; 73]); (64260, [70; 70; 76]); (64261, [83; 84]);
    (64262, [83; 84]); (64275, [1348; 1350]); (64276, [1348; 1333]);
    (64277, [1348; 1339]); (64278, [1358; 1350]); (64279, [1348; 1341]);
    (65345, [65313]); (65346, [65314]); (65347, [65315]); (65348, [65316]);
    (65349, [65317]); (65350, [65318]); (65351, [65319]); (65352, [65320]);
    (65353, [65321]); (65354, [65322]); (65355, [65323]); (65356, [65324]);
    (65357, [65325]); (65358, [65326]); (65359, [65327]); (65360, [65328]);
    (65361, [65329]); (65362, [65330]); (65363, [65331]); (65364, [65332]);
    (65365, [65333]); (65366, [65334]); (65367, [65335]); (65368, [65336]);
    (65369, [65337]); (65370, [65338]); (66600, [66560]); (66601, [66561]);
    (66602, [66562]); (66603, [66563]); (66604, [66564]); (66605, [66565]);
    (66606, [66566]); (66607, [66567]); (66608, [66568]); (66609, [66569]);
    (66610, [66570]); (66611, [66571]); (66612, [66572]); (66613, [66573]);
    (66614, [66574]); (66615, [66575]); (66616, [66576]); (66617, [66577]);
    (66618, [66578]); (66619, [66579]); (66620, [66580]); (66621, [66581]);
    (66622, [66582]); (66623, [66583]); (66624, [66584]); (66625, [66585]);
    (66626, [66586]); (66627, [66587]); (66628, [66588]); (66629, [66589]);
    (66630, [66590]); (66631, [66591]); (66632, [66592]); (66633, [66593]);
    (66634, [66594]); (66635, [66595]); (66636, [66596]); (66637, [66597]);
    (66638, [66598]); (66639, [66599]); (66776, [66736]); (66777, [66737]);
    (66778, [66738]); (66779, [66739]); (66780, [66740]); (66781, [66741]);
    (66782, [66742]); (66783, [66743]); (66784, [66744]); (66785, [66745]);
    (66786, [66746]); (66787, [66747]); (66788, [66748]); (66789, [66749]);
    (66790, [66750]); (66791, [66751]); (66792, [66752]); (66793, [66753]);
    (66794, [66754]); (66795, [66755]); (66796, [66756]); (66797, [66757]);
    (66798, [66758]); (66799, [66759]); (66800, [66760]); (66801, [66761]);
    (66802, [66762]); (66803, [66763]); (66804, [66764]); (66805, [66765]);
    (66806, [66766]); (66807, [66767]); (66808, [66768]); (66809, [66769]);
    (66810, [66770]); (66811, [66771]); (66967, [66928]); (66968, [66929]);
    (66969, [66930]); (66970, [66931]); (66971, [66932]); (66972, [66933]);
    (66973, [66934]); (66974, [66935]); (66975, [66936]); (66976, [66937]);
    (66977, [66938]); (66979, [66940]); (66980, [66941]); (66981, [66942]);
    (66982, [66943]); (66983, [66944]); (66984, [66945]); (66985, [66946]);
    (66986, [66947]); (66987, [66948]); (66988, [66949]); (66989, [66950]);
    (66990, [66951]); (66991, [66952]); (66992, [66953]); (66993, [66954]);
    (66995, [66956]); (66996, [66957]); (66997, [66958]); (66998, [66959]);
    (66999, [66960]); (67000, [66961]); (67001, [66962]); (67003, [66964]);
    (67004, [66965]); (68800, [68736]); (68801, [68737]); (68802, [68738]);
    (68803, [68739]); (68804, [68740]); (68805, [68741]); (68806, [68742]);
    (68807, [68743]); (68808, [68744]); (68809, [68745]); (68810, [68746]);
    (68811, [68747]); (68812, [68748]); (68813, [68749]); (68814, [68750]);
    (68815, [68751]); (68816, [68752]); (68817, [68753]); (68818, [68754]);
    (68819, [68755]); (68820, [68756]); (68821, [68757]); (68822, [68758]);
    (68823, [68759]); (68824, [68760]); (68825, [68761]); (68826, [68762]);
    (68827, [68763]); (68828, [68764]); (68829, [68765]); (68830, [68766]);
    (68831, [68767]); (68832, [68768]); (68833, [68769]); (68834, [68770]);
    (68835, [68771]); (68836, [68772]); (68837, [68773]); (68838, [68774]);
    (68839, [68775]); (68840, [68776]); (68841, [68777]); (68842, [68778]);
    (68843, [68779]); (68844, [68780]); (68845, [68781]); (68846, [68782]);
    (68847, [68783]); (68848, [68784]); (68849, [68785]); (68850, [68786]);
    (71872, [71840]); (71873, [71841]); (71874, [71842]); (71875, [71843]);
    (71876, [71844]); (71877, [71845]); (71878, [71846]); (71879, [71847]);
    (71880, [71848]); (71881, [71849]); (71882, [71850]); (71883, [71851]);
    (71884, [71852]); (71885, [71853]); (71886, [71854]); (71887, [71855]);
    (71888, [71856]); (71889, [71857]); (71890, [71858]); (71891, [71859]);
    (71892, [71860]); (71893, [71861]); (71894, [71862]); (71895, [71863]);
    (71896, [71864]); (71897, [71865]); (71898, [71866]); (71899, [71867]);
    (71900, [71868]); (71901, [71869]); (71902, [71870]); (71903, [71871]);
    (93792, [93760]); (93793, [93761]); (93794, [93762]); (93795, [93763]);
    (93796, [93764]); (93797, [93765]); (93798, [93766]); (93799, [93767]);
    (93800, [93768]); (93801, [93769]); (93802, [93770]); (93803, [93771]);
    (93804, [93772]); (93805, [93773]); (93806, [93774]); (93807, [93775]);
    (93808, [93776]); (93809, [93777]); (93810, [93778]); (93811, [93779]);
    (93812, [93780]); (93813, [93781]); (93814, [93782]); (93815, [93783]);
    (93816, [93784]); (93817, [93785]); (93818, [93786]); (93819, [93787]);
    (93820, [93788]); (93821, [93789]); (93822, [93790]); (93823, [93791]);
    (125218, [125184]); (125219, [125185]); (125220, [125186]);
    (125221, [125187]); (125222, [125188]); (125223, [125189]);
    (125224, [125190]); (125225, [125191]); (125226, [125192]);
    (125227, [125193]); (125228, [125194]); (125229, [125195]);
    (125230, [125196]); (125231, [125197]); (125232, [125198]);
    (125233, [125199]); (125234, [125200]); (125235, [125201]);
    (125236, [125202]); (125237, [125203]); (125238, [125204]);
    (125239, [125205]); (125240, [125206]); (125241, [125207]);
    (125242, [125208]); (125243, [125209]); (125244, [125210]);
    (125245, [125211]); (125246, [125212]); (125247, [125213]);
    (125248, [125214]); (125249, [125215]); (125250, [125216]);
    (125251, [125217])
  ].

(** The code points [str.lower] changes, out of context. *)
Definition LOWER_TABLE : list (N * list N) :=
  [
    (65, [97]); (66, [98]); (67, [99]); (68, [100]); (69, [101]);
    (70, [102]); (71, [103]); (72, [104]); (73, [105]); (74, [106]);
    (75, [107]); (76, [108]); (77, [109]); (78, [110]); (79, [111]);
    (80, [112]); (81, [113]); (82, [114]); (83, [115]); (84, [116]);
    (85, [117]); (86, [118]); (87, [119]); (88, [120]); (89, [121]);
    (90, [122]); (192, [224]); (193, [225]); (194, [226]); (195, [227]);
    (196, [228]); (197, [229]); (198, [230]); (199, [231]); (200, [232]);
    (201, [233]); (202, [234]); (203, [235]); (204, [236]); (205, [237]);
    (206, [238]); (207, [239]); (208, [240]); (209, [241]); (210, [242]);
    (211, [243]); (212, [244]); (213, [245]); (214, [246]); (216, [248]);
    (217, [249]); (218, [250]); (219, [251]); (220, [252]); (221, [253]);
    (222, [254]); (256, [257]); (258, [259]); (260, [261]); (262, [263]);
    (264, [265]); (266, [267]); (268, [269]); (270, [271]); (272, [273]);
    (274, [275]); (276, [277]); (278, [279]); (280, [281]); (282, [283]);
    (284, [285]); (286, [287]); (288, [289]); (290, [291]); (292, [293]);
    (294, [295]); (296, [297]); (298, [299]); (300, [301]); (302, [303]);
    (304, [105; 775]); (306, [307]); (308, [309]); (310, [311]);
    (313, [314]); (315, [316]); (317, [318]); (319, [320]); (321, [322]);
    (323, [324]); (325, [326]); (327, [328]); (330, [331]); (332, [333]);
    (334, [335]); (336, [337]); (338, [339]); (340, [341]); (342, [343]);
    (344, [345]); (346, [347]); (348, [349]); (350, [351]); (352, [353]);
    (354, [355]); (356, [357]); (358, [359]); (360, [361]); (362, [363]);
    (364, [365]); (366, [367]); (368, [369]); (370, [371]); (372, [373]);
    (374, [375]); (376, [255]); (377, [378]); (379, [380]); (381, [382]);
    (385, [595]); (386, [387]); (388, [389]); (390, [596]); (391, [392]);
    (393, [598]); (394, [599]); (395, [396]); (398, [477]); (399, [601]);
    (400, [603]); (401, [402]); (403, [608]); (404, [611]); (406, [617]);
    (407, [616]); (408, [409]); (412, [623]); (413, [626]); (415, [629]);
    (416, [417]); (418, [419]); (420, [421]); (422, [640]); (423, [424]);
    (425, [643]); (428, [429]); (430, [648]); (431, [432]); (433, [650]);
    (434, [651]); (435, [436]); (437, [438]); (439, [658]); (440, [441]);
    (444, [445]); (452, [454]); (453, [454]); (455, [457]); (456, [457]);
    (458, [460]); (459, [460]); (461, [462]); (463, [464]); (465, [466]);
    (467, [468]); (469, [470]); (471, [472]); (473, [474]); (475, [476]);
    (478, [479]); (480, [481]); (482, [483]); (484, [485]); (486, [487]);
    (488, [489]); (490, [491]); (492, [493]); (494, [495]); (497, [499]);
    (498, [499]); (500, [501]); (502, [405]); (503, [447]); (504, [505]);
    (506, [507]); (508, [509]); (510, [511]); (512, [513]); (514, [515]);
    (516, [517]); (518, [519]); (520, [521]); (522, [523]); (524, [525]);
    (526, [527]); (528, [529]); (530, [531]); (532, [533]); (534, [535]);
    (536, [537]); (538, [539]); (540, [541]); (542, [543]); (544, [414]);
    (546, [547]); (548, [549]); (550, [551]); (552, [553]); (554, [555]);
    (556, [557]); (558, [559]); (560, [561]); (562, [563]); (570, [11365]);
    (571, [572]); (573, [410]); (574, [11366]); (577, [578]); (579, [384]);
    (580, [649]); (581, [652]); (582, [583]); (584, [585]); (586, [587]);
    (588, [589]); (590, [591]); (880, [881]); (882, [883]); (886, [887]);
    (895, [1011]); (902, [940]); (904, [941]); (905, [942]); (906, [943]);
    (908, [972]); (910, [973]); (911, [974]); (913, [945]); (914, [946]);
    (915, [947]); (916, [948]); (917, [949]); (918, [950]); (919, [951]);
    (920, [952]); (921, [953]); (922, [954]); (923, [955]); (924, [956]);
    (925, [957]); (926, [958]); (927, [959]); (928, [960]); (929, [961]);
    (931, [963]); (932, [964]); (933, [965]); (934, [966]); (935, [967]);
    (936, [968]); (937, [969]); (938, [970]); (939, [971]); (975, [983]);
    (984, [985]); (986, [987]); (988, [989]); (990, [991]); (992, [993]);
    (994, [995]); (996, [997]); (998, [999]); (1000, [1001]); (1002, [1003]);
    (1004, [1005]); (1006, [1007]); (1012, [952]); (1015, [1016]);
    (1017, [1010]); (1018, [1019]); (1021, [891]); (1022, [892]);
    (1023, [893]); (1024, [1104]); (1025, [1105]); (1026, [1106]);
    (1027, [1107]); (1028, [1108]); (1029, [1109]); (1030, [1110]);
    (1031, [1111]); (1032, [1112]); (1033, [1113]); (1034, [1114]);
    (1035, [1115]); (1036, [1116]); (1037, [1117]); (1038, [1118]);
    (1039, [1119]); (1040, [1072]); (1041, [1073]); (1042, [1074]);
    (1043, [1075]); (1044, [1076]); (1045, [1077]); (1046, [1078]);
    (1047, [1079]); (1048, [1080]); (1049, [1081]); (1050, [1082]);
    (1051, [1083]); (1052, [1084]); (1053, [1085]); (1054, [1086]);
    (1055, [1087]); (1056, [1088]); (1057, [1089]); (1058, [1090]);
    (1059, [1091]); (1060, [1092]); (1061, [1093]); (1062, [1094]);
    (1063, [1095]); (1064, [1096]); (1065, [1097]); (1066, [1098]);
    (1067, [1099]); (1068, [1100]); (1069, [1101]); (1070, [1102]);
    (1071, [1103]); (1120, [1121]); (1122, [1123]); (1124, [1125]);
    (1126, [1127]); (1128, [1129]); (1130, [1131]); (1132, [1133]);
    (1134, [1135]); (1136, [1137]); (1138, [1139]); (1140, [1141]);
    (1142, [1143]); (1144, [1145]); (1146, [1147]); (1148, [1149]);
    (1150, [1151]); (1152, [1153]); (1162, [1163]); (1164, [1165]);
    (1166, [1167]); (1168, [1169]); (1170, [1171]); (1172, [1173]);
    (1174, [1175]); (1176, [1177]); (1178, [1179]); (1180, [1181]);
    (1182, [1183]); (1184, [1185]); (1186, [1187]); (1188, [1189]);
    (1190, [1191]); (1192, [1193]); (1194, [1195]); (1196, [1197]);
    (1198, [1199]); (1200, [1201]); (1202, [1203]); (1204, [1205]);
    (1206, [1207]); (1208, [1209]); (1210, [1211]); (1212, [1213]);
    (1214, [1215]); (1216, [1231]); (1217, [1218]); (1219, [1220]);
    (1221, [1222]); (1223, [1224]); (1225, [1226]); (1227, [1228]);
    (1229, [1230]); (1232, [1233]); (1234, [1235]); (1236, [1237]);
    (1238, [1239]); (1240, [1241]); (1242, [1243]); (1244, [1245]);
    (1246, [1247]); (1248, [1249]); (1250, [1251]); (1252, [1253]);
    (1254, [1255]); (1256, [1257]); (1258, [1259]); (1260, [1261]);
    (1262, [1263]); (1264, [1265]); (1266, [1267]); (1268, [1269]);
    (1270, [1271]); (1272, [1273]); (1274, [1275]); (1276, [1277]);
    (1278, [1279]); (1280, [1281]); (1282, [1283]); (1284, [1285]);
    (1286, [1287]); (1288, [1289]); (1290, [1291]); (1292, [1293]);
    (1294, [1295]); (1296, [1297]); (1298, [1299]); (1300, [1301]);
    (1302, [1303]); (1304, [1305]); (1306, [1307]); (1308, [1309]);
    (1310, [1311]); (1312, [1313]); (1314, [1315]); (1316, [1317]);
    (1318, [1319]); (1320, [1321]); (1322, [1323]); (1324, [1325]);
    (1326, [1327]); (1329, [1377]); (1330, [1378]); (1331, [1379]);
    (1332, [1380]); (1333, [1381]); (1334, [1382]); (1335, [1383]);
    (1336, [1384]); (1337, [1385]); (1338, [1386]); (1339, [1387]);
    (1340, [1388]); (1341, [1389]); (1342, [1390]); (1343, [1391]);
    (1344, [1392]); (1345, [1393]); (1346, [1394]); (1347, [1395]);
    (1348, [1396]); (1349, [1397]); (1350, [1398]); (1351, [1399]);
    (1352, [1400]); (1353, [1401]); (1354, [1402]); (1355, [1403]);
    (1356, [1404]); (1357, [1405]); (1358, [1406]); (1359, [1407]);
    (1360, [1408]); (1361, [1409]); (1362, [1410]); (1363, [1411]);
    (1364, [1412]); (1365, [1413]); (1366, [1414]); (4256, [11520]);
    (4257, [11521]); (4258, [11522]); (4259, [11523]); (4260, [11524]);
    (4261, [11525]); (4262, [11526]); (4263, [11527]); (4264, [11528]);
    (4265, [11529]); (4266, [11530]); (4267, [11531]); (4268, [11532]);
    (4269, [11533]); (4270, [11534]); (4271, [11535]); (4272, [11536]);
    (4273, [11537]); (4274, [11538]); (4275, [11539]); (4276, [11540]);
    (4277, [11541]); (4278, [11542]); (4279, [11543]); (4280, [11544]);
    (4281, [11545]); (4282, [11546]); (4283, [11547]); (4284, [11548]);
    (4285, [11549]); (4286, [11550]); (4287, [11551]); (4288, [11552]);
    (4289, [11553]); (4290, [11554]); (4291, [11555]); (4292, [11556]);
    (4293, [11557]); (4295, [11559]); (4301, [11565]); (5024, [43888]);
    (5025, [43889]); (5026, [43890]); (5027, [43891]); (5028, [43892]);
    (5029, [43893]); (5030, [43894]); (5031, [43895]); (5032, [43896]);
    (5033, [43897]); (5034, [43898]); (5035, [43899]); (5036, [43900]);
    (5037, [43901]); (5038, [43902]); (5039, [43903]); (5040, [43904]);
    (5041, [43905]); (5042, [43906]); (5043, [43907]); (5044, [43908]);
    (5045, [43909]); (5046, [43910]); (5047, [43911]); (5048, [43912]);
    (5049, [43913]); (5050, [43914]); (5051, [43915]); (5052, [43916]);
    (5053, [43917]); (5054, [43918]); (5055, [43919]); (5056, [43920]);
    (5057, [43921]); (5058, [43922]); (5059, [43923]); (5060, [43924]);
    (5061, [43925]); (5062, [43926]); (5063, [43927]); (5064, [43928]);
    (5065, [43929]); (5066, [43930]); (5067, [43931]); (5068, [43932]);
    (5069, [43933]); (5070, [43934]); (5071, [43935]); (5072, [43936]);
    (5073, [43937]); (5074, [43938]); (5075, [43939]); (5076, [43940]);
    (5077, [43941]); (5078, [43942]); (5079, [43943]); (5080, [43944]);
    (5081, [43945]); (5082, [43946]); (5083, [43947]); (5084, [43948]);
    (5085, [43949]); (5086, [43950]); (5087, [43951]); (5088, [43952]);
    (5089, [43953]); (5090, [43954]); (5091, [43955]); (5092, [43956]);
    (5093, [43957]); (5094, [43958]); (5095, [43959]); (5096, [43960]);
    (5097, [43961]); (5098, [43962]); (5099, [43963]); (5100, [43964]);
    (5101, [43965]); (5102, [43966]); (5103, [43967]); (5104, [5112]);
    (5105, [5113]); (5106, [5114]); (5107, [5115]); (5108, [5116]);
    (5109, [5117]); (7312, [4304]); (7313, [4305]); (7314, [4306]);
    (7315, [4307]); (7316, [4308]); (7317, [4309]); (7318, [4310]);
    (7319, [4311]); (7320, [4312]); (7321, [4313]); (7322, [4314]);
    (7323, [4315]); (7324, [4316]); (7325, [4317]); (7326, [4318]);
    (7327, [4319]); (7328, [4320]); (7329, [4321]); (7330, [4322]);
    (7331, [4323]); (7332, [4324]); (7333, [4325]); (7334, [4326]);
    (7335, [4327]); (7336, [4328]); (7337, [4329]); (7338, [4330]);
    (7339, [4331]); (7340, [4332]); (7341, [4333]); (7342, [4334]);
    (7343, [4335]); (7344, [4336]); (7345, [4337]); (7346, [4338]);
    (7347, [4339]); (7348, [4340]); (7349, [4341]); (7350, [4342]);
    (7351, [4343]); (7352, [4344]); (7353, [4345]); (7354, [4346]);
    (7357, [4349]); (7358, [4350]); (7359, [4351]); (7680, [7681]);
    (7682, [7683]); (7684, [7685]); (7686, [7687]); (7688, [7689]);
    (7690, [7691]); (7692, [7693]); (7694, [7695]); (7696, [7697]);
    (7698, [7699]); (7700, [7701]); (7702, [7703]); (7704, [7705]);
    (7706, [7707]); (7708, [7709]); (7710, [7711]); (7712, [7713]);
    (7714, [7715]); (7716, [7717]); (7718, [7719]); (7720, [7721]);
    (7722, [7723]); (7724, [7725]); (7726, [7727]); (7728, [7729]);
    (7730, [7731]); (7732, [7733]); (7734, [7735]); (7736, [7737]);
    (7738, [7739]); (7740, [7741]); (7742, [7743]); (7744, [7745]);
    (7746, [7747]); (7748, [7749]); (7750, [7751]); (7752, [7753]);
    (7754, [7755]); (7756, [7757]); (7758, [7759]); (7760, [7761]);
    (7762, [7763]); (7764, [7765]); (7766, [7767]); (7768, [7769]);
    (7770, [7771]); (7772, [7773]); (7774, [7775]); (7776, [7777]);
    (7778, [7779]); (7780, [7781]); (7782, [7783]); (7784, [7785]);
    (7786, [7787]); (7788, [7789]); (7790, [7791]); (7792, [7793]);
    (7794, [7795]); (7796, [7797]); (7798, [7799]); (7800, [7801]);
    (7802, [7803]); (7804, [7805]); (7806, [7807]); (7808, [7809]);
    (7810, [7811]); (7812, [7813]); (7814, [7815]); (7816, [7817]);
    (7818, [7819]); (7820, [7821]); (7822, [7823]); (7824, [7825]);
    (7826, [7827]); (7828, [7829]); (7838, [223]); (7840, [7841]);
    (7842, [7843]); (7844, [7845]); (7846, [7847]); (7848, [7849]);
    (7850, [7851]); (7852, [7853]); (7854, [7855]); (7856, [7857]);
    (7858, [7859]); (7860, [7861]); (7862, [7863]); (7864, [7865]);
    (7866, [7867]); (7868, [7869]); (7870, [7871]); (7872, [7873]);
    (7874, [7875]); (7876, [7877]); (7878, [7879]); (7880, [7881]);
    (7882, [7883]); (7884, [7885]); (7886, [7887]); (7888, [7889]);
    (7890, [7891]); (7892, [7893]); (7894, [7895]); (7896, [7897]);
    (7898, [7899]); (7900, [7901]); (7902, [7903]); (7904, [7905]);
    (7906, [7907]); (7908, [7909]); (7910, [7911]); (7912, [7913]);
    (7914, [7915]); (7916, [7917]); (7918, [7919]); (7920, [7921]);
    (7922, [7923]); (7924, [7925]); (7926, [7927]); (7928, [7929]);
    (7930, [7931]); (7932, [7933]); (7934, [7935]); (7944, [7936]);
    (7945, [7937]); (7946, [7938]); (7947, [7939]); (7948, [7940]);
    (7949, [7941]); (7950, [7942]); (7951, [7943]); (7960, [7952]);
    (7961, [7953]); (7962, [7954]); (7963, [7955]); (7964, [7956]);
    (7965, [7957]); (7976, [7968]); (7977, [7969]); (7978, [7970]);
    (7979, [7971]); (7980, [7972]); (7981, [7973]); (7982, [7974]);
    (7983, [7975]); (7992, [7984]); (7993, [7985]); (7994, [7986]);
    (7995, [7987]); (7996, [7988]); (7997, [7989]); (7998, [7990]);
    (7999, [7991]); (8008, [8000]); (8009, [8001]); (8010, [8002]);
    (8011, [8003]); (8012, [8004]); (8013, [8005]); (8025, [8017]);
    (8027, [8019]); (8029, [8021]); (8031, [8023]); (8040, [8032]);
    (8041, [8033]); (8042, [8034]); (8043, [8035]); (8044, [8036]);
    (8045, [8037]); (8046, [8038]); (8047, [8039]); (8072, [8064]);
    (8073, [8065]); (8074, [8066]); (8075, [8067]); (8076, [8068]);
    (8077, [8069]); (8078, [8070]); (8079, [8071]); (8088, [8080]);
    (8089, [8081]); (8090, [8082]); (8091, [8083]); (8092, [8084]);
    (8093, [8085]); (8094, [8086]); (8095, [8087]); (8104, [8096]);
    (8105, [8097]); (8106, [8098]); (8107, [8099]); (8108, [8100]);
    (8109, [8101]); (8110, [8102]); (8111, [8103]); (8120, [8112]);
    (8121, [8113]); (8122, [8048]); (8123, [8049]); (8124, [8115]);
    (8136, [8050]); (8137, [8051]); (8138, [8052]); (8139, [8053]);
    (8140, [8131]); (8152, [8144]); (8153, [8145]); (8154, [8054]);
    (8155, [8055]); (8168, [8160]); (8169, [8161]); (8170, [8058]);
    (8171, [8059]); (8172, [8165]); (8184, [8056]); (8185, [8057]);
    (8186, [8060]); (8187, [8061]); (8188, [8179]); (8486, [969]);
    (8490, [107]); (8491, [229]); (8498, [8526]); (8544, [8560]);
    (8545, [8561]); (8546, [8562]); (8547, [8563]); (8548, [8564]);
    (8549, [8565]); (8550, [8566]); (8551, [8567]); (8552, [8568]);
    (8553, [8569]); (8554, [8570]); (8555, [8571]); (8556, [8572]);
    (8557, [8573]); (8558, [8574]); (8559, [8575]); (8579, [8580]);
    (9398, [9424]); (9399, [9425]); (9400, [9426]); (9401, [9427]);
    (9402, [9428]); (9403, [9429]); (9404, [9430]); (9405, [9431]);
    (9406, [9432]); (9407, [9433]); (9408, [9434]); (9409, [9435]);
    (9410, [9436]); (9411, [9437]); (9412, [9438]); (9413, [9439]);
    (9414, [9440]); (9415, [9441]); (9416, [9442]); (9417, [9443]);
    (9418, [9444]); (9419, [9445]); (9420, [9446]); (9421, [9447]);
    (9422, [9448]); (9423, [9449]); (11264, [11312]); (11265, [11313]);
    (11266, [11314]); (11267, [11315]); (11268, [11316]); (11269, [11317]);
    (11270, [11318]); (11271, [11319]); (11272, [11320]); (11273, [11321]);
    (11274, [11322]); (11275, [11323]); (11276, [11324]); (11277, [11325]);
    (11278, [11326]); (11279, [11327]); (11280, [11328]); (11281, [11329]);
    (11282, [11330]); (11283, [11331]); (11284, [11332]); (11285, [11333]);
    (11286, [11334]); (11287, [11335]); (11288, [11336]); (11289, [11337]);
    (11290, [11338]); (11291, [11339]); (11292, [11340]); (11293, [11341]);
    (11294, [11342]); (11295, [11343]); (11296, [11344]); (11297, [11345]);
    (11298, [11346]); (11299, [11347]); (11300, [11348]); (11301, [11349]);
    (11302, [11350]); (11303, [11351]); (11304, [11352]); (11305, [11353]);
    (11306, [11354]); (11307, [11355]); (11308, [11356]); (11309, [11357]);
    (11310, [11358]); (11311, [11359]); (11360, [11361]); (11362, [619]);
    (11363, [7549]); (11364, [637]); (11367, [11368]); (11369, [11370]);
    (11371, [11372]); (11373, [593]); (11374, [625]); (11375, [592]);
    (11376, [594]); (11378, [11379]); (11381, [11382]); (11390, [575]);
    (11391, [576]); (11392, [11393]); (11394, [11395]); (11396, [11397]);
    (11398, [11399]); (11400, [11401]); (11402, [11403]); (11404, [11405]);
    (11406, [11407]); (11408, [11409]); (11410, [11411]); (11412, [11413]);
    (11414, [11415]); (11416, [11417]); (11418, [11419]); (11420, [11421]);
    (11422, [11423]); (11424, [11425]); (11426, [11427]); (11428, [11429]);
    (11430, [11431]); (11432, [11433]); (11434, [11435]); (11436, [11437]);
    (11438, [11439]); (11440, [11441]); (11442, [11443]); (11444, [11445]);
    (11446, [11447]); (11448, [11449]); (11450, [11451]); (11452, [11453]);
    (11454, [11455]); (11456, [11457]); (11458, [11459]); (11460, [11461]);
    (11462, [11463]); (11464, [11465]); (11466, [11467]); (11468, [11469]);
    (11470, [11471]); (11472, [11473]); (11474, [11475]); (11476, [11477]);
    (11478, [11479]); (11480, [11481]); (11482, [11483]); (11484, [11485]);
    (11486, [11487]); (11488, [11489]); (11490, [11491]); (11499, [11500]);
    (11501, [11502]); (11506, [11507]); (42560, [42561]); (42562, [42563]);
    (42564, [42565]); (42566, [42567]); (42568, [42569]); (42570, [42571]);
    (42572, [42573]); (42574, [42575]); (42576, [42577]); (42578, [42579]);
    (42580, [42581]); (42582, [42583]); (42584, [42585]); (42586, [42587]);
    (42588, [42589]); (42590, [42591]); (42592, [42593]); (42594, [42595]);
    (42596, [42597]); (42598, [42599]); (42600, [42601]); (42602, [42603]);
    (42604, [42605]); (42624, [42625]); (42626, [42627]); (42628, [42629]);
    (42630, [42631]); (42632, [42633]); (42634, [42635]); (42636, [42637]);
    (42638, [42639]); (42640, [42641]); (42642, [42643]); (42644, [42645]);
    (42646, [42647]); (42648, [42649]); (42650, [42651]); (42786, [42787]);
    (42788, [42789]); (42790, [42791]); (42792, [42793]); (42794, [42795]);
    (42796, [42797]); (42798, [42799]); (42802, [42803]); (42804, [42805]);
    (42806, [42807]); (42808, [42809]); (42810, [42811]); (42812, [42813]);
    (42814, [42815]); (42816, [42817]); (42818, [42819]); (42820, [42821]);
    (42822, [42823]); (42824, [42825]); (42826, [42827]); (42828, [42829]);
    (42830, [42831]); (42832, [42833]); (42834, [42835]); (42836, [42837]);
    (42838, [42839]); (42840, [42841]); (42842, [42843]); (42844, [42845]);
    (42846, [42847]); (42848, [42849]); (42850, [42851]); (42852, [42853]);
    (42854, [42855]); (42856, [42857]); (42858, [42859]); (42860, [42861]);
    (42862, [42863]); (42873, [42874]); (42875, [42876]); (42877, [7545]);
    (42878, [42879]); (42880, [42881]); (42882, [42883]); (42884, [42885]);
    (42886, [42887]); (42891, [42892]); (42893, [613]); (42896, [42897]);
    (42898, [42899]); (42902, [42903]); (42904, [42905]); (42906, [42907]);
    (42908, [42909]); (42910, [42911]); (42912, [42913]); (42914, [42915]);
    (42916, [42917]); (42918, [42919]); (42920, [42921]); (42922, [614]);
    (42923, [604]); (42924, [609]); (42925, [620]); (42926, [618]);
    (42928, [670]); (42929, [647]); (42930, [669]); (42931, [43859]);
    (42932, [42933]); (42934, [42935]); (42936, [42937]); (42938, [42939]);
    (42940, [42941]); (42942, [42943]); (42944, [42945]); (42946, [42947]);
    (42948, [42900]); (42949, [642]); (42950, [7566]); (42951, [42952]);
    (42953, [42954]); (42960, [42961]); (42966, [42967]); (42968, [42969]);
    (42997, [42998]); (65313, [65345]); (65314, [65346]); (65315, [65347]);
    (65316, [65348]); (65317, [65349]); (65318, [65350]); (65319, [65351]);
    (65320, [65352]); (65321, [65353]); (65322, [65354]); (65323, [65355]);
    (65324, [65356]); (65325, [65357]); (65326, [65358]); (65327, [65359]);
    (65328, [65360]); (65329, [65361]); (65330, [65362]); (65331, [65363]);
    (65332, [65364]); (65333, [65365]); (65334, [65366]); (65335, [65367]);
    (65336, [65368]); (65337, [65369]); (65338, [65370]); (66560, [66600]);
    (66561, [66601]); (66562, [66602]); (66563, [66603]); (66564, [66604]);
    (66565, [66605]); (66566, [66606]); (66567, [66607]); (66568, [66608]);
    (66569, [66609]); (66570, [66610]); (66571, [66611]); (66572, [66612]);
    (66573, [66613]); (66574, [66614]); (66575, [66615]); (66576, [66616]);
    (66577, [66617]); (66578, [66618]); (66579, [66619]); (66580, [66620]);
    (66581, [66621]); (66582, [66622]); (66583, [66623]); (66584, [66624]);
    (66585, [66625]); (66586, [66626]); (66587, [66627]); (66588, [66628]);
    (66589, [66629]); (66590, [66630]); (66591, [66631]); (66592, [66632]);
    (66593, [66633]); (66594, [66634]); (66595, [66635]); (66596, [66636]);
    (66597, [66637]); (66598, [66638]); (66599, [66639]); (66736, [66776]);
    (66737, [66777]); (66738, [66778]); (66739, [66779]); (66740, [66780]);
    (66741, [66781]); (66742, [66782]); (66743, [66783]); (66744, [66784]);
    (66745, [66785]); (66746, [66786]); (66747, [66787]); (66748, [66788]);
    (66749, [66789]); (66750, [66790]); (66751, [66791]); (66752, [66792]);
    (66753, [66793]); (66754, [66794]); (66755, [66795]); (66756, [66796]);
    (66757, [66797]); (66758, [66798]); (66759, [66799]); (66760, [66800]);
    (66761, [66801]); (66762, [66802]); (66763, [66803]); (66764, [66804]);
    (66765, [66805]); (66766, [66806]); (66767, [66807]); (66768, [66808]);
    (66769, [66809]); (66770, [66810]); (66771, [66811]); (66928, [66967]);
    (66929, [66968]); (66930, [66969]); (66931, [66970]); (66932, [66971]);
    (66933, [66972]); (66934, [66973]); (66935, [66974]); (66936, [66975]);
    (66937, [66976]); (66938, [66977]); (66940, [66979]); (66941, [66980]);
    (66942, [66981]); (66943, [66982]); (66944, [66983]); (66945, [66984]);
    (66946, [66985]); (66947, [66986]); (66948, [66987]); (66949, [66988]);
    (66950, [66989]); (66951, [66990]); (66952, [66991]); (66953, [66992]);
    (66954, [66993]); (66956, [66995]); (66957, [66996]); (66958, [66997]);
    (66959, [66998]); (66960, [66999]); (66961, [67000]); (66962, [67001]);
    (66964, [67003]); (66965, [67004]); (68736, [68800]); (68737, [68801]);
    (68738, [68802]); (68739, [68803]); (68740, [68804]); (68741, [68805]);
    (68742, [68806]); (68743, [68807]); (68744, [68808]); (68745, [68809]);
    (68746, [68810]); (68747, [68811]); (68748, [68812]); (68749, [68813]);
    (68750, [68814]); (68751, [68815]); (68752, [68816]); (68753, [68817]);
    (68754, [68818]); (68755, [68819]); (68756, [68820]); (68757, [68821]);
    (68758, [68822]); (68759, [68823]); (68760, [68824]); (68761, [68825]);
    (68762, [68826]); (68763, [68827]); (68764, [68828]); (68765, [68829]);
    (68766, [68830]); (68767, [68831]); (68768, [68832]); (68769, [68833]);
    (68770, [68834]); (68771, [68835]); (68772, [68836]); (68773, [68837]);
    (68774, [68838]); (68775, [68839]); (68776, [68840]); (68777, [68841]);
    (68778, [68842]); (68779, [68843]); (68780, [68844]); (68781, [68845]);
    (68782, [68846]); (68783, [68847]); (68784, [68848]); (68785, [68849]);
    (68786, [68850]); (71840, [71872]); (71841, [71873]); (71842, [71874]);
    (71843, [71875]); (71844, [71876]); (71845, [71877]); (71846, [71878]);
    (71847, [71879]); (71848, [71880]); (71849, [71881]); (71850, [71882]);
    (71851, [71883]); (71852, [71884]); (71853, [71885]); (71854, [71886]);
    (71855, [71887]); (71856, [71888]); (71857, [71889]); (71858, [71890]);
    (71859, [71891]); (71860, [71892]); (71861, [71893]); (71862, [71894]);
    (71863, [71895]); (71864, [71896]); (71865, [71897]); (71866, [71898]);
    (71867, [71899]); (71868, [71900]); (71869, [71901]); (71870, [71902]);
    (71871, [71903]); (93760, [93792]); (93761, [93793]); (93762, [93794]);
    (93763, [93795]); (93764, [93796]); (93765, [93797]); (93766, [93798]);
    (93767, [93799]); (93768, [93800]); (93769, [93801]); (93770, [93802]);
    (93771, [93803]); (93772, [93804]); (93773, [93805]); (93774, [93806]);
    (93775, [93807]); (93776, [93808]); (93777, [93809]); (93778, [93810]);
    (93779, [93811]); (93780, [93812]); (93781, [93813]); (93782, [93814]);
    (93783, [93815]); (93784, [93816]); (93785, [93817]); (93786, [93818]);
    (93787, [93819]); (93788, [93820]); (93789, [93821]); (93790, [93822]);
    (93791, [93823]); (125184, [125218]); (125185, [125219]);
    (125186, [125220]); (125187, [125221]); (125188, [125222]);
    (125189, [125223]); (125190, [125224]); (125191, [125225]);
    (125192, [125226]); (125193, [125227]); (125194, [125228]);
    (125195, [125229]); (125196, [125230]); (125197, [125231]);
    (125198, [125232]); (125199, [125233]); (125200, [125234]);
    (125201, [125235]); (125202, [125236]); (125203, [125237]);
    (125204, [125238]); (125205, [125239]); (125206, [125240]);
    (125207, [125241]); (125208, [125242]); (125209, [125243]);
    (125210, [125244]); (125211, [125245]); (125212, [125246]);
    (125213, [125247]); (125214, [125248]); (125215, [125249]);
    (125216, [125250]); (125217, [125251])
  ].

(** The code points title-casing changes. *)
Definition TITLE_TABLE : list (N * list N) :=
  [
    (97, [65]); (98, [66]); (99, [67]); (100, [68]); (101, [69]);
    (102, [70]); (103, [71]); (104, [72]); (105, [73]); (106, [74]);
    (107, [75]); (108, [76]); (109, [77]); (110, [78]); (111, [79]);
    (112, [80]); (113, [81]); (114, [82]); (115, [83]); (116, [84]);
    (117, [85]); (118, [86]); (119, [87]); (120, [88]); (121, [89]);
    (122, [90]); (181, [924]); (223, [83; 115]); (224, [192]); (225, [193]);
    (226, [194]); (227, [195]); (228, [196]); (229, [197]); (230, [198]);
    (231, [199]); (232, [200]); (233, [201]); (234, [202]); (235, [203]);
    (236, [204]); (237, [205]); (238, [206]); (239, [207]); (240, [208]);
    (241, [209]); (242, [210]); (243, [211]); (244, [212]); (245, [213]);
    (246, [214]); (248, [216]); (249, [217]); (250, [218]); (251, [219]);
    (252, [220]); (253, [221]); (254, [222]); (255, [376]); (257, [256]);
    (259, [258]); (261, [260]); (263, [262]); (265, [264]); (267, [266]);
    (269, [268]); (271, [270]); (273, [272]); (275, [274]); (277, [276]);
    (279, [278]); (281, [280]); (283, [282]); (285, [284]); (287, [286]);
    (289, [288]); (291, [290]); (293, [292]); (295, [294]); (297, [296]);
    (299, [298]); (301, [300]); (303, [302]); (305, [73]); (307, [306]);
    (309, [308]); (311, [310]); (314, [313]); (316, [315]); (318, [317]);
    (320, [319]); (322, [321]); (324, [323]); (326, [325]); (328, [327]);
    (329, [700; 78]); (331, [330]); (333, [332]); (335, [334]); (337, [336]);
    (339, [338]); (341, [340]); (343, [342]); (345, [344]); (347, [346]);
    (349, [348]); (351, [350]); (353, [352]); (355, [354]); (357, [356]);
    (359, [358]); (361, [360]); (363, [362]); (365, [364]); (367, [366]);
    (369, [368]); (371, [370]); (373, [372]); (375, [374]); (378, [377]);
    (380, [379]); (382, [381]); (383, [83]); (384, [579]); (387, [386]);
    (389, [388]); (392, [391]); (396, [395]); (402, [401]); (405, [502]);
    (409, [408]); (410, [573]); (414, [544]); (417, [416]); (419, [418]);
    (421, [420]); (424, [423]); (429, [428]); (432, [431]); (436, [435]);
    (438, [437]); (441, [440]); (445, [444]); (447, [503]); (452, [453]);
    (454, [453]); (455, [456]); (457, [456]); (458, [459]); (460, [459]);
    (462, [461]); (464, [463]); (466, [465]); (468, [467]); (470, [469]);
    (472, [471]); (474, [473]); (476, [475]); (477, [398]); (479, [478]);
    (481, [480]); (483, [482]); (485, [484]); (487, [486]); (489, [488]);
    (491, [490]); (493, [492]); (495, [494]); (496, [74; 780]); (497, [498]);
    (499, [498]); (501, [500]); (505, [504]); (507, [506]); (509, [508]);
    (511, [510]); (513, [512]); (515, [514]); (517, [516]); (519, [518]);
    (521, [520]); (523, [522]); (525, [524]); (527, [526]); (529, [528]);
    (531, [530]); (533, [532]); (535, [534]); (537, [536]); (539, [538]);
    (541, [540]); (543, [542]); (547, [546]); (549, [548]); (551, [550]);
    (553, [552]); (555, [554]); (557, [556]); (559, [558]); (561, [560]);
    (563, [562]); (572, [571]); (575, [11390]); (576, [11391]); (578, [577]);
    (583, [582]); (585, [584]); (587, [586]); (589, [588]); (591, [590]);
    (592, [11375]); (593, [11373]); (594, [11376]); (595, [385]);
    (596, [390]); (598, [393]); (599, [394]); (601, [399]); (603, [400]);
    (604, [42923]); (608, [403]); (609, [42924]); (611, [404]);
    (613, [42893]); (614, [42922]); (616, [407]); (617, [406]);
    (618, [42926]); (619, [11362]); (620, [42925]); (623, [412]);
    (625, [11374]); (626, [413]); (629, [415]); (637, [11364]); (640, [422]);
    (642, [42949]); (643, [425]); (647, [42929]); (648, [430]); (649, [580]);
    (650, [433]); (651, [434]); (652, [581]); (658, [439]); (669, [42930]);
    (670, [42928]); (837, [921]); (881, [880]); (883, [882]); (887, [886]);
    (891, [1021]); (892, [1022]); (893, [1023]); (912, [921; 776; 769]);
    (940, [902]); (941, [904]); (942, [905]); (943, [906]);
    (944, [933; 776; 769]); (945, [913]); (946, [914]); (947, [915]);
    (948, [916]); (949, [917]); (950, [918]); (951, [919]); (952, [920]);
    (953, [921]); (954, [922]); (955, [923]); (956, [924]); (957, [925]);
    (958, [926]); (959, [927]); (960, [928]); (961, [929]); (962, [931]);
    (963, [931]); (964, [932]); (965, [933]); (966, [934]); (967, [935]);
    (968, [936]); (969, [937]); (970, [938]); (971, [939]); (972, [908]);
    (973, [910]); (974, [911]); (976, [914]); (977, [920]); (981, [934]);
    (982, [928]); (983, [975]); (985, [984]); (987, [986]); (989, [988]);
    (991, [990]); (993, [992]); (995, [994]); (997, [996]); (999, [998]);
    (1001, [1000]); (1003, [1002]); (1005, [1004]); (1007, [1006]);
    (1008, [922]); (1009, [929]); (1010, [1017]); (1011, [895]);
    (1013, [917]); (1016, [1015]); (1019, [1018]); (1072, [1040]);
    (1073, [1041]); (1074, [1042]); (1075, [1043]); (1076, [1044]);
    (1077, [1045]); (1078, [1046]); (1079, [1047]); (1080, [1048]);
    (1081, [1049]); (1082, [1050]); (1083, [1051]); (1084, [1052]);
    (1085, [1053]); (1086, [1054]); (1087, [1055]); (1088, [1056]);
    (1089, [1057]); (1090, [1058]); (1091, [1059]); (1092, [1060]);
    (1093, [1061]); (1094, [1062]); (1095, [1063]); (1096, [1064]);
    (1097, [1065]); (1098, [1066]); (1099, [1067]); (1100, [1068]);
    (1101, [1069]); (1102, [1070]); (1103, [1071]); (1104, [1024]);
    (1105, [1025]); (1106, [1026]); (1107, [1027]); (1108, [1028]);
    (1109, [1029]); (1110, [1030]); (1111, [1031]); (1112, [1032]);
    (1113, [1033]); (1114, [1034]); (1115, [1035]); (1116, [1036]);
    (1117, [1037]); (1118, [1038]); (1119, [1039]); (1121, [1120]);
    (1123, [1122]); (1125, [1124]); (1127, [1126]); (1129, [1128]);
    (1131, [1130]); (1133, [1132]); (1135, [1134]); (1137, [1136]);
    (1139, [1138]); (1141, [1140]); (1143, [1142]); (1145, [1144]);
    (1147, [1146]); (1149, [1148]); (1151, [1150]); (1153, [1152]);
    (1163, [1162]); (1165, [1164]); (1167, [1166]); (1169, [1168]);
    (1171, [1170]); (1173, [1172]); (1175, [1174]); (1177, [1176]);
    (1179, [1178]); (1181, [1180]); (1183, [1182]); (1185, [1184]);
    (1187, [1186]); (1189, [1188]); (1191, [1190]); (1193, [1192]);
    (1195, [1194]); (1197, [1196]); (1199, [1198]); (1201, [1200]);
    (1203, [1202]); (1205, [1204]); (1207, [1206]); (1209, [1208]);
    (1211, [1210]); (1213, [1212]); (1215, [1214]); (1218, [1217]);
    (1220, [1219]); (1222, [1221]); (1224, [1223]); (1226, [1225]);
    (1228, [1227]); (1230, [1229]); (1231, [1216]); (1233, [1232]);
    (1235, [1234]); (1237, [1236]); (1239, [1238]); (1241, [1240]);
    (1243, [1242]); (1245, [1244]); (1247, [1246]); (1249, [1248]);
    (1251, [1250]); (1253, [1252]); (1255, [1254]); (1257, [1256]);
    (1259, [1258]); (1261, [1260]); (1263, [1262]); (1265, [1264]);
    (1267, [1266]); (1269, [1268]); (1271, [1270]); (1273, [1272]);
    (1275, [1274]); (1277, [1276]); (1279, [1278]); (1281, [1280]);
    (1283, [1282]); (1285, [1284]); (1287, [1286]); (1289, [1288]);
    (1291, [1290]); (1293, [1292]); (1295, [1294]); (1297, [1296]);
    (1299, [1298]); (1301, [1300]); (1303, [1302]); (1305, [1304]);
    (1307, [1306]); (1309, [1308]); (1311, [1310]); (1313, [1312]);
    (1315, [1314]); (1317, [1316]); (1319, [1318]); (1321, [1320]);
    (1323, [1322]); (1325, [1324]); (1327, [1326]); (1377, [1329]);
    (1378, [1330]); (1379, [1331]); (1380, [1332]); (1381, [1333]);
    (1382, [1334]); (1383, [1335]); (1384, [1336]); (1385, [1337]);
    (1386, [1338]); (1387, [1339]); (1388, [1340]); (1389, [1341]);
    (1390, [1342]); (1391, [1343]); (1392, [1344]); (1393, [1345]);
    (1394, [1346]); (1395, [1347]); (1396, [1348]); (1397, [1349]);
    (1398, [1350]); (1399, [1351]); (1400, [1352]); (1401, [1353]);
    (1402, [1354]); (1403, [1355]); (1404, [1356]); (1405, [1357]);
    (1406, [1358]); (1407, [1359]); (1408, [1360]); (1409, [1361]);
    (1410, [1362]); (1411, [1363]); (1412, [1364]); (1413, [1365]);
    (1414, [1366]); (1415, [1333; 1410]); (5112, [5104]); (5113, [5105]);
    (5114, [5106]); (5115, [5107]); (5116, [5108]); (5117, [5109]);
    (7296, [1042]); (7297, [1044]); (7298, [1054]); (7299, [1057]);
    (7300, [1058]); (7301, [1058]); (7302, [1066]); (7303, [1122]);
    (7304, [42570]); (7545, [42877]); (7549, [11363]); (7566, [42950]);
    (7681, [7680]); (7683, [7682]); (7685, [7684]); (7687, [7686]);
    (7689, [7688]); (7691, [7690]); (7693, [7692]); (7695, [7694]);
    (7697, [7696]); (7699, [7698]); (7701, [7700]); (7703, [7702]);
    (7705, [7704]); (7707, [7706]); (7709, [7708]); (7711, [7710]);
    (7713, [7712]); (7715, [7714]); (7717, [7716]); (7719, [7718]);
    (7721, [7720]); (7723, [7722]); (7725, [7724]); (7727, [7726]);
    (7729, [7728]); (7731, [7730]); (7733, [7732]); (7735, [7734]);
    (7737, [7736]); (7739, [7738]); (7741, [7740]); (7743, [7742]);
    (7745, [7744]); (7747, [7746]); (7749, [7748]); (7751, [7750]);
    (7753, [7752]); (7755, [7754]); (7757, [7756]); (7759, [7758]);
    (7761, [7760]); (7763, [7762]); (7765, [7764]); (7767, [7766]);
    (7769, [7768]); (7771, [7770]); (7773, [7772]); (7775, [7774]);
    (7777, [7776]); (7779, [7778]); (7781, [7780]); (7783, [7782]);
    (7785, [7784]); (7787, [7786]); (7789, [7788]); (7791, [7790]);
    (7793, [7792]); (7795, [7794]); (7797, [7796]); (7799, [7798]);
    (7801, [7800]); (7803, [7802]); (7805, [7804]); (7807, [7806]);
    (7809, [7808]); (7811, [7810]); (7813, [7812]); (7815, [7814]);
    (7817, [7816]); (7819, [7818]); (7821, [7820]); (7823, [7822]);
    (7825, [7824]); (7827, [7826]); (7829, [7828]); (7830, [72; 817]);
    (7831, [84; 776]); (7832, [87; 778]); (7833, [89; 778]);
    (7834, [65; 702]); (7835, [7776]); (7841, [7840]); (7843, [7842]);
    (7845, [7844]); (7847, [7846]); (7849, [7848]); (7851, [7850]);
    (7853, [7852]); (7855, [7854]); (7857, [7856]); (7859, [7858]);
    (7861, [7860]); (7863, [7862]); (7865, [7864]); (7867, [7866]);
    (7869, [7868]); (7871, [7870]); (7873, [7872]); (7875, [7874]);
    (7877, [7876]); (7879, [7878]); (7881, [7880]); (7883, [7882]);
    (7885, [7884]); (7887, [7886]); (7889, [7888]); (7891, [7890]);
    (7893, [7892]); (7895, [7894]); (7897, [7896]); (7899, [7898]);
    (7901, [7900]); (7903, [7902]); (7905, [7904]); (7907, [7906]);
    (7909, [7908]); (7911, [7910]); (7913, [7912]); (7915, [7914]);
    (7917, [7916]); (7919, [7918]); (7921, [7920]); (7923, [7922]);
    (7925, [7924]); (7927, [7926]); (7929, [7928]); (7931, [7930]);
    (7933, [7932]); (7935, [7934]); (7936, [7944]); (7937, [7945]);
    (7938, [7946]); (7939, [7947]); (7940, [7948]); (7941, [7949]);
    (7942, [7950]); (7943, [7951]); (7952, [7960]); (7953, [7961]);
    (7954, [7962]); (7955, [7963]); (7956, [7964]); (7957, [7965]);
    (7968, [7976]); (7969, [7977]); (7970, [7978]); (7971, [7979]);
    (7972, [7980]); (7973, [7981]); (7974, [7982]); (7975, [7983]);
    (7984, [7992]); (7985, [7993]); (7986, [7994]); (7987, [7995]);
    (7988, [7996]); (7989, [7997]); (7990, [7998]); (7991, [7999]);
    (8000, [8008]); (8001, [8009]); (8002, [8010]); (8003, [8011]);
    (8004, [8012]); (8005, [8013]); (8016, [933; 787]); (8017, [8025]);
    (8018, [933; 787; 768]); (8019, [8027]); (8020, [933; 787; 769]);
    (8021, [8029]); (8022, [933; 787; 834]); (8023, [8031]); (8032, [8040]);
    (8033, [8041]); (8034, [8042]); (8035, [8043]); (8036, [8044]);
    (8037, [8045]); (8038, [8046]); (8039, [8047]); (8048, [8122]);
    (8049, [8123]); (8050, [8136]); (8051, [8137]); (8052, [8138]);
    (8053, [8139]); (8054, [8154]); (8055, [8155]); (8056, [8184]);
    (8057, [8185]); (8058, [8170]); (8059, [8171]); (8060, [8186]);
    (8061, [8187]); (8064, [8072]); (8065, [8073]); (8066, [8074]);
    (8067, [8075]); (8068, [8076]); (8069, [8077]); (8070, [8078]);
    (8071, [8079]); (8080, [8088]); (8081, [8089]); (8082, [8090]);
    (8083, [8091]); (8084, [8092]); (8085, [8093]); (8086, [8094]);
    (8087, [8095]); (8096, [8104]); (8097, [8105]); (8098, [8106]);
    (8099, [8107]); (8100, [8108]); (8101, [8109]); (8102, [8110]);
    (8103, [8111]); (8112, [8120]); (8113, [8121]); (8114, [8122; 837]);
    (8115, [8124]); (8116, [902; 837]); (8118, [913; 834]);
    (8119, [913; 834; 837]); (8126, [921]); (8130, [8138; 837]);
    (8131, [8140]); (8132, [905; 837]); (8134, [919; 834]);
    (8135, [919; 834; 837]); (8144, [8152]); (8145, [8153]);
    (8146, [921; 776; 768]); (8147, [921; 776; 769]); (8150, [921; 834]);
    (8151, [921; 776; 834]); (8160, [8168]); (8161, [8169]);
    (8162, [933; 776; 768]); (8163, [933; 776; 769]); (8164, [929; 787]);
    (8165, [8172]); (8166, [933; 834]); (8167, [933; 776; 834]);
    (8178, [8186; 837]); (8179, [8188]); (8180, [911; 837]);
    (8182, [937; 834]); (8183, [937; 834; 837]); (8526, [8498]);
    (8560, [8544]); (8561, [8545]); (8562, [8546]); (8563, [8547]);
    (8564, [8548]); (8565, [8549]); (8566, [8550]); (8567, [8551]);
    (8568, [8552]); (8569, [8553]); (8570, [8554]); (8571, [8555]);
    (8572, [8556]); (8573, [8557]); (8574, [8558]); (8575, [8559]);
    (8580, [8579]); (9424, [9398]); (9425, [9399]); (9426, [9400]);
    (9427, [9401]); (9428, [9402]); (9429, [9403]); (9430, [9404]);
    (9431, [9405]); (9432, [9406]); (9433, [9407]); (9434, [9408]);
    (9435, [9409]); (9436, [9410]); (9437, [9411]); (9438, [9412]);
    (9439, [9413]); (9440, [9414]); (9441, [9415]); (9442, [9416]);
    (9443, [9417]); (9444, [9418]); (9445, [9419]); (9446, [9420]);
    (9447, [9421]); (9448, [9422]); (9449, [9423]); (11312, [11264]);
    (11313, [11265]); (11314, [11266]); (11315, [11267]); (11316, [11268]);
    (11317, [11269]); (11318, [11270]); (11319, [11271]); (11320, [11272]);
    (11321, [11273]); (11322, [11274]); (11323, [11275]); (11324, [11276]);
    (11325, [11277]); (11326, [11278]); (11327, [11279]); (11328, [11280]);
    (11329, [11281]); (11330, [11282]); (11331, [11283]); (11332, [11284]);
    (11333, [11285]); (11334, [11286]); (11335, [11287]); (11336, [11288]);
    (11337, [11289]); (11338, [11290]); (11339, [11291]); (11340, [11292]);
    (11341, [11293]); (11342, [11294]); (11343, [11295]); (11344, [11296]);
    (11345, [11297]); (11346, [11298]); (11347, [11299]); (11348, [11300]);
    (11349, [11301]); (11350, [11302]); (11351, [11303]); (11352, [11304]);
    (11353, [11305]); (11354, [11306]); (11355, [11307]); (11356, [11308]);
    (11357, [11309]); (11358, [11310]); (11359, [11311]); (11361, [11360]);
    (11365, [570]); (11366, [574]); (11368, [11367]); (11370, [11369]);
    (11372, [11371]); (11379, [11378]); (11382, [11381]); (11393, [11392]);
    (11395, [11394]); (11397, [11396]); (11399, [11398]); (11401, [11400]);
    (11403, [11402]); (11405, [11404]); (11407, [11406]); (11409, [11408]);
    (11411, [11410]); (11413, [11412]); (11415, [11414]); (11417, [11416]);
    (11419, [11418]); (11421, [11420]); (11423, [11422]); (11425, [11424]);
    (11427, [11426]); (11429, [11428]); (11431, [11430]); (11433, [11432]);
    (11435, [11434]); (11437, [11436]); (11439, [11438]); (11441, [11440]);
    (11443, [11442]); (11445, [11444]); (11447, [11446]); (11449, [11448]);
    (11451, [11450]); (11453, [11452]); (11455, [11454]); (11457, [11456]);
    (11459, [11458]); (11461, [11460]); (11463, [11462]); (11465, [11464]);
    (11467, [11466]); (11469, [11468]); (11471, [11470]); (11473, [11472]);
    (11475, [11474]); (11477, [11476]); (11479, [11478]); (11481, [11480]);
    (11483, [11482]); (11485, [11484]); (11487, [11486]); (11489, [11488]);
    (11491, [11490]); (11500, [11499]); (11502, [11501]); (11507, [11506]);
    (11520, [4256]); (11521, [4257]); (11522, [4258]); (11523, [4259]);
    (11524, [4260]); (11525, [4261]); (11526, [4262]); (11527, [4263]);
    (11528, [4264]); (11529, [4265]); (11530, [4266]); (11531, [4267]);
    (11532, [4268]); (11533, [4269]); (11534, [4270]); (11535, [4271]);
    (11536, [4272]); (11537, [4273]); (11538, [4274]); (11539, [4275]);
    (11540, [4276]); (11541, [4277]); (11542, [4278]); (11543, [4279]);
    (11544, [4280]); (11545, [4281]); (11546, [4282]); (11547, [4283]);
    (11548, [4284]); (11549, [4285]); (11550, [4286]); (11551, [4287]);
    (11552, [4288]); (11553, [4289]); (11554, [4290]); (11555, [4291]);
    (11556, [4292]); (11557, [4293]); (11559, [4295]); (11565, [4301]);
    (42561, [42560]); (42563, [42562]); (42565, [42564]); (42567, [42566]);
    (42569, [42568]); (42571, [42570]); (42573, [42572]); (42575, [42574]);
    (42577, [42576]); (42579, [42578]); (42581, [42580]); (42583, [42582]);
    (42585, [42584]); (42587, [42586]); (42589, [42588]); (42591, [42590]);
    (42593, [42592]); (42595, [42594]); (42597, [42596]); (42599, [42598]);
    (42601, [42600]); (42603, [42602]); (42605, [42604]); (42625, [42624]);
    (42627, [42626]); (42629, [42628]); (42631, [42630]); (42633, [42632]);
    (42635, [42634]); (42637, [42636]); (42639, [42638]); (42641, [42640]);
    (42643, [42642]); (42645, [42644]); (42647, [42646]); (42649, [42648]);
    (42651, [42650]); (42787, [42786]); (42789, [42788]); (42791, [42790]);
    (42793, [42792]); (42795, [42794]); (42797, [42796]); (42799, [42798]);
    (42803, [42802]); (42805, [42804]); (42807, [42806]); (42809, [42808]);
    (42811, [42810]); (42813, [42812]); (42815, [42814]); (42817, [42816]);
    (42819, [42818]); (42821, [42820]); (42823, [42822]); (42825, [42824]);
    (42827, [42826]); (42829, [42828]); (42831, [42830]); (42833, [42832]);
    (42835, [42834]); (42837, [42836]); (42839, [42838]); (42841, [42840]);
    (42843, [42842]); (42845, [42844]); (42847, [42846]); (42849, [42848]);
    (42851, [42850]); (42853, [42852]); (42855, [42854]); (42857, [42856]);
    (42859, [42858]); (42861, [42860]); (42863, [42862]); (42874, [42873]);
    (42876, [42875]); (42879, [42878]); (42881, [42880]); (42883, [42882]);
    (42885, [42884]); (42887, [42886]); (42892, [42891]); (42897, [42896]);
    (42899, [42898]); (42900, [42948]); (42903, [42902]); (42905, [42904]);
    (42907, [42906]); (42909, [42908]); (42911, [42910]); (42913, [42912]);
    (42915, [42914]); (42917, [42916]); (42919, [42918]); (42921, [42920]);
    (42933, [42932]); (42935, [42934]); (42937, [42936]); (42939, [42938]);
    (42941, [42940]); (42943, [42942]); (42945, [42944]); (42947, [42946]);
    (42952, [42951]); (42954, [42953]); (42961, [42960]); (42967, [42966]);
    (42969, [42968]); (42998, [42997]); (43859, [42931]); (43888, [5024]);
    (43889, [5025]); (43890, [5026]); (43891, [5027]); (43892, [5028]);
    (43893, [5029]); (43894, [5030]); (43895, [5031]); (43896, [5032]);
    (43897, [5033]); (43898, [5034]); (43899, [5035]); (43900, [5036]);
    (43901, [5037]); (43902, [5038]); (43903, [5039]); (43904, [5040]);
    (43905, [5041]); (43906, [5042]); (43907, [5043]); (43908, [5044]);
    (43909, [5045]); (43910, [5046]); (43911, [5047]); (43912, [5048]);
    (43913, [5049]); (43914, [5050]); (43915, [5051]); (43916, [5052]);
    (43917, [5053]); (43918, [5054]); (43919, [5055]); (43920, [5056]);
    (43921, [5057]); (43922, [5058]); (43923, [5059]); (43924, [5060]);
    (43925, [5061]); (43926, [5062]); (43927, [5063]); (43928, [5064]);
    (43929, [5065]); (43930, [5066]); (43931, [5067]); (43932, [5068]);
    (43933, [5069]); (43934, [5070]); (43935, [5071]); (43936, [5072]);
    (43937, [5073]); (43938, [5074]); (43939, [5075]); (43940, [5076]);
    (43941, [5077]); (43942, [5078]); (43943, [5079]); (43944, [5080]);
    (43945, [5081]); (43946, [5082]); (43947, [5083]); (43948, [5084]);
    (43949, [5085]); (43950, [5086]); (43951, [5087]); (43952, [5088]);
    (43953, [5089]); (43954, [5090]); (43955, [5091]); (43956, [5092]);
    (43957, [5093]); (43958, [5094]); (43959, [5095]); (43960, [5096]);
    (43961, [5097]); (43962, [5098]); (43963, [5099]); (43964, [5100]);
    (43965, [5101]); (43966, [5102]); (43967, [5103]); (64256, [70; 102]);
    (64257, [70; 105]); (64258, [70; 108]); (64259, [70; 102; 105]);
    (64260, [70; 102; 108]); (64261, [83; 116]); (64262, [83; 116]);
    (64275, [1348; 1398]); (64276, [1348; 1381]); (64277, [1348; 1387]);
    (64278, [1358; 1398]); (64279, [1348; 1389]); (65345, [65313]);
    (65346, [65314]); (65347, [65315]); (65348, [65316]); (65349, [65317]);
    (65350, [65318]); (65351, [65319]); (65352, [65320]); (65353, [65321]);
    (65354, [65322]); (65355, [65323]); (65356, [65324]); (65357, [65325]);
    (65358, [65326]); (65359, [65327]); (65360, [65328]); (65361, [65329]);
    (65362, [65330]); (65363, [65331]); (65364, [65332]); (65365, [65333]);
    (65366, [65334]); (65367, [65335]); (65368, [65336]); (65369, [65337]);
    (65370, [65338]); (66600, [66560]); (66601, [66561]); (66602, [66562]);
    (66603, [66563]); (66604, [66564]); (66605, [66565]); (66606, [66566]);
    (66607, [66567]); (66608, [66568]); (66609, [66569]); (66610, [66570]);
    (66611, [66571]); (66612, [66572]); (66613, [66573]); (66614, [66574]);
    (66615, [66575]); (66616, [66576]); (66617, [66577]); (66618, [66578]);
    (66619, [66579]); (66620, [66580]); (66621, [66581]); (66622, [66582]);
    (66623, [66583]); (66624, [66584]); (66625, [66585]); (66626, [66586]);
    (66627, [66587]); (66628, [66588]); (66629, [66589]); (66630, [66590]);
    (66631, [66591]); (66632, [66592]); (66633, [66593]); (66634, [66594]);
    (66635, [66595]); (66636, [66596]); (66637, [66597]); (66638, [66598]);
    (66639, [66599]); (66776, [66736]); (66777, [66737]); (66778, [66738]);
    (66779, [66739]); (66780, [66740]); (66781, [66741]); (66782, [66742]);
    (66783, [66743]); (66784, [66744]); (66785, [66745]); (66786, [66746]);
    (66787, [66747]); (66788, [66748]); (66789, [66749]); (66790, [66750]);
    (66791, [66751]); (66792, [66752]); (66793, [66753]); (66794, [66754]);
    (66795, [66755]); (66796, [66756]); (66797, [66757]); (66798, [66758]);
    (66799, [66759]); (66800, [66760]); (66801, [66761]); (66802, [66762]);
    (66803, [66763]); (66804, [66764]); (66805, [66765]); (66806, [66766]);
    (66807, [66767]); (66808, [66768]); (66809, [66769]); (66810, [66770]);
    (66811, [66771]); (66967, [66928]); (66968, [66929]); (66969, [66930]);
    (66970, [66931]); (66971, [66932]); (66972, [66933]); (66973, [66934]);
    (66974, [66935]); (66975, [66936]); (66976, [66937]); (66977, [66938]);
    (66979, [66940]); (66980, [66941]); (66981, [66942]); (66982, [66943]);
    (66983, [66944]); (66984, [66945]); (66985, [66946]); (66986, [66947]);
    (66987, [66948]); (66988, [66949]); (66989, [66950]); (66990, [66951]);
    (66991, [66952]); (66992, [66953]); (66993, [66954]); (66995, [66956]);
    (66996, [66957]); (66997, [66958]); (66998, [66959]); (66999, [66960]);
    (67000, [66961]); (67001, [66962]); (67003, [66964]); (67004, [66965]);
    (68800, [68736]); (68801, [68737]); (68802, [68738]); (68803, [68739]);
    (68804, [68740]); (68805, [68741]); (68806, [68742]); (68807, [68743]);
    (68808, [68744]); (68809, [68745]); (68810, [68746]); (68811, [68747]);
    (68812, [68748]); (68813, [68749]); (68814, [68750]); (68815, [68751]);
    (68816, [68752]); (68817, [68753]); (68818, [68754]); (68819, [68755]);
    (68820, [68756]); (68821, [68757]); (68822, [68758]); (68823, [68759]);
    (68824, [68760]); (68825, [68761]); (68826, [68762]); (68827, [68763]);
    (68828, [68764]); (68829, [68765]); (68830, [68766]); (68831, [68767]);
    (68832, [68768]); (68833, [68769]); (68834, [68770]); (68835, [68771]);
    (68836, [68772]); (68837, [68773]); (68838, [68774]); (68839, [68775]);
    (68840, [68776]); (68841, [68777]); (68842, [68778]); (68843, [68779]);
    (68844, [68780]); (68845, [68781]); (68846, [68782]); (68847, [68783]);
    (68848, [68784]); (68849, [68785]); (68850, [68786]); (71872, [71840]);
    (71873, [71841]); (71874, [71842]); (71875, [71843]); (71876, [71844]);
    (71877, [71845]); (71878, [71846]); (71879, [71847]); (71880, [71848]);
    (71881, [71849]); (71882, [71850]); (71883, [71851]); (71884, [71852]);
    (71885, [71853]); (71886, [71854]); (71887, [71855]); (71888, [71856]);
    (71889, [71857]); (71890, [71858]); (71891, [71859]); (71892, [71860]);
    (71893, [71861]); (71894, [71862]); (71895, [71863]); (71896, [71864]);
    (71897, [71865]); (71898, [71866]); (71899, [71867]); (71900, [71868]);
    (71901, [71869]); (71902, [71870]); (71903, [71871]); (93792, [93760]);
    (93793, [93761]); (93794, [93762]); (93795, [93763]); (93796, [93764]);
    (93797, [93765]); (93798, [93766]); (93799, [93767]); (93800, [93768]);
    (93801, [93769]); (93802, [93770]); (93803, [93771]); (93804, [93772]);
    (93805, [93773]); (93806, [93774]); (93807, [93775]); (93808, [93776]);
    (93809, [93777]); (93810, [93778]); (93811, [93779]); (93812, [93780]);
    (93813, [93781]); (93814, [93782]); (93815, [93783]); (93816, [93784]);
    (93817, [93785]); (93818, [93786]); (93819, [93787]); (93820, [93788]);
    (93821, [93789]); (93822, [93790]); (93823, [93791]); (125218, [125184]);
    (125219, [125185]); (125220, [125186]); (125221, [125187]);
    (125222, [125188]); (125223, [125189]); (125224, [125190]);
    (125225, [125191]); (125226, [125192]); (125227, [125193]);
    (125228, [125194]); (125229, [125195]); (125230, [125196]);
    (125231, [125197]); (125232, [125198]); (125233, [125199]);
    (125234, [125200]); (125235, [125201]); (125236, [125202]);
    (125237, [125203]); (125238, [125204]); (125239, [125205]);
    (125240, [125206]); (125241, [125207]); (125242, [125208]);
    (125243, [125209]); (125244, [125210]); (125245, [125211]);
    (125246, [125212]); (125247, [125213]); (125248, [125214]);
    (125249, [125215]); (125250, [125216]); (125251, [125217])
  ].

(** The cased code points (Lowercase, Uppercase or Lt), as ranges. *)
Definition CASED_RANGES : list (N * N) :=
  [
    (65, 90); (97, 122); (170, 170); (181, 181); (186, 186); (192, 214);
    (216, 246); (248, 442); (444, 447); (452, 659); (661, 696); (704, 705);
    (736, 740); (837, 837); (880, 883); (886, 887); (890, 893); (895, 895);
    (902, 902); (904, 906); (908, 908); (910, 929); (931, 1013);
    (1015, 1153); (1162, 1327); (1329, 1366); (1376, 1416); (4256, 4293);
    (4295, 4295); (4301, 4301); (4304, 4346); (4349, 4351); (5024, 5109);
    (5112, 5117); (7296, 7304); (7312, 7354); (7357, 7359); (7424, 7615);
    (7680, 7957); (7960, 7965); (7968, 8005); (8008, 8013); (8016, 8023);
    (8025, 8025); (8027, 8027); (8029, 8029); (8031, 8061); (8064, 8116);
    (8118, 8124); (8126, 8126); (8130, 8132); (8134, 8140); (8144, 8147);
    (8150, 8155); (8160, 8172); (8178, 8180); (8182, 8188); (8305, 8305);
    (8319, 8319); (8336, 8348); (8450, 8450); (8455, 8455); (8458, 8467);
    (8469, 8469); (8473, 8477); (8484, 8484); (8486, 8486); (8488, 8488);
    (8490, 8493); (8495, 8500); (8505, 8505); (8508, 8511); (8517, 8521);
    (8526, 8526); (8544, 8575); (8579, 8580); (9398, 9449); (11264, 11492);
    (11499, 11502); (11506, 11507); (11520, 11557); (11559, 11559);
    (11565, 11565); (42560, 42605); (42624, 42653); (42786, 42887);
    (42891, 42894); (42896, 42954); (42960, 42961); (42963, 42963);
    (42965, 42969); (42997, 42998); (43000, 43002); (43824, 43866);
    (43868, 43880); (43888, 43967); (64256, 64262); (64275, 64279);
    (65313, 65338); (65345, 65370); (66560, 66639); (66736, 66771);
    (66776, 66811); (66928, 66938); (66940, 66954); (66956, 66962);
    (66964, 66965); (66967, 66977); (66979, 66993); (66995, 67001);
    (67003, 67004); (67456, 67456); (67459, 67461); (67463, 67504);
    (67506, 67514); (68736, 68786); (68800, 68850); (71840, 71903);
    (93760, 93823); (119808, 119892); (119894, 119964); (119966, 119967);
    (119970, 119970); (119973, 119974); (119977, 119980); (119982, 119993);
    (119995, 119995); (119997, 120003); (120005, 120069); (120071, 120074);
    (120077, 120084); (120086, 120092); (120094, 120121); (120123, 120126);
    (120128, 120132); (120134, 120134); (120138, 120144); (120146, 120485);
    (120488, 120512); (120514, 120538); (120540, 120570); (120572, 120596);
    (120598, 120628); (120630, 120654); (120656, 120686); (120688, 120712);
    (120714, 120744); (120746, 120770); (120772, 120779); (122624, 122633);
    (122635, 122654); (125184, 125251); (127280, 127305); (127312, 127337);
    (127344, 127369)
  ].

(** The case-ignorable code points, as ranges. *)
Definition CASE_IGNORABLE_RANGES : list (N * N) :=
  [
    (39, 39); (46, 46); (58, 58); (94, 94); (96, 96); (168, 168); (173, 173);
    (175, 175); (180, 180); (183, 184); (688, 879); (884, 885); (890, 890);
    (900, 901); (903, 903); (1155, 1161); (1369, 1369); (1375, 1375);
    (1425, 1469); (1471, 1471); (1473, 1474); (1476, 1477); (1479, 1479);
    (1524, 1524); (1536, 1541); (1552, 1562); (1564, 1564); (1600, 1600);
    (1611, 1631); (1648, 1648); (1750, 1757); (1759, 1768); (1770, 1773);
    (1807, 1807); (1809, 1809); (1840, 1866); (1958, 1968); (2027, 2037);
    (2042, 2042); (2045, 2045); (2070, 2093); (2137, 2139); (2184, 2184);
    (2192, 2193); (2200, 2207); (2249, 2306); (2362, 2362); (2364, 2364);
    (2369, 2376); (2381, 2381); (2385, 2391); (2402, 2403); (2417, 2417);
    (2433, 2433); (2492, 2492); (2497, 2500); (2509, 2509); (2530, 2531);
    (2558, 2558); (2561, 2562); (2620, 2620); (2625, 2626); (2631, 2632);
    (2635, 2637); (2641, 2641); (2672, 2673); (2677, 2677); (2689, 2690);
    (2748, 2748); (2753, 2757); (2759, 2760); (2765, 2765); (2786, 2787);
    (2810, 2815); (2817, 2817); (2876, 2876); (2879, 2879); (2881, 2884);
    (2893, 2893); (2901, 2902); (2914, 2915); (2946, 2946); (3008, 3008);
    (3021, 3021); (3072, 3072); (3076, 3076); (3132, 3132); (3134, 3136);
    (3142, 3144); (3146, 3149); (3157, 3158); (3170, 3171); (3201, 3201);
    (3260, 3260); (3263, 3263); (3270, 3270); (3276, 3277); (3298, 3299);
    (3328, 3329); (3387, 3388); (3393, 3396); (3405, 3405); (3426, 3427);
    (3457, 3457); (3530, 3530); (3538, 3540); (3542, 3542); (3633, 3633);
    (3636, 3642); (3654, 3662); (3761, 3761); (3764, 3772); (3782, 3782);
    (3784, 3789); (3864, 3865); (3893, 3893); (3895, 3895); (3897, 3897);
    (3953, 3966); (3968, 3972); (3974, 3975); (3981, 3991); (3993, 4028);
    (4038, 4038); (4141, 4144); (4146, 4151); (4153, 4154); (4157, 4158);
    (4184, 4185); (4190, 4192); (4209, 4212); (4226, 4226); (4229, 4230);
    (4237, 4237); (4253, 4253); (4348, 4348); (4957, 4959); (5906, 5908);
    (5938, 5939); (5970, 5971); (6002, 6003); (6068, 6069); (6071, 6077);
    (6086, 6086); (6089, 6099); (6103, 6103); (6109, 6109); (6155, 6159);
    (6211, 6211); (6277, 6278); (6313, 6313); (6432, 6434); (6439, 6440);
    (6450, 6450); (6457, 6459); (6679, 6680); (6683, 6683); (6742, 6742);
    (6744, 6750); (6752, 6752); (6754, 6754); (6757, 6764); (6771, 6780);
    (6783, 6783); (6823, 6823); (6832, 6862); (6912, 6915); (6964, 6964);
    (6966, 6970); (6972, 6972); (6978, 6978); (7019, 7027); (7040, 7041);
    (7074, 7077); (7080, 7081); (7083, 7085); (7142, 7142); (7144, 7145);
    (7149, 7149); (7151, 7153); (7212, 7219); (7222, 7223); (7288, 7293);
    (7376, 7378); (7380, 7392); (7394, 7400); (7405, 7405); (7412, 7412);
    (7416, 7417); (7468, 7530); (7544, 7544); (7579, 7679); (8125, 8125);
    (8127, 8129); (8141, 8143); (8157, 8159); (8173, 8175); (8189, 8190);
    (8203, 8207); (8216, 8217); (8228, 8228); (8231, 8231); (8234, 8238);
    (8288, 8292); (8294, 8303); (8305, 8305); (8319, 8319); (8336, 8348);
    (8400, 8432); (11388, 11389); (11503, 11505); (11631, 11631);
    (11647, 11647); (11744, 11775); (11823, 11823); (12293, 12293);
    (12330, 12333); (12337, 12341); (12347, 12347); (12441, 12446);
    (12540, 12542); (40981, 40981); (42232, 42237); (42508, 42508);
    (42607, 42610); (42612, 42621); (42623, 42623); (42652, 42655);
    (42736, 42737); (42752, 42785); (42864, 42864); (42888, 42890);
    (42994, 42996); (43000, 43001); (43010, 43010); (43014, 43014);
    (43019, 43019); (43045, 43046); (43052, 43052); (43204, 43205);
    (43232, 43249); (43263, 43263); (43302, 43309); (43335, 43345);
    (43392, 43394); (43443, 43443); (43446, 43449); (43452, 43453);
    (43471, 43471); (43493, 43494); (43561, 43566); (43569, 43570);
    (43573, 43574); (43587, 43587); (43596, 43596); (43632, 43632);
    (43644, 43644); (43696, 43696); (43698, 43700); (43703, 43704);
    (43710, 43711); (43713, 43713); (43741, 43741); (43756, 43757);
    (43763, 43764); (43766, 43766); (43867, 43871); (43881, 43883);
    (44005, 44005); (44008, 44008); (44013, 44013); (64286, 64286);
    (64434, 64450); (65024, 65039); (65043, 65043); (65056, 65071);
    (65106, 65106); (65109, 65109); (65279, 65279); (65287, 65287);
    (65294, 65294); (65306, 65306); (65342, 65342); (65344, 65344);
    (65392, 65392); (65438, 65439); (65507, 65507); (65529, 65531);
    (66045, 66045); (66272, 66272); (66422, 66426); (67456, 67461);
    (67463, 67504); (67506, 67514); (68097, 68099); (68101, 68102);
    (68108, 68111); (68152, 68154); (68159, 68159); (68325, 68326);
    (68900, 68903); (69291, 69292); (69446, 69456); (69506, 69509);
    (69633, 69633); (69688, 69702); (69744, 69744); (69747, 69748);
    (69759, 69761); (69811, 69814); (69817, 69818); (69821, 69821);
    (69826, 69826); (69837, 69837); (69888, 69890); (69927, 69931);
    (69933, 69940); (70003, 70003); (70016, 70017); (70070, 70078);
    (70089, 70092); (70095, 70095); (70191, 70193); (70196, 70196);
    (70198, 70199); (70206, 70206); (70367, 70367); (70371, 70378);
    (70400, 70401); (70459, 70460); (70464, 70464); (70502, 70508);
    (70512, 70516); (70712, 70719); (70722, 70724); (70726, 70726);
    (70750, 70750); (70835, 70840); (70842, 70842); (70847, 70848);
    (70850, 70851); (71090, 71093); (71100, 71101); (71103, 71104);
    (71132, 71133); (71219, 71226); (71229, 71229); (71231, 71232);
    (71339, 71339); (71341, 71341); (71344, 71349); (71351, 71351);
    (71453, 71455); (71458, 71461); (71463, 71467); (71727, 71735);
    (71737, 71738); (71995, 71996); (71998, 71998); (72003, 72003);
    (72148, 72151); (72154, 72155); (72160, 72160); (72193, 72202);
    (72243, 72248); (72251, 72254); (72263, 72263); (72273, 72278);
    (72281, 72283); (72330, 72342); (72344, 72345); (72752, 72758);
    (72760, 72765); (72767, 72767); (72850, 72871); (72874, 72880);
    (72882, 72883); (72885, 72886); (73009, 73014); (73018, 73018);
    (73020, 73021); (73023, 73029); (73031, 73031); (73104, 73105);
    (73109, 73109); (73111, 73111); (73459, 73460); (78896, 78904);
    (92912, 92916); (92976, 92982); (92992, 92995); (94031, 94031);
    (94095, 94111); (94176, 94177); (94179, 94180); (110576, 110579);
    (110581, 110587); (110589, 110590); (113821, 113822); (113824, 113827);
    (118528, 118573); (118576, 118598); (119143, 119145); (119155, 119170);
    (119173, 119179); (119210, 119213); (119362, 119364); (121344, 121398);
    (121403, 121452); (121461, 121461); (121476, 121476); (121499, 121503);
    (121505, 121519); (122880, 122886); (122888, 122904); (122907, 122913);
    (122915, 122916); (122918, 122922); (123184, 123197); (123566, 123566);
    (123628, 123631); (125136, 125142); (125252, 125259); (127995, 127999);
    (917505, 917505); (917536, 917631); (917760, 917999)
  ].

(** The tables are for computing, not for unfolding. *)
Opaque UPPER_TABLE LOWER_TABLE TITLE_TABLE CASED_RANGES CASE_IGNORABLE_RANGES.

Definition UPPER : gmap N (list N) := list_to_map UPPER_TABLE.
Definition LOWER : gmap N (list N) := list_to_map LOWER_TABLE.
Definition TITLE : gmap N (list N) := list_to_map TITLE_TABLE.

Definition to_upper_full (c : N) : list N := default [c] (UPPER !! c).
Definition to_lower_full (c : N) : list N := default [c] (LOWER !! c).
Definition to_title_full (c : N) : list N := default [c] (TITLE !! c).

Arguments to_upper_full : simpl never.
Arguments to_lower_full : simpl never.
Arguments to_title_full : simpl never.

Definition in_ranges (rs : list (N * N)) (c : N) : bool :=
  existsb (fun r => (r.1 <=? c) && (c <=? r.2)) rs.

Definition is_cased (c : N) : bool := in_ranges CASED_RANGES c.
Definition is_case_ignorable (c : N) : bool :=
  in_ranges CASE_IGNORABLE_RANGES c.

Arguments is_cased : simpl never.
Arguments is_case_ignorable : simpl never.

(** The first code point of [s] that is not case-ignorable, and what
    follows it. *)
Fixpoint skip_case_ignorable (s : str) : str :=
  match s with
  | [] => []
  | c :: r => if is_case_ignorable c then skip_case_ignorable r else s
  end.

(** [handle_capital_sigma]: a capital sigma becomes a final sigma (962)
    when a cased code point comes before it and none comes after it, the
    case-ignorable code points between not counting, and a small sigma
    (963) otherwise.  [before] is the text before the sigma, the nearest
    code point first, [after] the text after it. *)
Definition handle_capital_sigma (before after : str) : N :=
  let final_sigma :=
    match skip_case_ignorable before with
    | c :: _ => is_cased c
    | [] => false
    end
    && match skip_case_ignorable after with
       | c :: _ => negb (is_cased c)
       | [] => true
       end in
  if final_sigma then 962 else 963.

Definition lower_ucs4 (before : str) (c : N) (after : str) : list N :=
  if c =? 931 then [handle_capital_sigma before after]
  else to_lower_full c.

Fixpoint do_lower (before s : str) : str :=
  match s with
  | [] => []
  | c :: r => lower_ucs4 before c r ++ do_lower (c :: before) r
  end.

(** [s.upper()] and [s.lower()] *)
Definition py_upper (s : str) : str := flat_map to_upper_full s.
Definition py_lower (s : str) : str := do_lower [] s.

(** [s.capitalize()]: the first character title-cased, the others
    lower-cased. *)
Definition py_capitalize (s : str) : str :=
  match s with
  | [] => []
  | c :: r => to_title_full c ++ do_lower [c] r
  end.

(** The case of the ASCII letters, by arithmetic. *)
Definition ascii_upper (c : N) : N :=
  if (97 <=? c) && (c <=? 122) then c - 32 else c.

Definition ascii_lower (c : N) : N :=
  if (65 <=? c) && (c <=? 90) then c + 32 else c.

(** Code points no case mapping changes, and strings of ASCII characters
    and such code points (digits, punctuation, CJK ideographs). *)
Definition case_invariant (c : N) : bool :=
  match UPPER !! c, LOWER !! c, TITLE !! c with
  | None, None, None => true
  | _, _, _ => false
  end.

Arguments case_invariant : simpl never.

Definition cp_plain_case (c : N) : bool := (c <? 128) || case_invariant c.

Definition plain_case (s : str) : bool := forallb cp_plain_case s.

(** ** The tables *)

Definition K_TITLE : str := Eval vm_compute in u "标题".
Definition K_URL : str := Eval vm_compute in u "IssueURL".
Definition K_PRI : str := Eval vm_compute in u "优先级".
Definition K_TYPE : str := Eval vm_compute in u "需求类型".
Definition K_BUGSRC : str := Eval vm_compute in u "bug来源（可选）".
Definition K_ISSUE_TITLE : str := Eval vm_compute in u "Issue标题".

Definition FN : list str := [K_TITLE; K_URL; K_PRI; K_TYPE; K_BUGSRC].

Definition PRIORITY_ALIASES : gmap str str :=
  list_to_map
    [ (u "P0", u "P0"); (u "0", u "P0"); (u "HIGH", u "P0"); (u "H", u "P0");
      (u "P1", u "P1"); (u "1", u "P1"); (u "MEDIUM", u "P1"); (u "M", u "P1");
      (u "P2", u "P2"); (u "2", u "P2"); (u "LOW", u "P2"); (u "L", u "P2");
      (u "P3", u "P3"); (u "3", u "P3") ].

Definition TYPE_ALIASES : gmap str str :=
  list_to_map
    [ (u "bug", u "BUG"); (u "缺陷", u "BUG");
      (u "feature", u "Feature"); (u "新功能", u "Feature");
      (u "enhancement", u "Enhancement"); (u "优化", u "Enhancement");
      (u "improvement", u "Enhancement") ].

(** ** Alias Normalizer *)

Definition norm_pri (v : str) : option str :=
  match v with
  | [] => None
  | _ =>
    let s := py_upper (py_strip v) in
    Some (default (py_strip v) (PRIORITY_ALIASES !! s))
  end.

Definition norm_type (v : str) : option str :=
  match v with
  | [] => None
  | _ =>
    let s := py_lower (py_strip v) in
    Some (default (py_capitalize (py_strip v)) (TYPE_ALIASES !! s))
  end.

(** [norm_pri(x)] and [norm_type(x)] for an [x] that may be [None], as when
    they are applied to their own result: [None] leaves at the [if not v]
    guard. *)
Definition norm_pri_opt (x : option str) : option str :=
  match x with
  | None => None
  | Some v => norm_pri v
  end.

Definition norm_type_opt (x : option str) : option str :=
  match x with
  | None => None
  | Some v => norm_type v
  end.

(** The pass-through of an unknown type token the way the specification
    words it, to compare with [py_capitalize]: the first character
    upper-cased, the remaining characters as they are. *)
Definition spec_capitalize_first (s : str) : str :=
  match s with
  | [] => []
  | c :: r => py_upper [c] ++ r
  end.

(** ** Python values and exceptions *)

#[local] Set Warnings "-register-all".

(** What [json.load] and [r.json()] return, and what the annotation [Any]
    ranges over. *)
Inductive pyval :=
| PNone
| PBool (b : bool)
| PInt (z : Z)
| PFloat (f : spec_float)
| PStr (s : str)
| PList (l : list pyval)
| PDict (d : gmap str pyval).

Inductive exn :=
| AttributeError | KeyError | IndexError | TypeError | ValueError
| RuntimeError | JSONDecodeError | RequestException.

Inductive result (A : Type) :=
| Ok (a : A)
| Raise (e : exn).
Arguments Ok {A} a.
Arguments Raise {A} e.

Definition is_float_zero (f : spec_float) : bool :=
  match f with S754_zero _ => true | _ => false end.

(** [bool(v)] *)
Definition py_truthy (v : pyval) : bool :=
  match v with
  | PNone => false
  | PBool b => b
  | PInt z => negb (z =? 0)%Z
  | PFloat f => negb (is_float_zero f)
  | PStr s => match s with [] => false | _ => true end
  | PList l => match l with [] => false | _ => true end
  | PDict d => negb (Nat.eqb (size d) 0)
  end.

(** [a or b] *)
Definition py_or (a b : pyval) : pyval := if py_truthy a then a else b.

(** [v == 0]: numbers compare by value, and [bool] is a subtype of [int]. *)
Definition py_eq_zero (v : pyval) : bool :=
  match v with
  | PInt z => (z =? 0)%Z
  | PBool b => negb b
  | PFloat f => is_float_zero f
  | _ => false
  end.

(** [o.get(k)]: only a dict has the method. *)
Definition py_get (o : pyval) (k : str) : result pyval :=
  match o with
  | PDict d => Ok (default PNone (d !! k))
  | _ => Raise AttributeError
  end.

(** [o[0]] *)
Definition py_item0 (o : pyval) : result pyval :=
  match o with
  | PList l => match l with x :: _ => Ok x | [] => Raise IndexError end
  | PStr s => match s with c :: _ => Ok (PStr [c]) | [] => Raise IndexError end
  | PDict _ => Raise KeyError
  | _ => Raise TypeError
  end.

(** [o[k]] for a string key [k] *)
Definition py_item (o : pyval) (k : str) : result pyval :=
  match o with
  | PDict d => match d !! k with Some x => Ok x | None => Raise KeyError end
  | _ => Raise TypeError
  end.

(** ** Regular expressions

    The fragment of Python's [re] that [parse_md]'s pattern uses, with the
    backtracking semantics of the library: alternatives are tried from left
    to right, a greedy repetition tries one more iteration before it tries
    to stop, a lazy one the other way round, and the first way through the
    whole pattern is the match. *)

Inductive regex :=
| Chr (p : N -> bool)                       (* one character of a class *)
| Bol                                       (* ^  (no MULTILINE) *)
| Eol                                       (* $  (no MULTILINE) *)
| Seq (a b : regex)
| Alt (a b : regex)
| Rep (greedy : bool) (lo : nat) (hi : option nat) (a : regex)
| Grp (i : nat) (a : regex)                 (* capturing group number i *)
| Look (a : regex).                         (* (?=a) *)

(** A position in the subject: [m_pos] characters are behind, [m_rest] are
    ahead; [m_caps] holds the text of the groups closed so far. *)
Record mstate := MState {
  m_pos : nat;
  m_rest : str;
  m_caps : gmap nat str
}.

Definition orelse {A} (x : option A) (y : option A) : option A :=
  match x with Some _ => x | None => y end.

(** A matcher in continuation-passing style: [ma st k] matches at [st] and
    goes on with [k]; [None] makes the caller backtrack. *)
Definition matcher : Type :=
  mstate -> (mstate -> option mstate) -> option mstate.

(** The loop of a repetition [a{lo,hi}] ([hi = None]: unbounded) over the
    matcher [ma] of [a].  An iteration beyond the [lo] required ones has to
    consume a character; [fuel] bounds the number of iterations, and
    [length (m_rest st) + lo + 1] is never used up ([rep_loop_fuel]). *)
Fixpoint rep_loop (ma : matcher) (greedy : bool) (fuel lo : nat)
    (hi : option nat) (st : mstate) (k : mstate -> option mstate)
  : option mstate :=
  match fuel with
  | O => None
  | S fuel' =>
    match lo with
    | S lo' =>
      ma st (fun st' => rep_loop ma greedy fuel' lo' (Nat.pred <$> hi) st' k)
    | O =>
      match hi with
      | Some O => k st
      | _ =>
        let more :=
          ma st (fun st' =>
            if Nat.ltb (m_pos st) (m_pos st')
            then rep_loop ma greedy fuel' O (Nat.pred <$> hi) st' k
            else None) in
        if greedy then orelse more (k st) else orelse (k st) more
      end
    end
  end.

Fixpoint rmatch (r : regex) : matcher :=
  match r with
  | Chr p => fun st k =>
    match m_rest st with
    | c :: rest =>
      if p c then k (MState (S (m_pos st)) rest (m_caps st)) else None
    | [] => None
    end
  | Bol => fun st k => if Nat.eqb (m_pos st) 0 then k st else None
  | Eol => fun st k =>
    match m_rest st with
    | [] => k st
    | [c] => if c =? 10 then k st else None
    | _ => None
    end
  | Seq a b => fun st k => rmatch a st (fun st' => rmatch b st' k)
  | Alt a b => fun st k => orelse (rmatch a st k) (rmatch b st k)
  | Grp i a => fun st k =>
    rmatch a st (fun st' =>
      k (MState (m_pos st') (m_rest st')
           (<[i := take (m_pos st' - m_pos st) (m_rest st)]> (m_caps st'))))
  | Look a => fun st k =>
    match rmatch a st Some with
    | Some st' => k (MState (m_pos st) (m_rest st) (m_caps st'))
    | None => None
    end
  | Rep greedy lo hi a => fun st k =>
    rep_loop (rmatch a) greedy (S (length (m_rest st) + lo)) lo hi st k
  end.

(** [pattern.search(s, pos)]: the first position from which the pattern
    matches; returns where the match starts and the state at its end. *)
Fixpoint re_search (r : regex) (pos : nat) (rest : str)
  : option (nat * mstate) :=
  match rmatch r (MState pos rest ∅) Some with
  | Some st' => Some (pos, st')
  | None =>
    match rest with
    | [] => None
    | _ :: rest' => re_search r (S pos) rest'
    end
  end.

(** [pattern.finditer(s)]: the matches from left to right, each search
    starting where the previous match ended (one character further after an
    empty match, which the pattern of [parse_md] never produces). *)
Fixpoint finditer_from (fuel : nat) (r : regex) (pos : nat) (rest : str)
  : list (gmap nat str) :=
  match fuel with
  | O => []
  | S fuel' =>
    match re_search r pos rest with
    | None => []
    | Some (start, st') =>
      m_caps st' ::
      (if Nat.ltb start (m_pos st')
       then finditer_from fuel' r (m_pos st') (m_rest st')
       else match m_rest st' with
            | [] => []
            | _ :: rest' => finditer_from fuel' r (S (m_pos st')) rest'
            end)
    end
  end.

Definition finditer (r : regex) (s : str) : list (gmap nat str) :=
  finditer_from (S (length s)) r 0 s.

(** [m.group(i) or ""] *)
Definition group (m : gmap nat str) (i : nat) : str := default [] (m !! i).

Declare Scope regex_scope.
Delimit Scope regex_scope with regex.
Infix "⋅" := Seq (at level 40, left associativity) : regex_scope.

Definition c_newline (c : N) : bool := c =? 10.
Definition c_hash (c : N) : bool := c =? 35.
Definition c_heading (c : N) : bool := negb (c =? 10) && negb (c =? 35).
Definition c_any (c : N) : bool := py_isspace c || negb (py_isspace c).

(** ** Markdown Section Extractor *)

(** [(^|\n)#{2,3}\s*([^\n#]+?)\s*\n([\s\S]*?)(?=\n#{2,3}\s|$)] *)
Definition pat : regex :=
  (Grp 1 (Alt Bol (Chr c_newline))
   ⋅ Rep true 2 (Some 3%nat) (Chr c_hash)
   ⋅ Rep true 0 None (Chr py_isspace)
   ⋅ Grp 2 (Rep false 1 None (Chr c_heading))
   ⋅ Rep true 0 None (Chr py_isspace)
   ⋅ Chr c_newline
   ⋅ Grp 3 (Rep false 0 None (Chr c_any))
   ⋅ Look (Alt (Chr c_newline ⋅ Rep true 2 (Some 3%nat) (Chr c_hash)
                ⋅ Chr py_isspace)
               Eol))%regex.

(** The body of the [for] loop: [out[k]=v] when [k] is not empty. *)
Definition parse_md_step (out : gmap str str) (m : gmap nat str)
  : gmap str str :=
  let k := py_strip (group m 2) in
  let v := py_strip (group m 3) in
  match k with
  | [] => out
  | _ => <[k := v]> out
  end.

Definition parse_md (md : str) : gmap str str :=
  match md with
  | [] => ∅
  | _ => foldl parse_md_step ∅ (finditer pat md)
  end.

(** ** Exceptions as results *)

#[global] Instance result_ret : MRet result := fun _ a => Ok a.
#[global] Instance result_bind : MBind result := fun _ _ f m =>
  match m with
  | Ok a => f a
  | Raise e => Raise e
  end.

(** ** Field Builder *)

(** [parse_md(body)] for a [body] of any type: an empty value returns at the
    [if not md] guard, a string is scanned, anything else makes [finditer]
    raise. *)
Definition parse_md_any (body : pyval) : result (gmap str str) :=
  if py_truthy body then
    match body with
    | PStr s => Ok (parse_md s)
    | _ => Raise TypeError
    end
  else Ok ∅.

(** [if x: fields[k]=x] *)
Definition set_if_nonempty (k : str) (x : option str) (fields : gmap str pyval)
  : gmap str pyval :=
  match x with
  | Some (c :: r) => <[k := PStr (c :: r)]> fields
  | _ => fields
  end.

(** [{k:v for k,v in fields.items() if k in FN}] *)
Definition keep_FN (fields : gmap str pyval) : gmap str pyval :=
  filter (fun kv => kv.1 ∈ FN) fields.

(** From-event mode.  [evt] is what [json.load] read; a value of an
    unexpected type where a dict or a string is used raises. *)
Definition build_from_issue (evt : pyval) : result (gmap str pyval) :=
  issue0 ← py_get (py_or evt (PDict ∅)) (u "issue");
  let issue := py_or issue0 (PDict ∅) in
  body0 ← py_get issue (u "body");
  let body := py_or body0 (PStr []) in
  md ← parse_md_any body;
  let fields : gmap str pyval := ∅ in
  let title_md := py_strip (default [] (md !! K_TITLE)) in
  title ← match title_md with
          | [] => t ← py_get issue (u "title"); Ok (py_or t (PStr []))
          | _ => Ok (PStr title_md)
          end;
  let fields := <[K_TITLE := title]> fields in
  html_url ← py_get issue (u "html_url");
  fields ← (if py_truthy html_url
            then x ← py_item issue (u "html_url"); Ok (<[K_URL := x]> fields)
            else Ok fields);
  let pri := norm_pri (default [] (md !! K_PRI)) in
  let fields := set_if_nonempty K_PRI pri fields in
  let typ := norm_type (default [] (md !! K_TYPE)) in
  let fields := set_if_nonempty K_TYPE typ fields in
  let bug_src := py_strip (default [] (md !! K_BUGSRC)) in
  let fields := set_if_nonempty K_BUGSRC (Some bug_src) fields in
  Ok (keep_FN fields).

(** From-inputs mode.  [inputs] is a selection of the environment, so its
    values are strings. *)
Definition build_from_inputs (inputs : gmap str str) (issue_url : str)
  : gmap str pyval :=
  let fields : gmap str pyval := ∅ in
  let title :=
    match py_strip (default [] (inputs !! K_TITLE)) with
    | [] => py_strip (default [] (inputs !! K_ISSUE_TITLE))
    | t => t
    end in
  let fields := <[K_TITLE := PStr title]> fields in
  let fields := <[K_URL := PStr (py_strip issue_url)]> fields in
  let pri := norm_pri (default [] (inputs !! K_PRI)) in
  let fields := set_if_nonempty K_PRI pri fields in
  let typ := norm_type (default [] (inputs !! K_TYPE)) in
  let fields := set_if_nonempty K_TYPE typ fields in
  let bug_src := py_strip (default [] (inputs !! K_BUGSRC)) in
  let fields := set_if_nonempty K_BUGSRC (Some bug_src) fields in
  keep_FN fields.

(** What both builders do once the five values are known ([url] is
    [None] when the issue has no [html_url]); the builders are brought to
    this form in the proofs. *)
Definition assemble (title : pyval) (url : option pyval)
    (pri typ : option str) (bug_src : str) : gmap str pyval :=
  let fields : gmap str pyval := <[K_TITLE := title]> ∅ in
  let fields := match url with
                | Some x => <[K_URL := x]> fields
                | None => fields
                end in
  let fields := set_if_nonempty K_PRI pri fields in
  let fields := set_if_nonempty K_TYPE typ fields in
  let fields := set_if_nonempty K_BUGSRC (Some bug_src) fields in
  keep_FN fields.

(** The entry [if x: fields[k]=x] leaves under [k]. *)
Definition opt_nonempty (x : option str) : option pyval :=
  match x with
  | Some (c :: r) => Some (PStr (c :: r))
  | _ => None
  end.

(** Inputs on which [build_from_issue] meets no type error: each of the
    event, its [issue] and the issue's [body] is empty or of the expected
    type. *)
Definition dict_or_falsy (v : pyval) : bool :=
  match v with
  | PDict _ => true
  | _ => negb (py_truthy v)
  end.

Definition str_or_falsy (v : pyval) : bool :=
  match v with
  | PStr _ => true
  | _ => negb (py_truthy v)
  end.

(** ** The remote store *)

Inductive method := GET | POST | PATCH.

(** The three URLs under [BITABLE/apps/{app_token}/tables/{table_id}]. *)
Inductive endpoint :=
| RecordsSearch (app_token table_id : str)            (* .../records/search *)
| Records (app_token table_id : str)                  (* .../records *)
| RecordById (app_token table_id : str) (rec_id : pyval).
                                                    (* .../records/{rec_id} *)

(** One call of [requests]: [req_filter] is the value compared with
    [IssueURL] in the search filter ([page_size] is always 1), [req_data] the
    [fields] of the JSON payload. *)
Record request := Request {
  req_method : method;
  req_url : endpoint;
  req_token : str;
  req_filter : option pyval;
  req_data : option (gmap str pyval)
}.

(** What the code reads of a response: [r.status_code] and [r.json()],
    which raises when the body is not JSON ([None]). *)
Record response := Response {
  status_code : Z;
  resp_json : option pyval
}.

(** The remote store and the transport: a call either raises (timeout,
    connection error) or returns a response, and moves the store on. *)
Class Remote (W : Type) := http : W -> request -> result response * W.

(** The store together with the calls issued so far, oldest first. *)
Record sys (W : Type) := Sys {
  world : W;
  calls : list request
}.
Arguments Sys {W} world calls.
Arguments world {W} s.
Arguments calls {W} s.

Definition M (W A : Type) : Type := sys W -> result A * sys W.

#[global] Instance M_ret {W} : MRet (M W) := fun _ a s => (Ok a, s).
#[global] Instance M_bind {W} : MBind (M W) := fun _ _ f m s =>
  match m s with
  | (Ok a, s') => f a s'
  | (Raise e, s') => (Raise e, s')
  end.

Definition raise {W A} (e : exn) : M W A := fun s => (Raise e, s).

Definition lift {W A} (r : result A) : M W A := fun s => (r, s).

Definition call {W} `{Remote W} (rq : request) : M W response := fun s =>
  let '(r, w') := http (world s) rq in
  (r, Sys w' (calls s ++ [rq])).

(** [r.json()] *)
Definition json_of (r : response) : result pyval :=
  match resp_json r with
  | Some data => Ok data
  | None => Raise JSONDecodeError
  end.

(** The three calls of the script. *)
Definition search_request (token app_token table_id : str) (issue_url : pyval)
  : request :=
  Request GET (RecordsSearch app_token table_id) token (Some issue_url) None.

Definition patch_request (token app_token table_id : str) (rec_id : pyval)
    (fields : gmap str pyval) : request :=
  Request PATCH (RecordById app_token table_id rec_id) token None (Some fields).

Definition post_request (token app_token table_id : str)
    (fields : gmap str pyval) : request :=
  Request POST (Records app_token table_id) token None (Some fields).

#[global] Instance method_eq_dec : EqDecision method.
Proof. solve_decision. Defined.

(** How many of the calls [l] use the method [m]. *)
Definition count_method (m : method) (l : list request) : nat :=
  length (filter (fun rq => req_method rq = m) l).

(** The calls a run [c] issues from the state [s]. *)
Definition issued {W A} (c : M W A) (s : sys W) : list request :=
  drop (length (calls s)) (calls (c s).2).

(** ** Record Locator *)

(** What [search_record] makes of the response, from [data=r.json()] on. *)
Definition search_result (r : response) : result pyval :=
  data ← json_of r;
  d ← py_get data (u "data");
  items0 ← py_get (py_or d (PDict ∅)) (u "items");
  let items := py_or items0 (PList []) in
  if py_truthy items then
    first ← py_item0 items;
    py_item first (u "record_id")
  else Ok PNone.

Definition search_record {W} `{Remote W}
    (token app_token table_id : str) (issue_url : pyval) : M W pyval :=
  r ← call (search_request token app_token table_id issue_url);
  lift (search_result r).

(** ** Upsert Executor *)

(** [x not in (0, None)] *)
Definition not_in_0_None (x : pyval) : bool :=
  negb (py_eq_zero x || match x with PNone => true | _ => false end).

(** The end of [upsert], from [try:] on: the check of the write response. *)
Definition upsert_validate (r : response) : result pyval :=
  match resp_json r with
  | None => Raise RuntimeError
  | Some data =>
    code ← py_get data (u "code");
    if not_in_0_None code then Raise RuntimeError else Ok data
  end.

(** The key check, the search, one write, the check of its response. *)
Definition upsert {W} `{Remote W}
    (token app_token table_id : str) (fields : gmap str pyval) : M W pyval :=
  let iu := default PNone (fields !! K_URL) in
  if negb (py_truthy iu) then raise ValueError else
  rec_id ← search_record token app_token table_id iu;
  r ← (if py_truthy rec_id
       then call (patch_request token app_token table_id rec_id fields)
       else call (post_request token app_token table_id fields));
  lift (upsert_validate r).

(** The write response as the specification words it: it has a status code
    of zero when its [code] is a number equal to zero ([bool] being a
    subtype of [int] in Python, [False] is the number zero), and no status
    code when the parsed object has no [code] or a null one. *)
Inductive code_status :=
| CodeZero | CodeAbsent | CodeNonZero | CodeUnrecognizable.

Definition spec_code_status (data : pyval) : code_status :=
  match data with
  | PDict d =>
    match d !! u "code" with
    | None | Some PNone => CodeAbsent
    | Some (PInt z) => if (z =? 0)%Z then CodeZero else CodeNonZero
    | Some (PBool b) => if b then CodeNonZero else CodeZero
    | Some (PFloat f) => if is_float_zero f then CodeZero else CodeNonZero
    | Some _ => CodeUnrecognizable
    end
  | _ => CodeUnrecognizable
  end.

(** Success by the specification: the body parses, and its status code is
    zero or absent. *)
Definition spec_write_ok (r : response) : bool :=
  match resp_json r with
  | None => false
  | Some data =>
    match spec_code_status data with
    | CodeZero | CodeAbsent => true
    | CodeNonZero | CodeUnrecognizable => false
    end
  end.

(** The response carries a status code other than zero: the test [upsert]
    makes on a write response. *)
Definition carries_nonzero_code (r : response) : bool :=
  match resp_json r with
  | Some (PDict d) => not_in_0_None (default PNone (d !! u "code"))
  | _ => false
  end.

(** ** Sample inputs *)

(** A remote store that answers from a script, one entry per call, and
    times out when the script is used up. *)
#[global] Instance scripted : Remote (list (result response)) := fun w _ =>
  match w with
  | [] => (Raise RequestException, [])
  | r :: w' => (r, w')
  end.

Definition json_response (data : pyval) : result response :=
  Ok (Response 200 (Some data)).

Definition resp_ok : pyval := PDict {[ u "code" := PInt 0 ]}.

(** A search that finds the record ["rec1"]. *)
Definition resp_found : pyval :=
  PDict (list_to_map [ (u "code", PInt 0);
    (u "data", PDict {[ u "items" :=
       PList [ PDict {[ u "record_id" := PStr (u "rec1") ]} ] ]}) ]).

(** A search that finds nothing. *)
Definition resp_none : pyval :=
  PDict (list_to_map [ (u "code", PInt 0);
    (u "data", PDict {[ u "items" := PList [] ]}) ]).

(** A search refused by the store, with its error code. *)
Definition resp_refused : pyval :=
  PDict (list_to_map [ (u "code", PInt 1254302);
                       (u "msg", PStr (u "permission denied")) ]).

(** A search answered with a record that has no [record_id]. *)
Definition resp_no_id : pyval :=
  PDict (list_to_map [ (u "code", PInt 0);
    (u "data", PDict {[ u "items" := PList [ PDict ∅ ] ]}) ]).

Definition fields_x1 : gmap str pyval :=
  list_to_map [ (K_TITLE, PStr (u "T")); (K_URL, PStr (u "https://x/1")) ].


(** The lines of a document, each ended by a newline. *)
Definition lines (l : list str) : str :=
  concat (map (fun s => s ++ [10]) l).

Definition issue_event (body title html_url : str) : pyval :=
  PDict {[ u "issue" :=
    PDict (list_to_map [ (u "body", PStr body); (u "title", PStr title);
                         (u "html_url", PStr html_url) ]) ]}.

(** The event of the first scenario of the specification. *)
Definition evt_login : pyval :=
  issue_event
    (lines [u "## 标题"; u "Login crash"; u "## 优先级"; u "P1";
            u "## 需求类型"; u "bug"])
    (u "Fallback Title") (u "https://x/1").

Definition fields_login : gmap str pyval :=
  list_to_map [ (K_TITLE, PStr (u "Login crash"));
                (K_URL, PStr (u "https://x/1"));
                (K_PRI, PStr (u "P1")); (K_TYPE, PStr (u "BUG")) ].

(** A document with the heading [A] twice, and its two matches. *)
Definition doc_twice : str := lines [u "## A"; u "one"; u "## A"; u "two"].

Definition fields_no_url : gmap str pyval := {[ K_TITLE := PStr (u "T") ]}.

(** Stores whose search finds ["rec1"], finds nothing, is refused with an
    error code, returns a record without identifier, returns no JSON; the
    write that may follow is accepted. *)
Definition store (search : result response)
  : sys (list (result response)) :=
  Sys [search; json_response resp_ok] [].

Definition store_found := store (json_response resp_found).
Definition store_none := store (json_response resp_none).
Definition store_refused := store (json_response resp_refused).
Definition store_no_id := store (json_response resp_no_id).
Definition store_no_json := store (Ok (Response 200 None)).

(** The state a store is in after its search was answered. *)
Definition searched (iu : pyval) : sys (list (result response)) :=
  Sys [json_response resp_ok] [search_request (u "t") (u "app") (u "tbl") iu].

Definition url_x1 : pyval := PStr (u "https://x/1").

(** Flat inputs with allow-listed keys and non-empty values only. *)
Definition inputs_high : gmap str str :=
  {[ K_TITLE := u "T"; K_PRI := u "high" ]}.

Definition inputs_no_title : gmap str str := {[ K_PRI := u "P1" ]}.

Definition inputs_normal : gmap str str :=
  list_to_map [ (K_TITLE, u "Login crash"); (K_PRI, u "P1");
                (K_TYPE, u "BUG"); (K_BUGSRC, u "user report");
                (K_URL, u "https://old/0") ].

(** [st'] is a later position of the subject [st] is a position of. *)
Definition advances (st st' : mstate) : Prop :=
  (m_pos st' + length (m_rest st') = m_pos st + length (m_rest st))%nat
  /\ (m_pos st <= m_pos st')%nat.

(** A matcher is local when it uses its continuation on later positions
    of the subject only, and sound when its result comes from there. *)
Definition local (ma : matcher) : Prop :=
  forall st k k',
    (forall st', advances st st' -> k st' = k' st') -> ma st k = ma st k'.

Definition sound (ma : matcher) : Prop :=
  forall st k res,
    ma st k = Some res -> exists st', advances st st' /\ k st' = Some res.

(** A string starts well when it does not start with white space. *)
Definition hd_ok (s : str) : Prop :=
  match s with
  | [] => True
  | c :: _ => py_isspace c = false
  end.

(** * Further definitions *)

(** ** What a pattern matches

    The declarative reading of a pattern, to reason about what the matcher
    returns: [matches r st st'] holds when [r] can take the subject from the
    position [st] to the position [st'].  For a repetition the reading
    keeps the least number of iterations (the most is not needed below). *)

Fixpoint iter {A : Type} (n : nat) (R : A -> A -> Prop) (x z : A) : Prop :=
  match n with
  | O => x = z
  | S n' => exists y, R x y /\ iter n' R y z
  end.

Fixpoint matches (r : regex) (st st' : mstate) : Prop :=
  match r with
  | Chr p =>
    exists c, m_rest st = c :: m_rest st' /\ p c = true
              /\ m_pos st' = S (m_pos st) /\ m_caps st' = m_caps st
  | Bol => m_pos st = O /\ st' = st
  | Eol => (m_rest st = [] \/ m_rest st = [10]) /\ st' = st
  | Seq a b => exists mid, matches a st mid /\ matches b mid st'
  | Alt a b => matches a st st' \/ matches b st st'
  | Rep _ lo _ a => exists n, (lo <= n)%nat /\ iter n (matches a) st st'
  | Grp i a =>
    exists st1, matches a st st1
      /\ st' = MState (m_pos st1) (m_rest st1)
                 (<[i := take (m_pos st1 - m_pos st) (m_rest st)]>
                    (m_caps st1))
  | Look a =>
    exists st1, matches a st st1
      /\ st' = MState (m_pos st) (m_rest st) (m_caps st1)
  end.

(** Patterns without capturing groups. *)
Fixpoint no_groups (r : regex) : bool :=
  match r with
  | Chr _ | Bol | Eol => true
  | Seq a b | Alt a b => no_groups a && no_groups b
  | Rep _ _ _ a | Look a => no_groups a
  | Grp _ _ => false
  end.

(** ** More sample inputs *)

(** An event whose issue has a title and nothing else. *)
Definition evt_no_url : pyval :=
  PDict {[ u "issue" := PDict {[ u "title" := PStr (u "T") ]} ]}.

(** A search answered with two records. *)
Definition resp_two : pyval :=
  PDict (list_to_map [ (u "code", PInt 0);
    (u "data", PDict {[ u "items" :=
       PList [ PDict {[ u "record_id" := PStr (u "rec1") ]};
               PDict {[ u "record_id" := PStr (u "rec2") ]} ] ]}) ]).

Definition store_two := store (json_response resp_two).

(** ** Token acquisition and the main program

    [get_token] and [main] talk to the token endpoint besides the store, so
    their runs are logged as [net_call]s.  The event file is read from a
    file system given as a map; what [log] prints is left out. *)

Inductive net_call :=
| AuthCall (app_id app_secret : str)   (* POST AUTH with the two credentials *)
| StoreCall (rq : request).

(** The token endpoint, like [Remote] for the store. *)
Class AuthServer (W : Type) := auth_post : W -> str -> str -> result response * W.

Record net (W : Type) := Net {
  n_world : W;
  n_calls : list net_call
}.
Arguments Net {W} n_world n_calls.
Arguments n_world {W} n.
Arguments n_calls {W} n.

Definition NetM (W A : Type) : Type := net W -> result A * net W.

#[global] Instance NetM_ret {W} : MRet (NetM W) := fun _ a n => (Ok a, n).
#[global] Instance NetM_bind {W} : MBind (NetM W) := fun _ _ f m n =>
  match m n with
  | (Ok a, n') => f a n'
  | (Raise e, n') => (Raise e, n')
  end.

Definition auth_call {W} `{AuthServer W} (app_id app_secret : str)
  : NetM W response := fun n =>
  let '(r, w') := auth_post (n_world n) app_id app_secret in
  (r, Net w' (n_calls n ++ [AuthCall app_id app_secret])).

(** A run against the store, as part of a run on the network: its calls go
    to the end of the log. *)
Definition store_run {W A} (c : M W A) : NetM W A := fun n =>
  let '(r, s') := c (Sys (n_world n) []) in
  (r, Net (world s') (n_calls n ++ map StoreCall (calls s'))).

(** What [get_token] makes of the response, from [data = r.json()] on. *)
Definition token_result (r : response) : result pyval :=
  data ← json_of r;
  tok ← py_get data (u "tenant_access_token");
  if negb (py_truthy tok) then Raise RuntimeError
  else py_item data (u "tenant_access_token").

Definition get_token {W} `{AuthServer W} (app_id app_secret : str)
  : NetM W pyval := fun n =>
  let '(r, n') := auth_call app_id app_secret n in
  (r ≫= token_result, n').

Definition E_APP_ID : str := Eval vm_compute in u "FEISHU_APP_ID".
Definition E_APP_SECRET : str := Eval vm_compute in u "FEISHU_APP_SECRET".
Definition E_APP_TOKEN : str := Eval vm_compute in u "FEISHU_APP_TOKEN".
Definition E_TABLE_ID : str := Eval vm_compute in u "FEISHU_TABLE_ID".
Definition E_EVENT_PATH : str := Eval vm_compute in u "GITHUB_EVENT_PATH".
Definition MOCK_URL : str := Eval vm_compute in u "https://example.com/mock".

(** The variables of the environment that make the inputs of From-inputs
    mode. *)
Definition INPUT_KEYS : list str :=
  [K_TITLE; K_PRI; K_TYPE; K_BUGSRC; K_ISSUE_TITLE; K_URL].

(** [os.environ.get(k, "")] *)
Definition getenv (environ : gmap str str) (k : str) : str :=
  default [] (environ !! k).

Definition nonempty (s : str) : bool :=
  match s with [] => false | _ => true end.

(** A path of the file system: a directory, or a file, with the JSON value
    it holds if it holds one. *)
Inductive fnode :=
| FDir
| FFile (json : option pyval).

(** How [main] can end other than by returning: an exception of the
    script, a file that cannot be opened, [sys.exit]. *)
Inductive main_exn :=
| PyExn (e : exn)
| OSError
| SystemExit (code : Z).

Inductive outcome (A : Type) :=
| Done (a : A)
| Aborted (e : main_exn).
Arguments Done {A} a.
Arguments Aborted {A} e.

(** [json.load(open(path, "r", encoding="utf-8"))] *)
Definition load_json (fs : gmap str fnode) (path : str) : outcome pyval :=
  match fs !! path with
  | Some (FFile (Some v)) => Done v
  | Some (FFile None) => Aborted (PyExn JSONDecodeError)
  | Some FDir | None => Aborted OSError
  end.

(** The event: the file of [--event] when the option is given and the file
    exists, else the file of [GITHUB_EVENT_PATH] when that is set, else
    [{}]. *)
Definition load_event (args_event : option str) (environ : gmap str str)
    (fs : gmap str fnode) : outcome pyval :=
  let given :=
    match args_event with
    | Some (c :: p) => bool_decide (is_Some (fs !! (c :: p)))
    | _ => false
    end in
  if given then load_json fs (default [] args_event)
  else match environ !! E_EVENT_PATH with
       | Some (c :: p) => load_json fs (c :: p)
       | _ => Done (PDict ∅)
       end.

(** The choice of the mode, and the Field Set. *)
Definition main_fields (evt : pyval) (environ : gmap str str)
  : result (gmap str pyval) :=
  issue ← py_get evt (u "issue");
  if py_truthy issue then build_from_issue evt
  else
    let inputs := filter (fun kv => kv.1 ∈ INPUT_KEYS) environ in
    let issue_url := match inputs !! K_URL with
                     | Some (c :: r) => c :: r
                     | _ => MOCK_URL
                     end in
    Ok (build_from_inputs inputs issue_url).

(** [main].  [fmt] is the formatting of the token in [f"Bearer {token}"];
    the result is what the last [log] prints. *)
Definition main {W} `{Remote W} `{AuthServer W} (fmt : pyval -> str)
    (args_event : option str) (environ : gmap str str)
    (fs : gmap str fnode) (n : net W) : outcome pyval * net W :=
  let app_id := getenv environ E_APP_ID in
  let app_secret := getenv environ E_APP_SECRET in
  let app_token := getenv environ E_APP_TOKEN in
  let table_id := getenv environ E_TABLE_ID in
  if negb (nonempty app_id && nonempty app_secret && nonempty app_token
           && nonempty table_id)
  then (Aborted (SystemExit 1), n)
  else
    match load_event args_event environ fs with
    | Aborted e => (Aborted e, n)
    | Done evt =>
      match main_fields evt environ with
      | Raise e => (Aborted (PyExn e), n)
      | Ok fields =>
        match (token ← get_token app_id app_secret;
               store_run (upsert (fmt token) app_token table_id fields)) n
        with
        | (Ok res, n') => (Done res, n')
        | (Raise e, n') => (Aborted (PyExn e), n')
        end
      end
    end.

(** The token endpoint of the scripted store: it answers from the same
    script. *)
#[global] Instance scripted_auth : AuthServer (list (result response)) :=
  fun w _ _ =>
  match w with
  | [] => (Raise RequestException, [])
  | r :: w' => (r, w')
  end.

Definition token_dict : gmap str pyval :=
  list_to_map [ (u "code", PInt 0);
                (u "tenant_access_token", PStr (u "t-123")) ].

Definition resp_token : pyval := PDict token_dict.

(** A formatting for the sample runs, whose tokens are strings: a string is
    formatted as it is. *)
Definition fmt_str (v : pyval) : str :=
  match v with PStr s => s | _ => [] end.

Definition env_config : gmap str str :=
  list_to_map [ (E_APP_ID, u "cli_1"); (E_APP_SECRET, u "secret");
                (E_APP_TOKEN, u "app"); (E_TABLE_ID, u "tbl") ].


(** A network that hands out a token and then finds no record. *)
Definition net_fresh : net (list (result response)) :=
  Net [json_response resp_token; json_response resp_none;
       json_response resp_ok] [].


(** * Definitions for the companion tools *)

(** ** The node token of a wiki URL ([wiki2bitable.py]) *)

(** The class [[A-Za-z0-9]] and the class of one character. *)
Definition c_alnum (c : N) : bool :=
  ((65 <=? c) && (c <=? 90)) || ((97 <=? c) && (c <=? 122))
  || ((48 <=? c) && (c <=? 57)).
Definition c_is (x c : N) : bool := c =? x.

Definition WIKI : str := Eval vm_compute in u "/wiki/".

(** [/wiki/([A-Za-z0-9]+)] *)
Definition wiki_pat : regex :=
  (Chr (c_is 47) ⋅ Chr (c_is 119) ⋅ Chr (c_is 105) ⋅ Chr (c_is 107)
   ⋅ Chr (c_is 105) ⋅ Chr (c_is 47)
   ⋅ Grp 1 (Rep true 1 None (Chr c_alnum)))%regex.

Definition extract_node_token (wiki_url_or_token : str) : str :=
  let s := py_strip wiki_url_or_token in
  match re_search wiki_pat 0 s with
  | Some (_, m) => group (m_caps m) 1
  | None => s
  end.

(** The head of a string is outside a class. *)
Definition hd_outside (p : N -> bool) (s : str) : Prop :=
  match s with
  | [] => True
  | c :: _ => p c = false
  end.

(** ** The mask of the runner ([env_run.py]) *)

Definition MASK_LEN : nat := 6.
Definition DOTS : str := Eval vm_compute in u "...".

(** [s[-n:]] for a positive [n] *)
Definition py_last (n : nat) (s : str) : str := drop (length s - n) s.

Definition mask_secret (v : str) : str :=
  match v with
  | [] => []
  | _ =>
    let s := v in
    if (length s <=? MASK_LEN * 2)%nat
    then take MASK_LEN s ++ DOTS ++ py_last MASK_LEN s
    else take MASK_LEN s ++ DOTS ++ py_last MASK_LEN s
  end.

(** ** The token of the wiki resolver ([wiki2bitable.py]) *)

Definition E_TENANT_TOKEN : str := Eval vm_compute in u "TENANT_ACCESS_TOKEN".

(** [get_tenant_token_if_needed]: the token of the environment when there
    is one, else a token requested with the credentials of the
    environment; a failure ends the program with status 1. *)
Definition get_tenant_token_if_needed {W} `{AuthServer W}
    (environ : gmap str str) (n : net W) : outcome pyval * net W :=
  let token := py_strip (getenv environ E_TENANT_TOKEN) in
  if nonempty token then (Done (PStr token), n)
  else
    let app_id := py_strip (getenv environ E_APP_ID) in
    let app_secret := py_strip (getenv environ E_APP_SECRET) in
    if negb (nonempty app_id) || negb (nonempty app_secret)
    then (Aborted (SystemExit 1), n)
    else
      match auth_call app_id app_secret n with
      | (Raise e, n') => (Aborted (PyExn e), n')
      | (Ok resp, n') =>
        match json_of resp with
        | Raise e => (Aborted (PyExn e), n')
        | Ok data =>
          match py_get data (u "tenant_access_token") with
          | Raise e => (Aborted (PyExn e), n')
          | Ok tok =>
            if negb (py_truthy tok) then (Aborted (SystemExit 1), n')
            else match py_item data (u "tenant_access_token") with
                 | Raise e => (Aborted (PyExn e), n')
                 | Ok t => (Done t, n')
                 end
          end
        end
      end.

(** An environment that holds a token, and one with padded credentials. *)
Definition env_token : gmap str str := {[ E_TENANT_TOKEN := u " t-9 " ]}.
Definition env_padded : gmap str str :=
  list_to_map [ (E_APP_ID, u " cli_1 "); (E_APP_SECRET, u "secret") ].

(** * Definitions for documents made of sections *)

(** ** Documents made of sections

    A section as a writer means it: a heading line, that is two or three
    hash signs and the rest of the line, and the text up to the next heading
    line.  [render] writes the sections one after the other, each ended by
    a line break. *)
















(** * Properties *)

(** ** Strings *)

(** Settles the comparisons of a goal about a code point that the context
    confines to a range. *)
Ltac cmp_lia :=
  repeat match goal with
  | |- context [(?a <=? ?b)%N] =>
    first [ rewrite (proj2 (N.leb_le a b)) by lia
          | rewrite (proj2 (N.leb_gt a b)) by lia ]
  | |- context [(?a <? ?b)%N] =>
    first [ rewrite (proj2 (N.ltb_lt a b)) by lia
          | rewrite (proj2 (N.ltb_ge a b)) by lia ]
  | |- context [(?a =? ?b)%N] =>
    first [ rewrite (proj2 (N.eqb_eq a b)) by lia
          | rewrite (proj2 (N.eqb_neq a b)) by lia ]
  end.

(** Case analysis on every [<=?] of the goal. *)
Ltac cmp_cases :=
  repeat match goal with
  | |- context [(?a <=? ?b)%N] => destruct (N.leb_spec a b)
  end; simpl in *; try lia.

Lemma isspace_letters c : 65 <= c <= 122 -> py_isspace c = false.
Proof. intros Hc. unfold py_isspace. cmp_lia. reflexivity. Qed.

Lemma lstrip_hd_ok s : hd_ok (py_lstrip s).
Proof.
  induction s as [|c r IH]; simpl; [exact I|].
  destruct (py_isspace c) eqn:E; [exact IH | exact E].
Qed.

Lemma lstrip_id s : hd_ok s -> py_lstrip s = s.
Proof. destruct s as [|c r]; simpl; [reflexivity|]. intros ->. reflexivity. Qed.

Lemma lstrip_suffix s : exists ws, s = ws ++ py_lstrip s.
Proof.
  induction s as [|c r [ws IH]]; simpl.
  - exists []. reflexivity.
  - destruct (py_isspace c).
    + exists (c :: ws). simpl. f_equal. exact IH.
    + exists []. reflexivity.
Qed.

Lemma hd_ok_prefix (a b : str) : hd_ok (a ++ b) -> hd_ok a.
Proof. destruct a; simpl; auto. Qed.

Lemma strip_fix s : hd_ok s -> hd_ok (rev s) -> py_strip s = s.
Proof.
  intros H1 H2. unfold py_strip, py_rstrip.
  rewrite (lstrip_id s H1), (lstrip_id _ H2). apply rev_involutive.
Qed.

Lemma strip_ends s : hd_ok (py_strip s) /\ hd_ok (rev (py_strip s)).
Proof.
  unfold py_strip, py_rstrip. rewrite rev_involutive. split.
  - destruct (lstrip_suffix (rev (py_lstrip s))) as [ws Hws].
    apply (f_equal (@rev N)) in Hws.
    rewrite rev_involutive, rev_app_distr in Hws.
    pose proof (lstrip_hd_ok s) as Hs. rewrite Hws in Hs.
    exact (hd_ok_prefix _ _ Hs).
  - apply lstrip_hd_ok.
Qed.

Lemma strip_strip s : py_strip (py_strip s) = py_strip s.
Proof. destruct (strip_ends s). apply strip_fix; assumption. Qed.

(** ** Case mapping *)

(** A property of every entry of a table, checked by running through the
    table. *)
Lemma table_forall (t : list (N * list N)) (f : N * list N -> bool)
    (c : N) (img : list N) :
  forallb f t = true ->
  (list_to_map t : gmap N (list N)) !! c = Some img -> f (c, img) = true.
Proof.
  intros Hall Hl. apply elem_of_list_to_map_2 in Hl.
  rewrite forallb_forall in Hall. apply Hall.
  apply list_elem_of_In. exact Hl.
Qed.

(** What a case mapping makes of a code point is not empty and has no
    white space in it. *)
Definition image_ok (e : N * list N) : bool :=
  match e.2 with
  | [] => false
  | _ => forallb (fun x => negb (py_isspace x)) e.2
  end.

Lemma tables_image_ok :
  forallb image_ok UPPER_TABLE = true
  /\ forallb image_ok LOWER_TABLE = true
  /\ forallb image_ok TITLE_TABLE = true.
Proof. vm_compute. repeat split. Qed.

Lemma image_ok_spec c img :
  image_ok (c, img) = true ->
  img <> [] /\ Forall (fun x => py_isspace x = false) img.
Proof.
  unfold image_ok. simpl. destruct img as [|x img]; [discriminate|].
  intros H. split; [discriminate|].
  apply Forall_forall. intros y Hy. rewrite forallb_forall in H.
  apply list_elem_of_In in Hy. apply H in Hy.
  destruct (py_isspace y); [discriminate | reflexivity].
Qed.

Lemma default_image_ok (t : list (N * list N)) c :
  forallb image_ok t = true -> py_isspace c = false ->
  default [c] ((list_to_map t : gmap N (list N)) !! c) <> []
  /\ Forall (fun x => py_isspace x = false)
       (default [c] ((list_to_map t : gmap N (list N)) !! c)).
Proof.
  intros Ht Hc. destruct (_ !! c) as [img|] eqn:E; simpl.
  - apply (image_ok_spec c). exact (table_forall _ _ _ _ Ht E).
  - split; [discriminate | repeat constructor; exact Hc].
Qed.

Lemma to_title_full_ok c :
  py_isspace c = false ->
  to_title_full c <> []
  /\ Forall (fun x => py_isspace x = false) (to_title_full c).
Proof. apply default_image_ok, tables_image_ok. Qed.

Lemma to_lower_full_ok c :
  py_isspace c = false ->
  to_lower_full c <> []
  /\ Forall (fun x => py_isspace x = false) (to_lower_full c).
Proof. apply default_image_ok, tables_image_ok. Qed.

Lemma lower_ucs4_ok before c after :
  py_isspace c = false ->
  lower_ucs4 before c after <> []
  /\ Forall (fun x => py_isspace x = false) (lower_ucs4 before c after).
Proof.
  intros Hc. unfold lower_ucs4. destruct (c =? 931).
  - split; [discriminate|]. repeat constructor.
    unfold handle_capital_sigma. destruct (_ && _); reflexivity.
  - apply to_lower_full_ok. exact Hc.
Qed.

Lemma to_title_full_nonempty c : to_title_full c <> [].
Proof.
  unfold to_title_full. destruct (TITLE !! c) as [img|] eqn:E; simpl;
    [|discriminate].
  pose proof (table_forall _ _ _ _ (proj2 (proj2 tables_image_ok)) E) as H.
  apply image_ok_spec in H. tauto.
Qed.

Lemma capitalize_nil_inv s : py_capitalize s = [] -> s = [].
Proof.
  destruct s as [|c r]; [reflexivity|]. simpl. intros H.
  apply app_eq_nil in H as [H _]. destruct (to_title_full_nonempty c H).
Qed.

(** The ends of a string of several parts. *)
Lemma hd_ok_app (a b : str) : a <> [] -> hd_ok a -> hd_ok (a ++ b).
Proof. destruct a; [congruence | trivial]. Qed.

Lemma hd_ok_Forall (a : str) :
  Forall (fun x => py_isspace x = false) a -> hd_ok a.
Proof. destruct a; simpl; [trivial|]. intros H. inversion H; assumption. Qed.

Lemma hd_ok_rev_app (a b : str) :
  b <> [] -> hd_ok (rev b) -> hd_ok (rev (a ++ b)).
Proof.
  intros Hb H. rewrite rev_app_distr. apply hd_ok_app; [|exact H].
  intros E. apply Hb. apply (f_equal (@rev N)) in E.
  rewrite rev_involutive in E. exact E.
Qed.

Lemma do_lower_nil_inv before s : do_lower before s = [] -> s = [].
Proof.
  destruct s as [|c r]; [reflexivity|]. simpl. intros H.
  apply app_eq_nil in H as [H _]. exfalso. revert H.
  unfold lower_ucs4. destruct (c =? 931); [discriminate|].
  unfold to_lower_full. destruct (LOWER !! c) as [img|] eqn:E; simpl;
    [|discriminate].
  pose proof (table_forall _ _ _ _ (proj1 (proj2 tables_image_ok)) E) as H.
  apply image_ok_spec in H. tauto.
Qed.

(** Lower-casing keeps a last character that is no white space. *)
Lemma do_lower_last before s :
  s <> [] -> hd_ok (rev s) -> hd_ok (rev (do_lower before s)).
Proof.
  revert before. induction s as [|c r IH]; intros before Hne Hlast;
    [congruence|].
  simpl. destruct r as [|d r].
  - simpl in *. rewrite app_nil_r.
    destruct (lower_ucs4_ok before c [] Hlast) as [_ Hall].
    apply hd_ok_Forall, List.Forall_rev, Hall.
  - apply hd_ok_rev_app.
    + intros E. apply do_lower_nil_inv in E. discriminate.
    + apply IH; [discriminate|].
      simpl in Hlast. simpl.
      destruct (rev r ++ [d]) as [|x t] eqn:E;
        [destruct (rev r); discriminate|].
      simpl in Hlast. exact Hlast.
Qed.

Lemma capitalize_ends s :
  hd_ok s -> hd_ok (rev s) ->
  hd_ok (py_capitalize s) /\ hd_ok (rev (py_capitalize s)).
Proof.
  destruct s as [|c r]; [simpl; auto|]. intros Hc Hr.
  simpl in Hc. destruct (to_title_full_ok c Hc) as [Hne Hall].
  cbn [py_capitalize]. split.
  - apply hd_ok_app; [exact Hne | apply hd_ok_Forall, Hall].
  - destruct r as [|d r].
    + simpl. rewrite app_nil_r. apply hd_ok_Forall, List.Forall_rev, Hall.
    + apply hd_ok_rev_app.
      * intros E. apply do_lower_nil_inv in E. discriminate.
      * apply do_lower_last; [discriminate|].
        simpl in Hr. simpl.
        destruct (rev r ++ [d]) as [|x t] eqn:E;
          [destruct (rev r); discriminate|].
        simpl in Hr. exact Hr.
Qed.

Lemma strip_capitalize_strip s :
  py_strip (py_capitalize (py_strip s)) = py_capitalize (py_strip s).
Proof.
  destruct (strip_ends s) as [H1 H2].
  destruct (capitalize_ends _ H1 H2). apply strip_fix; assumption.
Qed.

(** *** ASCII and case-invariant characters *)

Definition ascii_case_ok (c : N) : bool :=
  bool_decide (to_upper_full c = [ascii_upper c])
  && bool_decide (to_lower_full c = [ascii_lower c])
  && bool_decide (to_title_full c = [ascii_upper c])
  && negb (c =? 931).

Lemma ascii_case c :
  c < 128 ->
  to_upper_full c = [ascii_upper c] /\ to_lower_full c = [ascii_lower c]
  /\ to_title_full c = [ascii_upper c] /\ (c =? 931) = false.
Proof.
  intros Hc.
  assert (Hall : forallb ascii_case_ok (map N.of_nat (seq 0 128)) = true)
    by (vm_compute; reflexivity).
  rewrite forallb_forall in Hall.
  assert (Hin : In c (map N.of_nat (seq 0 128))).
  { rewrite <- (N2Nat.id c). apply in_map, in_seq. lia. }
  apply Hall in Hin. unfold ascii_case_ok in Hin.
  repeat (apply andb_prop in Hin as [Hin ?]).
  repeat split;
    try (eapply bool_decide_eq_true_1; eassumption).
  destruct (c =? 931); [discriminate | reflexivity].
Qed.

Lemma plain_case_cp c :
  cp_plain_case c = true ->
  to_lower_full c = [ascii_lower c] /\ to_title_full c = [ascii_upper c]
  /\ (c =? 931) = false.
Proof.
  unfold cp_plain_case. destruct (N.ltb_spec c 128) as [Hc|Hc]; simpl.
  - intros _. destruct (ascii_case c Hc) as (_ & ? & ? & ?). auto.
  - unfold case_invariant, to_lower_full, to_title_full.
    destruct (UPPER !! c); [discriminate|].
    destruct (LOWER !! c) eqn:El; [discriminate|].
    destruct (TITLE !! c); [discriminate|]. intros _. simpl.
    unfold ascii_lower, ascii_upper. cmp_lia. simpl. repeat split.
    destruct (N.eqb_spec c 931) as [->|]; [|reflexivity].
    vm_compute in El. discriminate.
Qed.

Lemma plain_case_ascii_upper c :
  cp_plain_case c = true -> cp_plain_case (ascii_upper c) = true.
Proof.
  unfold cp_plain_case, ascii_upper.
  destruct (N.leb_spec 97 c), (N.leb_spec c 122); simpl; try tauto.
  intros _. rewrite (proj2 (N.ltb_lt (c - 32) 128)) by lia. reflexivity.
Qed.

Lemma plain_case_ascii_lower c :
  cp_plain_case c = true -> cp_plain_case (ascii_lower c) = true.
Proof.
  unfold cp_plain_case, ascii_lower.
  destruct (N.leb_spec 65 c), (N.leb_spec c 90); simpl; try tauto.
  intros _. rewrite (proj2 (N.ltb_lt (c + 32) 128)) by lia. reflexivity.
Qed.

Lemma do_lower_plain before s :
  plain_case s = true -> do_lower before s = map ascii_lower s.
Proof.
  revert before. induction s as [|c r IH]; intros before H;
    [reflexivity|].
  simpl in H. apply andb_prop in H as [Hc Hr]. simpl.
  destruct (plain_case_cp c Hc) as (Hl & _ & Hs).
  unfold lower_ucs4. rewrite Hs, Hl, (IH _ Hr). reflexivity.
Qed.

Lemma lower_plain s : plain_case s = true -> py_lower s = map ascii_lower s.
Proof. apply do_lower_plain. Qed.

Lemma capitalize_plain c r :
  plain_case (c :: r) = true ->
  py_capitalize (c :: r) = ascii_upper c :: map ascii_lower r.
Proof.
  intros H. simpl in H. apply andb_prop in H as [Hc Hr]. simpl.
  destruct (plain_case_cp c Hc) as (_ & -> & _).
  rewrite (do_lower_plain _ _ Hr). reflexivity.
Qed.

Lemma plain_case_map_lower s :
  plain_case s = true -> plain_case (map ascii_lower s) = true.
Proof.
  unfold plain_case. rewrite !forallb_forall. intros H x Hx.
  apply in_map_iff in Hx as (y & <- & Hy).
  apply plain_case_ascii_lower, H, Hy.
Qed.

Lemma plain_case_capitalize s :
  plain_case s = true -> plain_case (py_capitalize s) = true.
Proof.
  destruct s as [|c r]; [reflexivity|]. intros H.
  rewrite (capitalize_plain _ _ H). simpl in H.
  apply andb_prop in H as [Hc Hr]. simpl.
  rewrite (plain_case_ascii_upper _ Hc), (plain_case_map_lower _ Hr).
  reflexivity.
Qed.

Lemma ascii_lower_upper c : ascii_lower (ascii_upper c) = ascii_lower c.
Proof. unfold ascii_lower, ascii_upper. cmp_cases. Qed.

Lemma ascii_lower_lower c : ascii_lower (ascii_lower c) = ascii_lower c.
Proof. unfold ascii_lower. cmp_cases. Qed.

Lemma ascii_upper_upper c : ascii_upper (ascii_upper c) = ascii_upper c.
Proof. unfold ascii_upper. cmp_cases. Qed.

Lemma lower_capitalize s :
  plain_case s = true -> py_lower (py_capitalize s) = py_lower s.
Proof.
  intros H. rewrite (lower_plain _ (plain_case_capitalize _ H)),
    (lower_plain _ H).
  destruct s as [|c r]; [reflexivity|].
  rewrite (capitalize_plain _ _ H). simpl.
  rewrite ascii_lower_upper, map_map. f_equal.
  apply map_ext. apply ascii_lower_lower.
Qed.

Lemma capitalize_capitalize s :
  plain_case s = true -> py_capitalize (py_capitalize s) = py_capitalize s.
Proof.
  intros H. destruct s as [|c r]; [reflexivity|].
  pose proof (plain_case_capitalize _ H) as H'.
  rewrite (capitalize_plain _ _ H) in *.
  rewrite (capitalize_plain _ _ H'), ascii_upper_upper, map_map.
  f_equal. apply map_ext. apply ascii_lower_lower.
Qed.

Lemma forallb_lstrip (p : N -> bool) s :
  forallb p s = true -> forallb p (py_lstrip s) = true.
Proof.
  induction s as [|c r IH]; [trivial|]. simpl.
  destruct (py_isspace c); [|trivial].
  intros H. apply andb_prop in H as [_ H]. auto.
Qed.

Lemma forallb_strip (p : N -> bool) s :
  forallb p s = true -> forallb p (py_strip s) = true.
Proof.
  intros H. unfold py_strip, py_rstrip.
  rewrite forallb_forall. intros x Hx. apply in_rev in Hx.
  revert x Hx. rewrite <- forallb_forall. apply forallb_lstrip.
  rewrite forallb_forall. intros x Hx. apply in_rev in Hx.
  revert x Hx. rewrite <- forallb_forall. apply forallb_lstrip, H.
Qed.

(** ** Regular expressions: the fuel of the matcher is never used up *)

Lemma advances_refl st : advances st st.
Proof. split; lia. Qed.

Lemma advances_trans st1 st2 st3 :
  advances st1 st2 -> advances st2 st3 -> advances st1 st3.
Proof. intros [? ?] [? ?]. split; lia. Qed.

Lemma rep_loop_local ma greedy :
  local ma -> forall fuel lo hi, local (rep_loop ma greedy fuel lo hi).
Proof.
  intros Hma fuel.
  induction fuel as [|fuel IH]; intros lo hi st k k' Hk; simpl;
    [reflexivity|].
  assert (Hmore : forall lo' hi' (guard : mstate -> bool),
    ma st (fun st' => if guard st'
                      then rep_loop ma greedy fuel lo' hi' st' k else None)
    = ma st (fun st' => if guard st'
                        then rep_loop ma greedy fuel lo' hi' st' k'
                        else None)).
  { intros lo' hi' guard. apply Hma. intros st' Hst'.
    destruct (guard st'); [|reflexivity].
    apply IH. intros st'' Hst''. apply Hk.
    exact (advances_trans _ _ _ Hst' Hst''). }
  destruct lo as [|lo].
  - rewrite (Hk st (advances_refl st)).
    destruct hi as [[|h]|]; [reflexivity | |];
      rewrite (Hmore O _ (fun st' => Nat.ltb (m_pos st) (m_pos st')));
      reflexivity.
  - exact (Hmore lo _ (fun _ => true)).
Qed.

Lemma rmatch_local r : local (rmatch r).
Proof.
  induction r as [p| | |a IHa b IHb|a IHa b IHb|g lo hi a IHa|i a IHa|a IHa];
    intros st k k' Hk; cbn [rmatch].
  - destruct (m_rest st) as [|c rest] eqn:E; [reflexivity|].
    destruct (p c); [|reflexivity]. apply Hk.
    split; simpl; rewrite ?E; simpl; lia.
  - destruct (Nat.eqb _ _); [apply Hk, advances_refl | reflexivity].
  - destruct (m_rest st) as [|c [|c' rest]]; [| |reflexivity].
    + apply Hk, advances_refl.
    + destruct (c =? 10); [apply Hk, advances_refl | reflexivity].
  - apply IHa. intros st' Hst'. apply IHb. intros st'' Hst''.
    apply Hk. exact (advances_trans _ _ _ Hst' Hst'').
  - rewrite (IHa st k k' Hk), (IHb st k k' Hk). reflexivity.
  - apply (rep_loop_local _ _ IHa). exact Hk.
  - apply IHa. intros st' Hst'. apply Hk. exact Hst'.
  - destruct (rmatch a st Some); [|reflexivity]. apply Hk.
    split; simpl; lia.
Qed.

(** Any fuel above the bound gives the same result: the loop of a
    repetition ends by itself. *)
Lemma rep_loop_fuel ma greedy (Hma : local ma) fuel fuel' lo hi st k :
  (length (m_rest st) + lo < fuel)%nat ->
  (length (m_rest st) + lo < fuel')%nat ->
  rep_loop ma greedy fuel lo hi st k = rep_loop ma greedy fuel' lo hi st k.
Proof.
  revert fuel' lo hi st.
  induction fuel as [|fuel IH]; intros fuel' lo hi st Hf Hf'; [lia|].
  destruct fuel' as [|fuel']; [lia|]. simpl.
  destruct lo as [|lo].
  - assert (Hmore :
      ma st (fun st' => if Nat.ltb (m_pos st) (m_pos st')
                        then rep_loop ma greedy fuel O (Nat.pred <$> hi) st' k
                        else None)
      = ma st (fun st' => if Nat.ltb (m_pos st) (m_pos st')
                          then rep_loop ma greedy fuel' O (Nat.pred <$> hi)
                                 st' k
                          else None)).
    { apply Hma. intros st' [Hsum Hle].
      destruct (Nat.ltb_spec (m_pos st) (m_pos st')); [|reflexivity].
      apply IH; lia. }
    destruct hi as [[|h]|]; [reflexivity | |]; simpl in *; rewrite Hmore;
      reflexivity.
  - apply Hma. intros st' [Hsum Hle]. apply IH; lia.
Qed.

Lemma orelse_Some {A} (x y : option A) (res : A) :
  orelse x y = Some res -> x = Some res \/ y = Some res.
Proof. destruct x; simpl; auto. Qed.

Lemma rmatch_rep_fuel greedy lo hi a st k n :
  rep_loop (rmatch a) greedy (S (length (m_rest st) + lo) + n) lo hi st k
  = rmatch (Rep greedy lo hi a) st k.
Proof. apply rep_loop_fuel; [apply rmatch_local | lia | lia]. Qed.

Lemma rep_loop_sound ma greedy :
  sound ma -> forall fuel lo hi, sound (rep_loop ma greedy fuel lo hi).
Proof.
  intros Hma fuel.
  induction fuel as [|fuel IH]; intros lo hi st k res Hres; simpl in Hres;
    [discriminate|].
  assert (Hmore : forall lo' hi' (guard : mstate -> bool),
    ma st (fun st' => if guard st'
                      then rep_loop ma greedy fuel lo' hi' st' k else None)
    = Some res ->
    exists st', advances st st' /\ k st' = Some res).
  { intros lo' hi' guard Hm.
    destruct (Hma _ _ _ Hm) as (st' & Hst' & Hk).
    destruct (guard st'); [|discriminate].
    destruct (IH _ _ _ _ _ Hk) as (st'' & Hst'' & Hk'').
    exists st''.
    split; [exact (advances_trans _ _ _ Hst' Hst'') | exact Hk'']. }
  assert (Hstop : k st = Some res ->
                  exists st', advances st st' /\ k st' = Some res).
  { intros Hk. exists st. split; [apply advances_refl | exact Hk]. }
  destruct lo as [|lo].
  - destruct hi as [[|h]|]; [exact (Hstop Hres) | |];
      destruct greedy; apply orelse_Some in Hres as [Hres|Hres];
      first [ exact (Hstop Hres)
            | exact (Hmore O _ (fun st' => Nat.ltb (m_pos st) (m_pos st'))
                       Hres) ].
  - exact (Hmore lo _ (fun _ => true) Hres).
Qed.

Lemma rmatch_sound r : sound (rmatch r).
Proof.
  induction r as [p| | |a IHa b IHb|a IHa b IHb|g lo hi a IHa|i a IHa|a IHa];
    intros st k res Hres; cbn [rmatch] in Hres.
  - destruct (m_rest st) as [|c rest] eqn:E; [discriminate|].
    destruct (p c); [|discriminate].
    eexists. split; [|exact Hres]. split; simpl; rewrite ?E; simpl; lia.
  - destruct (Nat.eqb _ _); [|discriminate].
    exists st. split; [apply advances_refl | exact Hres].
  - exists st. split; [apply advances_refl |].
    destruct (m_rest st) as [|c [|c' rest]]; [exact Hres | | discriminate].
    destruct (c =? 10); [exact Hres | discriminate].
  - destruct (IHa _ _ _ Hres) as (st1 & H1 & Hb).
    destruct (IHb _ _ _ Hb) as (st2 & H2 & Hk).
    exists st2. split; [exact (advances_trans _ _ _ H1 H2) | exact Hk].
  - unfold orelse in Hres. destruct (rmatch a st k) eqn:Ea.
    + apply (IHa st k res). congruence.
    + exact (IHb _ _ _ Hres).
  - exact (rep_loop_sound _ _ IHa _ _ _ _ _ _ Hres).
  - destruct (IHa _ _ _ Hres) as (st1 & [H1 H1'] & Hk).
    eexists. split; [|exact Hk]. split; simpl; lia.
  - destruct (rmatch a st Some); [|discriminate].
    eexists. split; [|exact Hres]. split; simpl; lia.
Qed.

Lemma re_search_advances r pos rest start st' :
  re_search r pos rest = Some (start, st') ->
  (pos <= start <= m_pos st')%nat
  /\ (m_pos st' + length (m_rest st') = pos + length rest)%nat.
Proof.
  revert pos. induction rest as [|c rest IH]; intros pos; simpl.
  - destruct (rmatch r _ Some) as [st1|] eqn:E; [|discriminate].
    intros [= <- <-].
    destruct (rmatch_sound r _ _ _ E) as (st2 & [H1 H2] & [= ->]).
    simpl in *. lia.
  - destruct (rmatch r _ Some) as [st1|] eqn:E.
    + intros [= <- <-].
      destruct (rmatch_sound r _ _ _ E) as (st2 & [H1 H2] & [= ->]).
      simpl in *. lia.
    + intros Hs. apply IH in Hs. simpl. lia.
Qed.

(** [finditer] has fuel enough: more of it finds the same matches. *)
Lemma finditer_from_fuel r fuel fuel' pos rest :
  (length rest < fuel)%nat -> (length rest < fuel')%nat ->
  finditer_from fuel r pos rest = finditer_from fuel' r pos rest.
Proof.
  revert fuel' pos rest.
  induction fuel as [|fuel IH]; intros fuel' pos rest Hf Hf'; [lia|].
  destruct fuel' as [|fuel']; [lia|]. simpl.
  destruct (re_search r pos rest) as [[start st']|] eqn:E; [|reflexivity].
  apply re_search_advances in E. f_equal.
  destruct (Nat.ltb_spec start (m_pos st')).
  - apply IH; lia.
  - destruct (m_rest st') as [|c rest'] eqn:Er; [reflexivity|].
    simpl in E. apply IH; lia.
Qed.

Lemma finditer_fuel r s n :
  finditer_from (S (length s) + n) r 0 s = finditer r s.
Proof. apply finditer_from_fuel; lia. Qed.

(** ** Alias Normalizer *)

Lemma norm_pri_nonempty v :
  v <> [] ->
  norm_pri v =
  Some (default (py_strip v) (PRIORITY_ALIASES !! py_upper (py_strip v))).
Proof. destruct v; [congruence | reflexivity]. Qed.

Lemma norm_type_nonempty v :
  v <> [] ->
  norm_type v =
  Some (default (py_capitalize (py_strip v))
          (TYPE_ALIASES !! py_lower (py_strip v))).
Proof. destruct v; [congruence | reflexivity]. Qed.

(** Every value of the priority table is one of its own keys, mapped to
    itself, and so is a fixed point of [norm_pri]; likewise for types. *)
Lemma pri_values_fixed :
  map_Forall (fun _ c => norm_pri c = Some c) PRIORITY_ALIASES.
Proof.
  apply map_Forall_to_list.
  vm_compute map_to_list. repeat constructor.
Qed.

Lemma type_values_fixed :
  map_Forall (fun _ c => norm_type c = Some c) TYPE_ALIASES.
Proof.
  apply map_Forall_to_list.
  vm_compute map_to_list. repeat constructor.
Qed.

(** C6 as stated fails: the characters after the first are lower-cased, not
    left as they are.  ["fooBar"] is no key of the table and comes back as
    ["Foobar"], where the first-character-only reading gives ["FooBar"]. *)
Lemma norm_type_first_only_cex :
  u "fooBar" <> []
  /\ TYPE_ALIASES !! py_lower (py_strip (u "fooBar")) = None
  /\ norm_type (u "fooBar") = Some (u "Foobar")
  /\ spec_capitalize_first (py_strip (u "fooBar")) = u "FooBar"
  /\ norm_type (u "fooBar")
     <> Some (spec_capitalize_first (py_strip (u "fooBar"))).
Proof.
  vm_compute. repeat split; try reflexivity; discriminate.
Qed.

(** C6, amended: for a non-empty input whose trimmed, lower-cased form is no
    key of the type table, [norm_type] returns the trimmed input
    capitalized the way [str.capitalize] does it, the first character
    title-cased and every other character lower-cased; on a string of ASCII
    and case-invariant characters that is the first character upper-cased if
    it is an ASCII letter and every other ASCII letter lower-cased.  An
    input whose trimmed, lower-cased form is one of the known tokens gets
    the canonical value of that token, whatever the case of its letters. *)
Theorem norm_type_spec (v : str) (Hv : v <> []) :
  (TYPE_ALIASES !! py_lower (py_strip v) = None ->
     norm_type v = Some (py_capitalize (py_strip v))
     /\ forall c r, py_strip v = c :: r ->
          norm_type v = Some (to_title_full c ++ do_lower [c] r)
          /\ (plain_case v = true ->
              norm_type v = Some (ascii_upper c :: map ascii_lower r)))
  /\ (py_lower (py_strip v) ∈ [u "bug"; u "缺陷"] ->
        norm_type v = Some (u "BUG"))
  /\ (py_lower (py_strip v) ∈ [u "feature"; u "新功能"] ->
        norm_type v = Some (u "Feature"))
  /\ (py_lower (py_strip v) ∈ [u "enhancement"; u "improvement"; u "优化"] ->
        norm_type v = Some (u "Enhancement")).
Proof.
  rewrite (norm_type_nonempty v Hv).
  split; [|repeat split].
  - intros Hno. rewrite Hno. cbn [default]. split; [reflexivity|].
    intros c r Hcr. rewrite Hcr. split; [reflexivity|].
    intros Hp. f_equal. apply capitalize_plain.
    rewrite <- Hcr. apply forallb_strip, Hp.
  - intros Hin. repeat (apply elem_of_cons in Hin as [-> | Hin]);
      [reflexivity .. | by apply elem_of_nil in Hin].
  - intros Hin. repeat (apply elem_of_cons in Hin as [-> | Hin]);
      [reflexivity .. | by apply elem_of_nil in Hin].
  - intros Hin. repeat (apply elem_of_cons in Hin as [-> | Hin]);
      [reflexivity .. | by apply elem_of_nil in Hin].
Qed.

Lemma norm_type_spec_witness :
  u " tAsk " <> []
  /\ TYPE_ALIASES !! py_lower (py_strip (u " tAsk ")) = None
  /\ norm_type (u " tAsk ") = Some (u "Task").
Proof.
  assert (Hne : u " tAsk " <> []) by (vm_compute; discriminate).
  assert (Hno : TYPE_ALIASES !! py_lower (py_strip (u " tAsk ")) = None)
    by (vm_compute; reflexivity).
  split; [exact Hne | split; [exact Hno |]].
  destruct (norm_type_spec (u " tAsk ") Hne) as [Hpass _].
  destruct (Hpass Hno) as [-> _]. vm_compute. reflexivity.
Defined.

(** C8 as stated fails in two ways.  On an input of white space only the
    normal form is the empty string, and the empty string normalizes to
    [None].  And a type token with a cased character outside ASCII need not
    be stable: a dotless i is title-cased to [I], so ["ımprovement"], no key
    of the table, becomes ["Improvement"], which is lower-cased to the key
    ["improvement"] and normalizes to ["Enhancement"]. *)
Lemma norm_not_idempotent_cex :
  norm_pri (u " ") = Some []
  /\ norm_pri_opt (norm_pri (u " ")) = None
  /\ norm_pri_opt (norm_pri (u " ")) <> norm_pri (u " ")
  /\ norm_type (u " ") = Some []
  /\ norm_type_opt (norm_type (u " ")) = None
  /\ norm_type_opt (norm_type (u " ")) <> norm_type (u " ")
  /\ py_strip (u "ımprovement") <> []
  /\ norm_type (u "ımprovement") = Some (u "Improvement")
  /\ norm_type_opt (norm_type (u "ımprovement")) = Some (u "Enhancement")
  /\ norm_type_opt (norm_type (u "ımprovement"))
     <> norm_type (u "ımprovement").
Proof.
  vm_compute. repeat split; try reflexivity; discriminate.
Qed.

(** C8, amended: on every input that is empty or has a character that is
    not white space, priority normalization is idempotent, and so is type
    normalization when the input is made of ASCII and case-invariant
    characters; the canonical values P0 to P3 and BUG, Feature, Enhancement
    are fixed points, and so is the pass-through of an unknown token. *)
Theorem norm_idempotent (s : str) (Hs : s = [] \/ py_strip s <> []) :
  norm_pri_opt (norm_pri s) = norm_pri s
  /\ (plain_case s = true -> norm_type_opt (norm_type s) = norm_type s)
  /\ Forall (fun c => norm_pri c = Some c) [u "P0"; u "P1"; u "P2"; u "P3"]
  /\ Forall (fun c => norm_type c = Some c)
       [u "BUG"; u "Feature"; u "Enhancement"].
Proof.
  split; [|split; [|split; repeat constructor]].
  - destruct Hs as [->|Hs]; [reflexivity|].
    assert (Hne : s <> []) by (intros ->; apply Hs; reflexivity).
    rewrite (norm_pri_nonempty s Hne).
    destruct (PRIORITY_ALIASES !! _) as [k|] eqn:E; simpl.
    + exact (pri_values_fixed _ _ E).
    + rewrite (norm_pri_nonempty _ Hs), strip_strip, E. reflexivity.
  - intros Hp. destruct Hs as [->|Hs]; [reflexivity|].
    assert (Hne : s <> []) by (intros ->; apply Hs; reflexivity).
    assert (Hps : plain_case (py_strip s) = true)
      by (apply forallb_strip, Hp).
    rewrite (norm_type_nonempty s Hne).
    destruct (TYPE_ALIASES !! _) as [k|] eqn:E; simpl.
    + exact (type_values_fixed _ _ E).
    + assert (Hc : py_capitalize (py_strip s) <> [])
        by (intros Hc; apply Hs, capitalize_nil_inv, Hc).
      rewrite (norm_type_nonempty _ Hc), strip_capitalize_strip,
        (lower_capitalize _ Hps), E, (capitalize_capitalize _ Hps).
      reflexivity.
Qed.

Lemma norm_idempotent_witness :
  (u " Improvement request " = [] \/ py_strip (u " Improvement request ") <> [])
  /\ plain_case (u " Improvement request ") = true
  /\ norm_pri_opt (norm_pri (u " Improvement request "))
     = norm_pri (u " Improvement request ")
  /\ norm_type_opt (norm_type (u " Improvement request "))
     = norm_type (u " Improvement request ").
Proof.
  assert (Hs : u " Improvement request " = []
               \/ py_strip (u " Improvement request ") <> [])
    by (right; vm_compute; discriminate).
  assert (Hc : plain_case (u " Improvement request ") = true)
    by (vm_compute; reflexivity).
  destruct (norm_idempotent _ Hs) as (Hp & Ht & _).
  exact (conj Hs (conj Hc (conj Hp (Ht Hc)))).
Defined.

(** ** Field Builder *)

Lemma keep_FN_lookup (f : gmap str pyval) (k : str) :
  keep_FN f !! k = if decide (k ∈ FN) then f !! k else None.
Proof.
  unfold keep_FN. rewrite map_lookup_filter.
  destruct (f !! k) as [x|]; simpl; [|by case_decide].
  case_decide; [rewrite option_guard_True | rewrite option_guard_False]; done.
Qed.

Lemma set_if_nonempty_lookup (k : str) (x : option str)
    (f : gmap str pyval) (k' : str) :
  set_if_nonempty k x f !! k' =
  if decide (k = k') then
    match opt_nonempty x with Some y => Some y | None => f !! k' end
  else f !! k'.
Proof.
  unfold set_if_nonempty, opt_nonempty.
  destruct x as [[|c r]|]; case_decide; subst;
    rewrite ?lookup_insert_eq, ?lookup_insert_ne by done; reflexivity.
Qed.

(** The entries of an assembled Field Set, key by key. *)
Lemma assemble_lookup title url pri typ bug (k : str) :
  assemble title url pri typ bug !! k =
  if decide (k = K_TITLE) then Some title
  else if decide (k = K_URL) then url
  else if decide (k = K_PRI) then opt_nonempty pri
  else if decide (k = K_TYPE) then opt_nonempty typ
  else if decide (k = K_BUGSRC) then opt_nonempty (Some bug)
  else None.
Proof.
  unfold assemble. rewrite keep_FN_lookup, !set_if_nonempty_lookup.
  assert (Hfn : k ∈ FN <-> k = K_TITLE \/ k = K_URL \/ k = K_PRI
                         \/ k = K_TYPE \/ k = K_BUGSRC).
  { unfold FN. rewrite !elem_of_cons, elem_of_nil. tauto. }
  repeat case_decide; subst; try discriminate; try tauto;
    destruct url;
    rewrite ?lookup_insert_eq, ?lookup_insert_ne, ?lookup_empty by done;
    try destruct (opt_nonempty _); try reflexivity; tauto.
Qed.

Lemma assemble_keys title url pri typ bug (k : str) :
  is_Some (assemble title url pri typ bug !! k) -> k ∈ FN.
Proof.
  rewrite assemble_lookup. unfold FN. rewrite !elem_of_cons.
  repeat case_decide; subst; auto 10. intros [? ?]. discriminate.
Qed.

Lemma opt_nonempty_not_empty (x : option str) :
  opt_nonempty x <> Some (PStr []).
Proof. destruct x as [[|c r]|]; simpl; congruence. Qed.

Lemma assemble_no_empty title url pri typ bug (k : str) :
  k ∈ [K_PRI; K_TYPE; K_BUGSRC] ->
  assemble title url pri typ bug !! k <> Some (PStr []).
Proof.
  intros Hk. rewrite assemble_lookup.
  repeat (apply elem_of_cons in Hk as [-> | Hk]);
    [.. | by apply elem_of_nil in Hk];
    repeat case_decide; try discriminate; apply opt_nonempty_not_empty.
Qed.

Lemma build_from_inputs_assemble (inputs : gmap str str) (url : str) :
  build_from_inputs inputs url =
  assemble
    (PStr match py_strip (default [] (inputs !! K_TITLE)) with
          | [] => py_strip (default [] (inputs !! K_ISSUE_TITLE))
          | t => t
          end)
    (Some (PStr (py_strip url)))
    (norm_pri (default [] (inputs !! K_PRI)))
    (norm_type (default [] (inputs !! K_TYPE)))
    (py_strip (default [] (inputs !! K_BUGSRC))).
Proof. reflexivity. Qed.

Lemma build_from_issue_assemble evt fs :
  build_from_issue evt = Ok fs ->
  exists title url pri typ bug, fs = assemble title url pri typ bug.
Proof.
  unfold build_from_issue.
  destruct (py_get (py_or evt (PDict ∅)) (u "issue")) as [issue0|] eqn:E1;
    simpl; [|discriminate].
  destruct (py_get (py_or issue0 (PDict ∅)) (u "body")) as [body0|] eqn:E2;
    simpl; [|discriminate].
  destruct (parse_md_any (py_or body0 (PStr []))) as [md|] eqn:E3;
    simpl; [|discriminate].
  set (issue := py_or issue0 (PDict ∅)) in *.
  destruct (match py_strip (default [] (md !! K_TITLE)) with
            | [] => _ | _ => _ end) as [title|] eqn:E4;
    simpl; [|discriminate].
  destruct (py_get issue (u "html_url")) as [h|] eqn:E5;
    simpl; [|discriminate].
  destruct (py_truthy h); simpl.
  - destruct (py_item issue (u "html_url")) as [x|] eqn:E6;
      simpl; [|discriminate].
    intros [= <-]. exists title, (Some x). eauto.
  - intros [= <-]. exists title, None. eauto.
Qed.

Lemma py_or_dict v :
  dict_or_falsy v = true -> exists d, py_or v (PDict ∅) = PDict d.
Proof.
  unfold py_or, dict_or_falsy.
  destruct v; simpl; intros Hv;
    try (apply negb_true_iff in Hv; rewrite Hv); eauto.
  destruct (negb _); eauto.
Qed.

Lemma parse_md_any_ok v :
  str_or_falsy v = true -> exists md, parse_md_any (py_or v (PStr [])) = Ok md.
Proof.
  unfold parse_md_any, py_or, str_or_falsy.
  destruct v as [| | | |b| |]; simpl; intros Hv;
    try (apply negb_true_iff in Hv; rewrite Hv; simpl); eauto.
  destruct b; simpl; eauto.
Qed.

(** On well-typed events the builder does return. *)
Lemma build_from_issue_total evt :
  dict_or_falsy evt = true ->
  (forall issue, py_get (py_or evt (PDict ∅)) (u "issue") = Ok issue ->
     dict_or_falsy issue = true
     /\ forall body, py_get (py_or issue (PDict ∅)) (u "body") = Ok body ->
          str_or_falsy body = true) ->
  exists fs, build_from_issue evt = Ok fs.
Proof.
  intros Hevt Hissue. unfold build_from_issue.
  destruct (py_or_dict _ Hevt) as [d Hd].
  rewrite Hd in *. simpl. simpl in Hissue.
  destruct (Hissue _ eq_refl) as [Hi Hbody].
  set (issue0 := default PNone (d !! u "issue")) in *.
  destruct (py_or_dict _ Hi) as [i Hi'].
  rewrite Hi' in *. simpl. simpl in Hbody.
  specialize (Hbody _ eq_refl).
  set (body0 := default PNone (i !! u "body")) in *.
  destruct (parse_md_any_ok _ Hbody) as [md ->].
  simpl. destruct (py_strip (default [] (md !! K_TITLE))); simpl.
  - destruct (py_truthy (default PNone (i !! u "html_url"))) eqn:Eh; simpl;
      [|eauto].
    destruct (i !! u "html_url") eqn:Ek; simpl in *; [eauto | discriminate].
  - destruct (py_truthy (default PNone (i !! u "html_url"))) eqn:Eh; simpl;
      [|eauto].
    destruct (i !! u "html_url") eqn:Ek; simpl in *; [eauto | discriminate].
Qed.

(** The scenarios of the specification. *)
Example scenario_login : build_from_issue evt_login = Ok fields_login.
Proof. vm_compute. reflexivity. Qed.

Example scenario_no_headings :
  build_from_issue
    (issue_event (u "no headings here") (u "Fallback Title") (u "https://x/1"))
  = Ok (list_to_map [ (K_TITLE, PStr (u "Fallback Title"));
                      (K_URL, PStr (u "https://x/1")) ]).
Proof. vm_compute. reflexivity. Qed.

Example scenario_inputs_high :
  build_from_inputs {[ K_PRI := u "high" ]} (u "https://x/1") !! K_PRI
  = Some (PStr (u "P0")).
Proof. vm_compute. reflexivity. Qed.

(** C4: in both modes the keys of the Field Set are among the five names of
    [FN]; every other key is dropped.  (From-event mode is the run that
    returns: on an ill-typed event the builder raises and there is no Field
    Set; [build_from_issue_total] shows that it returns on well-typed
    ones.) *)
Theorem fields_keys_allowed (evt : pyval) (fs : gmap str pyval)
    (inputs : gmap str str) (url : str)
    (Hfs : build_from_issue evt = Ok fs) :
  dom fs ⊆ (list_to_set FN : gset str)
  /\ dom (build_from_inputs inputs url) ⊆ (list_to_set FN : gset str).
Proof.
  destruct (build_from_issue_assemble _ _ Hfs)
    as (title & url' & pri & typ & bug & ->).
  rewrite build_from_inputs_assemble.
  split; intros k Hk; apply elem_of_dom in Hk;
    apply elem_of_list_to_set; exact (assemble_keys _ _ _ _ _ _ Hk).
Qed.

Lemma fields_keys_allowed_witness :
  build_from_issue evt_login = Ok fields_login
  /\ dom fields_login ⊆ (list_to_set FN : gset str)
  /\ dom (build_from_inputs {[ u "extra" := u "x"; K_PRI := u "high" ]}
            (u "https://x/1")) ⊆ (list_to_set FN : gset str).
Proof.
  assert (Hfs : build_from_issue evt_login = Ok fields_login)
    by (vm_compute; reflexivity).
  split; [exact Hfs |].
  exact (fields_keys_allowed evt_login fields_login
           {[ u "extra" := u "x"; K_PRI := u "high" ]} (u "https://x/1") Hfs).
Defined.

(** C10: in both modes the key 标题 is in the Field Set whatever the input,
    with the empty string as its value when no title is found, while the
    keys 优先级, 需求类型 and bug来源（可选） are never there with an empty
    value. *)
Theorem title_always_present (evt : pyval) (fs : gmap str pyval)
    (inputs : gmap str str) (url : str)
    (Hfs : build_from_issue evt = Ok fs) :
  is_Some (fs !! K_TITLE)
  /\ is_Some (build_from_inputs inputs url !! K_TITLE)
  /\ (inputs !! K_TITLE = None -> inputs !! K_ISSUE_TITLE = None ->
        build_from_inputs inputs url !! K_TITLE = Some (PStr []))
  /\ (forall k, k ∈ [K_PRI; K_TYPE; K_BUGSRC] ->
        fs !! k <> Some (PStr [])
        /\ build_from_inputs inputs url !! k <> Some (PStr [])).
Proof.
  destruct (build_from_issue_assemble _ _ Hfs)
    as (title & url' & pri & typ & bug & ->).
  rewrite build_from_inputs_assemble.
  repeat split.
  - rewrite assemble_lookup. eauto.
  - rewrite assemble_lookup. eauto.
  - intros H1 H2. rewrite assemble_lookup, H1, H2. reflexivity.
  - by apply assemble_no_empty.
  - by apply assemble_no_empty.
Qed.

Lemma title_always_present_witness :
  build_from_issue (PDict ∅) = Ok {[ K_TITLE := PStr [] ]}
  /\ is_Some (({[ K_TITLE := PStr [] ]} : gmap str pyval) !! K_TITLE)
  /\ build_from_inputs ∅ (u "https://x/1") !! K_TITLE = Some (PStr []).
Proof.
  assert (Hfs : build_from_issue (PDict ∅) = Ok {[ K_TITLE := PStr [] ]})
    by (vm_compute; reflexivity).
  destruct (title_always_present (PDict ∅) _ ∅ (u "https://x/1") Hfs)
    as (Ht & _ & He & _).
  split; [exact Hfs | split; [exact Ht |]].
  apply He; apply lookup_empty.
Defined.

(** C7 as stated fails: the values are normalized on the way, and 标题 is
    written even when the input has none.  With 优先级 given as ["high"] the
    output holds ["P0"]; with no 标题 in the input the output has 标题 with
    the empty string. *)
Lemma inputs_round_trip_cex :
  map_Forall (fun k v => k ∈ FN /\ v <> []) inputs_high
  /\ build_from_inputs inputs_high (u "https://x/1") !! K_PRI
     = Some (PStr (u "P0"))
  /\ build_from_inputs inputs_high (u "https://x/1")
     <> <[K_URL := PStr (u "https://x/1")]> (PStr <$> inputs_high)
  /\ map_Forall (fun k v => k ∈ FN /\ v <> []) inputs_no_title
  /\ build_from_inputs inputs_no_title (u "https://x/1") !! K_TITLE
     = Some (PStr [])
  /\ build_from_inputs inputs_no_title (u "https://x/1")
     <> <[K_URL := PStr (u "https://x/1")]> (PStr <$> inputs_no_title).
Proof.
  assert (Hneq : forall (a b : gmap str pyval) k, a !! k <> b !! k -> a <> b)
    by (intros a b k Hk ->; exact (Hk eq_refl)).
  split; [|split; [|split; [|split; [|split]]]].
  - apply map_Forall_to_list. vm_compute map_to_list.
    repeat (apply Forall_cons; split;
            [split; [apply list_elem_of_In; vm_compute; auto 10
                    |discriminate]|]).
    apply Forall_nil_2.
  - vm_compute. reflexivity.
  - apply (Hneq _ _ K_PRI). vm_compute. discriminate.
  - apply map_Forall_to_list. vm_compute map_to_list.
    repeat (apply Forall_cons; split;
            [split; [apply list_elem_of_In; vm_compute; auto 10
                    |discriminate]|]).
    apply Forall_nil_2.
  - vm_compute. reflexivity.
  - apply (Hneq _ _ K_TITLE). vm_compute. discriminate.
Qed.

(** C7, amended: when the flat map has allow-listed keys only, has 标题, and
    its values are already in normal form (标题 and bug来源（可选） trimmed,
    优先级 and 需求类型 fixed by their normalization, those three not
    empty), and the explicit URL is trimmed, the output Field Set is that
    map with IssueURL set to the explicit URL. *)
Theorem inputs_round_trip (inputs : gmap str str) (url : str)
    (Hkeys : forall k, is_Some (inputs !! k) -> k ∈ FN)
    (Htitle : exists t, inputs !! K_TITLE = Some t /\ py_strip t = t)
    (Hpri : forall v, inputs !! K_PRI = Some v ->
              v <> [] /\ norm_pri v = Some v)
    (Htyp : forall v, inputs !! K_TYPE = Some v ->
              v <> [] /\ norm_type v = Some v)
    (Hbug : forall v, inputs !! K_BUGSRC = Some v ->
              v <> [] /\ py_strip v = v)
    (Hurl : py_strip url = url) :
  build_from_inputs inputs url = <[K_URL := PStr url]> (PStr <$> inputs).
Proof.
  rewrite build_from_inputs_assemble. apply map_eq. intros k.
  rewrite assemble_lookup, lookup_insert, lookup_fmap.
  assert (Hit : inputs !! K_ISSUE_TITLE = None).
  { destruct (inputs !! K_ISSUE_TITLE) eqn:E; [|reflexivity].
    assert (Hin : K_ISSUE_TITLE ∈ FN) by (apply Hkeys; eauto).
    apply list_elem_of_In in Hin. vm_compute in Hin.
    repeat destruct Hin as [Hin|Hin]; try discriminate; contradiction. }
  destruct Htitle as (t & Ht & Htrim).
  repeat case_decide; subst; try discriminate; try congruence.
  - rewrite Ht, Hit. simpl. rewrite Htrim. destruct t; reflexivity.
  - destruct (inputs !! K_PRI) as [v|] eqn:E; simpl; [|reflexivity].
    destruct (Hpri v eq_refl) as [Hne ->]. destruct v; [congruence|reflexivity].
  - destruct (inputs !! K_TYPE) as [v|] eqn:E; simpl; [|reflexivity].
    destruct (Htyp v eq_refl) as [Hne ->]. destruct v; [congruence|reflexivity].
  - destruct (inputs !! K_BUGSRC) as [v|] eqn:E; simpl; [|reflexivity].
    destruct (Hbug v eq_refl) as [Hne ->]. destruct v; [congruence|reflexivity].
  - destruct (inputs !! k) as [v|] eqn:E; simpl; [|reflexivity].
    assert (Hin : k ∈ FN) by (apply Hkeys; eauto).
    unfold FN in Hin. rewrite !elem_of_cons, elem_of_nil in Hin. tauto.
Qed.

Lemma inputs_round_trip_witness :
  build_from_inputs inputs_normal (u "https://x/1")
  = <[K_URL := PStr (u "https://x/1")]> (PStr <$> inputs_normal).
Proof.
  apply inputs_round_trip.
  - intros k Hk. apply elem_of_dom in Hk. revert k Hk.
    apply (set_Forall_elements (fun k => k ∈ FN) (dom inputs_normal)).
    vm_compute elements.
    repeat (apply Forall_cons; split;
            [apply list_elem_of_In; vm_compute; auto 10|]).
    apply Forall_nil_2.
  - exists (u "Login crash"). split; vm_compute; reflexivity.
  - intros v Hv. vm_compute in Hv. injection Hv as <-.
    split; [discriminate | vm_compute; reflexivity].
  - intros v Hv. vm_compute in Hv. injection Hv as <-.
    split; [discriminate | vm_compute; reflexivity].
  - intros v Hv. vm_compute in Hv. injection Hv as <-.
    split; [discriminate | vm_compute; reflexivity].
  - vm_compute. reflexivity.
Defined.

(** ** Markdown Section Extractor *)

Example parse_md_empty : parse_md [] = ∅.
Proof. reflexivity. Qed.

Example parse_md_no_heading : parse_md (u "plain text, # not a section") = ∅.
Proof. vm_compute. reflexivity. Qed.

(** A heading line that comes directly after a heading line is no section
    of its own: the line break before it is taken by the first heading, the
    look-ahead does not see it, and the line becomes body text. *)
Example parse_md_heading_after_heading :
  parse_md (lines [u "## A"; u "## B"; u "x"])
  = {[ u "A" := lines [u "## B"] ++ u "x" ]}.
Proof. vm_compute. reflexivity. Qed.

Lemma finditer_nil : finditer pat [] = [].
Proof. vm_compute. reflexivity. Qed.

Lemma parse_md_step_lookup (out : gmap str str) (m : gmap nat str) (k : str) :
  k <> [] ->
  parse_md_step out m !! k =
  if decide (py_strip (group m 2) = k) then Some (py_strip (group m 3))
  else out !! k.
Proof.
  intros Hk. unfold parse_md_step.
  destruct (py_strip (group m 2)) as [|c r] eqn:E.
  - rewrite decide_False by congruence. reflexivity.
  - case_decide; subst.
    + apply lookup_insert_eq.
    + by apply lookup_insert_ne.
Qed.

(** Matches with another heading leave the entry of [k] alone. *)
Lemma parse_md_fold_other (ms : list (gmap nat str)) (out : gmap str str)
    (k : str) :
  k <> [] ->
  Forall (fun m' => py_strip (group m' 2) <> k) ms ->
  foldl parse_md_step out ms !! k = out !! k.
Proof.
  intros Hk Hms. revert out.
  induction Hms as [|m' ms Hm' _ IH]; intros out; simpl; [reflexivity|].
  rewrite IH, parse_md_step_lookup by exact Hk.
  rewrite decide_False by exact Hm'. reflexivity.
Qed.

(** Among the matches the last one wins: if [m] is a match with a non-empty
    trimmed heading and no later match has the same trimmed heading, the
    heading is mapped to the trimmed body of [m], whatever the earlier
    matches were. *)
Lemma parse_md_last_match (md : str) (ms1 ms2 : list (gmap nat str))
    (m : gmap nat str)
    (Hms : finditer pat md = ms1 ++ m :: ms2)
    (Hk : py_strip (group m 2) <> [])
    (Hlast : Forall (fun m' => py_strip (group m' 2) <> py_strip (group m 2))
               ms2) :
  parse_md md !! py_strip (group m 2) = Some (py_strip (group m 3)).
Proof.
  destruct md as [|c r].
  { rewrite finditer_nil in Hms. by destruct ms1. }
  unfold parse_md. rewrite Hms, foldl_app. simpl.
  rewrite parse_md_fold_other, parse_md_step_lookup by assumption.
  rewrite decide_True by reflexivity. reflexivity.
Qed.

(** ** Record Locator and Upsert Executor *)

Section Upsert.
Context {W : Type} `{!Remote W}.
Variables token app_token table_id : str.

Lemma call_run (rq : request) (s : sys W) :
  call rq s = ((http (world s) rq).1,
               Sys (http (world s) rq).2 (calls s ++ [rq])).
Proof. unfold call. destruct (http (world s) rq). reflexivity. Qed.

(** A search is one GET, whatever comes of it. *)
Lemma search_record_run (iu : pyval) (s : sys W) :
  let rq := search_request token app_token table_id iu in
  search_record token app_token table_id iu s =
  ((http (world s) rq).1 ≫= search_result,
   Sys (http (world s) rq).2 (calls s ++ [rq])).
Proof.
  intros rq. unfold search_record, mbind, M_bind. fold rq. rewrite call_run.
  destruct (http (world s) rq).1; reflexivity.
Qed.

Lemma upsert_run (fields : gmap str pyval) (iu : pyval) (s : sys W) :
  fields !! K_URL = Some iu -> py_truthy iu = true ->
  upsert token app_token table_id fields s =
  match search_record token app_token table_id iu s with
  | (Ok rec_id, s1) =>
    let rq := if py_truthy rec_id
              then patch_request token app_token table_id rec_id fields
              else post_request token app_token table_id fields in
    ((http (world s1) rq).1 ≫= upsert_validate,
     Sys (http (world s1) rq).2 (calls s1 ++ [rq]))
  | (Raise e, s1) => (Raise e, s1)
  end.
Proof.
  intros Hiu Ht. unfold upsert. rewrite Hiu. simpl. rewrite Ht. simpl.
  unfold mbind at 1, M_bind at 1.
  destruct (search_record _ _ _ _ s) as [[rec_id|e] s1]; [|reflexivity].
  unfold mbind, M_bind.
  destruct (py_truthy rec_id); rewrite call_run;
    destruct (http (world s1) _).1; reflexivity.
Qed.

Lemma issued_app {A} (c : M W A) (s : sys W) (l : list request) :
  calls (c s).2 = calls s ++ l -> issued c s = l.
Proof. unfold issued. intros ->. apply drop_app_length. Qed.

(** C1: with a non-empty IssueURL in the Field Set, when the search
    returns a record identifier (a value that [if rec_id:] takes, that is
    a non-empty one) the upsert issues one PATCH, on that identifier and
    with the Field Set, and no POST; when the search returns no identifier
    ([None], or an empty value) it issues one POST with the Field Set and
    no PATCH.  Either way one write is issued, after the one search. *)
Theorem upsert_one_write (fields : gmap str pyval) (iu rec_id : pyval)
    (s s1 : sys W)
    (Hiu : fields !! K_URL = Some iu)
    (Hnonempty : py_truthy iu = true)
    (Hsearch : search_record token app_token table_id iu s
               = (Ok rec_id, s1)) :
  let new := issued (upsert token app_token table_id fields) s in
  (py_truthy rec_id = true ->
     new = [ search_request token app_token table_id iu;
             patch_request token app_token table_id rec_id fields ]
     /\ count_method PATCH new = 1%nat /\ count_method POST new = 0%nat)
  /\ (py_truthy rec_id = false ->
     new = [ search_request token app_token table_id iu;
             post_request token app_token table_id fields ]
     /\ count_method POST new = 1%nat /\ count_method PATCH new = 0%nat)
  /\ (count_method PATCH new + count_method POST new = 1)%nat.
Proof.
  intros new.
  assert (Hnew : new =
            [ search_request token app_token table_id iu;
              if py_truthy rec_id
              then patch_request token app_token table_id rec_id fields
              else post_request token app_token table_id fields ]).
  { subst new. apply issued_app.
    rewrite (upsert_run fields iu s Hiu Hnonempty), Hsearch. simpl.
    rewrite search_record_run in Hsearch. injection Hsearch as _ <-.
    simpl. rewrite <- app_assoc. reflexivity. }
  rewrite Hnew. destruct (py_truthy rec_id); repeat split; try discriminate;
    reflexivity.
Qed.

(** C2: on a Field Set without the key IssueURL the upsert raises the
    key-missing error at once: the store and the list of calls are as
    before, so no search, create or update was issued. *)
Theorem upsert_key_missing (fields : gmap str pyval) (s : sys W)
    (Hno : fields !! K_URL = None) :
  upsert token app_token table_id fields s = (Raise ValueError, s)
  /\ issued (upsert token app_token table_id fields) s = [].
Proof.
  assert (Hrun : upsert token app_token table_id fields s
                 = (Raise ValueError, s)).
  { unfold upsert. rewrite Hno. reflexivity. }
  split; [exact Hrun |]. unfold issued. rewrite Hrun. simpl.
  apply drop_all.
Qed.

Lemma upsert_search_raises (fields : gmap str pyval) (iu : pyval)
    (s s1 : sys W) (e : exn) :
  fields !! K_URL = Some iu -> py_truthy iu = true ->
  search_record token app_token table_id iu s = (Raise e, s1) ->
  upsert token app_token table_id fields s = (Raise e, s1).
Proof.
  intros Hiu Ht Hs. rewrite (upsert_run fields iu s Hiu Ht), Hs.
  reflexivity.
Qed.

(** C3, amended: for a search response that carries no status code other
    than zero, (1) when it parses to an object whose [data] is missing or
    empty, or is an object whose [items] is missing or empty, the Record
    Locator returns absent and the upsert goes on to one create; (2) when
    its body does not parse, is not an object, or has a non-empty [data]
    that is not an object, the Record Locator raises, and the upsert
    raises the same without a write. *)
Theorem locator_without_error_code (fields : gmap str pyval) (iu : pyval)
    (s : sys W) (r : response) (w' : W)
    (Hiu : fields !! K_URL = Some iu)
    (Hnonempty : py_truthy iu = true)
    (Hhttp : http (world s) (search_request token app_token table_id iu)
             = (Ok r, w'))
    (Hcode : carries_nonzero_code r = false) :
  let s1 := Sys w' (calls s ++ [search_request token app_token table_id iu]) in
  ((exists d, resp_json r = Some (PDict d)
      /\ (py_truthy (default PNone (d !! u "data")) = false
          \/ exists dd, d !! u "data" = Some (PDict dd)
               /\ py_truthy (default PNone (dd !! u "items")) = false)) ->
     search_record token app_token table_id iu s = (Ok PNone, s1)
     /\ issued (upsert token app_token table_id fields) s
        = [ search_request token app_token table_id iu;
            post_request token app_token table_id fields ])
  /\ ((resp_json r = None
       \/ (exists v, resp_json r = Some v /\ forall d, v <> PDict d)
       \/ (exists d x, resp_json r = Some (PDict d)
             /\ d !! u "data" = Some x /\ py_truthy x = true
             /\ forall dd, x <> PDict dd)) ->
      exists e,
        search_record token app_token table_id iu s = (Raise e, s1)
        /\ upsert token app_token table_id fields s = (Raise e, s1)
        /\ issued (upsert token app_token table_id fields) s
           = [ search_request token app_token table_id iu ]).
Proof.
  intros s1.
  assert (Hrun : search_record token app_token table_id iu s
                 = (search_result r, s1)).
  { rewrite search_record_run, Hhttp. reflexivity. }
  split.
  - intros (d & Hd & Hcase).
    assert (Hres : search_result r = Ok PNone).
    { unfold search_result, json_of. rewrite Hd. simpl.
      destruct Hcase as [Hf | (dd & Hdd & Hf)].
      - unfold py_or. rewrite Hf. simpl. rewrite lookup_empty. reflexivity.
      - rewrite Hdd. simpl. unfold py_or.
        destruct (py_truthy (PDict dd)); simpl.
        + rewrite Hf. reflexivity.
        + rewrite lookup_empty. reflexivity. }
    rewrite Hres in Hrun. split; [exact Hrun |].
    apply issued_app.
    rewrite (upsert_run fields iu s Hiu Hnonempty), Hrun. simpl.
    rewrite <- app_assoc. reflexivity.
  - intros Hcase.
    assert (exists e, search_result r = Raise e) as [e He].
    { unfold search_result, json_of.
      destruct Hcase
        as [Hn | [(v & Hv & Hnd) | (d & x & Hd & Hx & Ht & Hnd)]].
      - rewrite Hn. simpl. eauto.
      - rewrite Hv. simpl. destruct v; simpl; eauto.
        exfalso. eapply Hnd. reflexivity.
      - rewrite Hd. simpl. rewrite Hx. simpl. unfold py_or.
        rewrite Ht. destruct x; simpl; eauto.
        exfalso. eapply Hnd. reflexivity. }
    rewrite He in Hrun. exists e. split; [exact Hrun |].
    pose proof (upsert_search_raises fields iu s s1 e Hiu Hnonempty Hrun)
      as Hup.
    split; [exact Hup |].
    apply issued_app. rewrite Hup. reflexivity.
Qed.

End Upsert.

(** C5: the check of a write response fails exactly when the body does not
    parse, or the parsed body has no recognizable status code (it is not an
    object, or its [code] is not a number), or its status code is not zero;
    it succeeds, returning the parsed body, when the code is zero or the
    object has no code ([None] included).  Zero is what Python's [==] takes
    for it: [0], [0.0], and [False]. *)
Theorem write_validation (r : response) :
  match upsert_validate r with
  | Ok data => spec_write_ok r = true /\ resp_json r = Some data
  | Raise _ => spec_write_ok r = false
  end.
Proof.
  unfold upsert_validate, spec_write_ok.
  destruct (resp_json r) as [data|]; [|reflexivity].
  destruct data; simpl; try reflexivity.
  destruct (d !! u "code") as [c|]; simpl; [|split; reflexivity].
  destruct c as [|b|z|f| | |]; simpl; try (split; reflexivity);
    try reflexivity.
  - destruct b; simpl; [reflexivity | split; reflexivity].
  - unfold not_in_0_None. simpl.
    destruct (z =? 0)%Z; simpl; [split; reflexivity | reflexivity].
  - unfold not_in_0_None. simpl.
    destruct (is_float_zero f); simpl; [split; reflexivity | reflexivity].
Qed.

Example write_code_zero :
  upsert_validate (Response 200 (Some resp_ok)) = Ok resp_ok.
Proof. vm_compute. reflexivity. Qed.

Example write_code_absent :
  upsert_validate (Response 200 (Some (PDict ∅))) = Ok (PDict ∅).
Proof. vm_compute. reflexivity. Qed.

Example write_code_nonzero :
  upsert_validate (Response 200 (Some resp_refused)) = Raise RuntimeError.
Proof. vm_compute. reflexivity. Qed.

Example write_code_string :
  upsert_validate
    (Response 200 (Some (PDict {[ u "code" := PStr (u "0") ]})))
  = Raise RuntimeError.
Proof. vm_compute. reflexivity. Qed.

Example write_unparseable :
  upsert_validate (Response 502 None) = Raise RuntimeError.
Proof. reflexivity. Qed.

Lemma upsert_one_write_witness :
  issued (upsert (u "t") (u "app") (u "tbl") fields_x1) store_found
  = [ search_request (u "t") (u "app") (u "tbl") url_x1;
      patch_request (u "t") (u "app") (u "tbl") (PStr (u "rec1")) fields_x1 ]
  /\ issued (upsert (u "t") (u "app") (u "tbl") fields_x1) store_none
     = [ search_request (u "t") (u "app") (u "tbl") url_x1;
         post_request (u "t") (u "app") (u "tbl") fields_x1 ].
Proof.
  assert (Hiu : fields_x1 !! K_URL = Some url_x1) by (vm_compute; reflexivity).
  assert (Hfound : search_record (u "t") (u "app") (u "tbl") url_x1 store_found
                   = (Ok (PStr (u "rec1")), searched url_x1))
    by (vm_compute; reflexivity).
  assert (Hnone : search_record (u "t") (u "app") (u "tbl") url_x1 store_none
                  = (Ok PNone, searched url_x1))
    by (vm_compute; reflexivity).
  split.
  - destruct (upsert_one_write (u "t") (u "app") (u "tbl") fields_x1 url_x1
                (PStr (u "rec1")) store_found (searched url_x1)
                Hiu eq_refl Hfound) as (Hpatch & _ & _).
    exact (proj1 (Hpatch eq_refl)).
  - destruct (upsert_one_write (u "t") (u "app") (u "tbl") fields_x1 url_x1
                PNone store_none (searched url_x1)
                Hiu eq_refl Hnone) as (_ & Hpost & _).
    exact (proj1 (Hpost eq_refl)).
Defined.

Lemma upsert_key_missing_witness :
  fields_no_url !! K_URL = None
  /\ upsert (u "t") (u "app") (u "tbl") fields_no_url store_found
     = (Raise ValueError, store_found)
  /\ issued (upsert (u "t") (u "app") (u "tbl") fields_no_url) store_found
     = [].
Proof.
  assert (Hno : fields_no_url !! K_URL = None) by (vm_compute; reflexivity).
  exact (conj Hno
           (upsert_key_missing (u "t") (u "app") (u "tbl") fields_no_url
              store_found Hno)).
Defined.

(** C3 as stated fails, in both of its halves.  A search response with the
    error code 1254302 and no data is not propagated as a failure: the
    locator returns absent and the upsert goes on to create a record.  And a
    malformed response without an error code is not always "not found": a
    found record without [record_id], or a body that is not JSON, makes the
    locator raise. *)
Lemma locator_status_code_cex :
  carries_nonzero_code (Response 200 (Some resp_refused)) = true
  /\ search_record (u "t") (u "app") (u "tbl") url_x1 store_refused
     = (Ok PNone, searched url_x1)
  /\ issued (upsert (u "t") (u "app") (u "tbl") fields_x1) store_refused
     = [ search_request (u "t") (u "app") (u "tbl") url_x1;
         post_request (u "t") (u "app") (u "tbl") fields_x1 ]
  /\ carries_nonzero_code (Response 200 (Some resp_no_id)) = false
  /\ search_record (u "t") (u "app") (u "tbl") url_x1 store_no_id
     = (Raise KeyError, searched url_x1)
  /\ carries_nonzero_code (Response 200 None) = false
  /\ search_record (u "t") (u "app") (u "tbl") url_x1 store_no_json
     = (Raise JSONDecodeError, searched url_x1).
Proof. vm_compute. repeat split; reflexivity. Qed.

Lemma locator_without_error_code_witness :
  search_record (u "t") (u "app") (u "tbl") url_x1 store_none
  = (Ok PNone, searched url_x1)
  /\ issued (upsert (u "t") (u "app") (u "tbl") fields_x1) store_none
     = [ search_request (u "t") (u "app") (u "tbl") url_x1;
         post_request (u "t") (u "app") (u "tbl") fields_x1 ]
  /\ exists e,
       search_record (u "t") (u "app") (u "tbl") url_x1 store_no_json
       = (Raise e, searched url_x1)
       /\ issued (upsert (u "t") (u "app") (u "tbl") fields_x1) store_no_json
          = [ search_request (u "t") (u "app") (u "tbl") url_x1 ].
Proof.
  assert (Hiu : fields_x1 !! K_URL = Some url_x1) by (vm_compute; reflexivity).
  destruct (locator_without_error_code (u "t") (u "app") (u "tbl")
              fields_x1 url_x1 store_none (Response 200 (Some resp_none))
              [json_response resp_ok] Hiu eq_refl eq_refl eq_refl)
    as [Hnone _].
  destruct (locator_without_error_code (u "t") (u "app") (u "tbl")
              fields_x1 url_x1 store_no_json (Response 200 None)
              [json_response resp_ok] Hiu eq_refl eq_refl eq_refl)
    as [_ Hraise].
  split; [|split].
  - apply Hnone. eexists. split; [reflexivity |].
    right. eexists. split; vm_compute; reflexivity.
  - apply Hnone. eexists. split; [reflexivity |].
    right. eexists. split; vm_compute; reflexivity.
  - destruct (Hraise (or_introl eq_refl)) as (e & Hs & _ & Hi).
    exists e. split; [exact Hs | exact Hi].
Defined.

(** * Further properties of the script *)

(** ** Alias Normalizer: what the results look like *)

Lemma pri_values_trimmed :
  map_Forall (fun _ c => py_strip c = c) PRIORITY_ALIASES.
Proof.
  apply map_Forall_to_list.
  vm_compute map_to_list. repeat constructor.
Qed.

Lemma type_values_trimmed :
  map_Forall (fun _ c => py_strip c = c) TYPE_ALIASES.
Proof.
  apply map_Forall_to_list.
  vm_compute map_to_list. repeat constructor.
Qed.

Lemma norm_pri_trimmed (v r : str) : norm_pri v = Some r -> py_strip r = r.
Proof.
  destruct v as [|c v]; [discriminate|].
  rewrite norm_pri_nonempty by discriminate. intros [= <-].
  destruct (PRIORITY_ALIASES !! _) as [k|] eqn:E; simpl.
  - exact (pri_values_trimmed _ _ E).
  - apply strip_strip.
Qed.

Lemma norm_type_trimmed (v r : str) : norm_type v = Some r -> py_strip r = r.
Proof.
  destruct v as [|c v]; [discriminate|].
  rewrite norm_type_nonempty by discriminate. intros [= <-].
  destruct (TYPE_ALIASES !! _) as [k|] eqn:E; simpl.
  - exact (type_values_trimmed _ _ E).
  - apply strip_capitalize_strip.
Qed.

(** X1: what either normalizer returns has no white space at its ends,
    be it a canonical value or the pass-through of an unknown token. *)
Theorem norm_results_trimmed (v r : str)
    (Hr : norm_pri v = Some r \/ norm_type v = Some r) :
  py_strip r = r.
Proof.
  destruct Hr as [Hr|Hr];
    [exact (norm_pri_trimmed v r Hr) | exact (norm_type_trimmed v r Hr)].
Qed.

Lemma norm_results_trimmed_witness :
  norm_type (u "  needs triage ") = Some (u "Needs triage")
  /\ py_strip (u "Needs triage") = u "Needs triage".
Proof.
  assert (Hr : norm_type (u "  needs triage ") = Some (u "Needs triage"))
    by (vm_compute; reflexivity).
  exact (conj Hr (norm_results_trimmed _ _ (or_intror Hr))).
Defined.

Lemma lstrip_spaces (ws s : str) :
  forallb py_isspace ws = true -> py_lstrip (ws ++ s) = py_lstrip s.
Proof.
  induction ws as [|c ws IH]; simpl; [reflexivity|].
  intros Hws. apply andb_true_iff in Hws as [Hc Hws].
  rewrite Hc. exact (IH Hws).
Qed.

Lemma lstrip_all_spaces (ws : str) :
  forallb py_isspace ws = true -> py_lstrip ws = [].
Proof.
  intros Hws. rewrite <- (app_nil_r ws). rewrite lstrip_spaces by exact Hws.
  reflexivity.
Qed.

Lemma lstrip_app (s t : str) :
  py_lstrip s <> [] -> py_lstrip (s ++ t) = py_lstrip s ++ t.
Proof.
  induction s as [|c s IH]; simpl; [congruence|].
  destruct (py_isspace c); [exact IH | reflexivity].
Qed.

Lemma lstrip_nil_spaces (s : str) :
  py_lstrip s = [] -> forallb py_isspace s = true.
Proof.
  induction s as [|c s IH]; simpl; [reflexivity|].
  destruct (py_isspace c); [exact IH | discriminate].
Qed.

Lemma forallb_rev (p : N -> bool) (s : str) :
  forallb p (rev s) = forallb p s.
Proof.
  induction s as [|c s IH]; simpl; [reflexivity|].
  rewrite forallb_app, IH. simpl. rewrite andb_true_r. apply andb_comm.
Qed.

(** White space around a string does not reach [strip]'s result. *)
Lemma strip_pad (ws1 ws2 v : str) :
  forallb py_isspace ws1 = true -> forallb py_isspace ws2 = true ->
  py_strip (ws1 ++ v ++ ws2) = py_strip v.
Proof.
  intros H1 H2. unfold py_strip, py_rstrip.
  rewrite lstrip_spaces by exact H1. f_equal.
  destruct (py_lstrip v) as [|c r] eqn:E.
  - apply lstrip_nil_spaces in E.
    rewrite (lstrip_all_spaces (v ++ ws2)); [reflexivity|].
    rewrite forallb_app, E, H2. reflexivity.
  - rewrite lstrip_app by congruence. rewrite E, rev_app_distr.
    apply lstrip_spaces. rewrite forallb_rev. exact H2.
Qed.

(** X2: white space before and after a token does not change what the
    normalizers make of it. *)
Theorem norm_padding (ws1 ws2 v : str)
    (H1 : forallb py_isspace ws1 = true)
    (H2 : forallb py_isspace ws2 = true)
    (Hv : v <> []) :
  norm_pri (ws1 ++ v ++ ws2) = norm_pri v
  /\ norm_type (ws1 ++ v ++ ws2) = norm_type v.
Proof.
  assert (Hne : ws1 ++ v ++ ws2 <> []).
  { destruct v; [congruence|]. destruct ws1; discriminate. }
  rewrite (norm_pri_nonempty _ Hne), (norm_type_nonempty _ Hne),
    (norm_pri_nonempty _ Hv), (norm_type_nonempty _ Hv),
    (strip_pad ws1 ws2 v H1 H2).
  split; reflexivity.
Qed.

Lemma norm_padding_witness :
  norm_pri ([9; 32] ++ u "medium" ++ [12288; 10]) = norm_pri (u "medium")
  /\ norm_type ([9; 32] ++ u "medium" ++ [12288; 10]) = norm_type (u "medium").
Proof.
  apply norm_padding; [reflexivity | reflexivity |].
  vm_compute. discriminate.
Defined.

(** ** Markdown Section Extractor: what the sections look like *)

Lemma rep_loop_matches (ma : matcher) (R : mstate -> mstate -> Prop) greedy :
  (forall st k res, ma st k = Some res ->
     exists st', R st st' /\ k st' = Some res) ->
  forall fuel lo hi st k res,
    rep_loop ma greedy fuel lo hi st k = Some res ->
    exists n st', (lo <= n)%nat /\ iter n R st st' /\ k st' = Some res.
Proof.
  intros Hma fuel.
  induction fuel as [|fuel IH]; intros lo hi st k res Hres; simpl in Hres;
    [discriminate|].
  assert (Hmore : forall lo' hi' (guard : mstate -> bool),
    ma st (fun st' => if guard st'
                      then rep_loop ma greedy fuel lo' hi' st' k else None)
    = Some res ->
    exists n st', (S lo' <= n)%nat /\ iter n R st st' /\ k st' = Some res).
  { intros lo' hi' guard Hm.
    destruct (Hma _ _ _ Hm) as (st1 & Hst1 & Hk).
    destruct (guard st1); [|discriminate].
    destruct (IH _ _ _ _ _ Hk) as (n & st2 & Hn & Hit & Hk2).
    exists (S n), st2. split; [lia | split; [|exact Hk2]].
    exists st1. split; assumption. }
  assert (Hstop : k st = Some res ->
    exists n st', (0 <= n)%nat /\ iter n R st st' /\ k st' = Some res).
  { intros Hk. exists O, st. split; [lia | split; [reflexivity | exact Hk]]. }
  destruct lo as [|lo].
  - assert (Hmore0 : forall hi' (guard : mstate -> bool),
      ma st (fun st' => if guard st'
                        then rep_loop ma greedy fuel O hi' st' k else None)
      = Some res ->
      exists n st', (0 <= n)%nat /\ iter n R st st' /\ k st' = Some res).
    { intros hi' guard Hm.
      destruct (Hmore O hi' guard Hm) as (n & st' & _ & Hit & Hk).
      exists n, st'. split; [lia | split; assumption]. }
    destruct hi as [[|h]|]; [exact (Hstop Hres) | |];
      destruct greedy; apply orelse_Some in Hres as [Hres|Hres];
      first [ exact (Hstop Hres)
            | exact (Hmore0 _ (fun st' => Nat.ltb (m_pos st) (m_pos st'))
                       Hres) ].
  - exact (Hmore lo _ (fun _ => true) Hres).
Qed.

(** What the matcher returns is a match. *)
Lemma rmatch_matches r st k res :
  rmatch r st k = Some res ->
  exists st', matches r st st' /\ k st' = Some res.
Proof.
  revert st k res.
  induction r as [p| | |a IHa b IHb|a IHa b IHb|g lo hi a IHa|i a IHa|a IHa];
    intros st k res Hres; cbn [rmatch] in Hres; cbn [matches].
  - destruct (m_rest st) as [|c rest] eqn:E; [discriminate|].
    destruct (p c) eqn:Ep; [|discriminate].
    eexists. split; [|exact Hres]. exists c. simpl. auto.
  - destruct (Nat.eqb_spec (m_pos st) 0); [|discriminate].
    exists st. auto.
  - exists st. split; [|].
    + destruct (m_rest st) as [|c [|c' rest]]; [auto | | discriminate].
      destruct (N.eqb_spec c 10); [subst; auto | discriminate].
    + destruct (m_rest st) as [|c [|c' rest]]; [exact Hres | | discriminate].
      destruct (c =? 10); [exact Hres | discriminate].
  - destruct (IHa _ _ _ Hres) as (st1 & H1 & Hb).
    destruct (IHb _ _ _ Hb) as (st2 & H2 & Hk).
    exists st2. split; [exists st1; auto | exact Hk].
  - apply orelse_Some in Hres as [Hres|Hres].
    + destruct (IHa _ _ _ Hres) as (st1 & H1 & Hk). eauto.
    + destruct (IHb _ _ _ Hres) as (st1 & H1 & Hk). eauto.
  - destruct (rep_loop_matches _ _ g IHa _ _ _ _ _ _ Hres)
      as (n & st' & Hn & Hit & Hk).
    exists st'. split; [exists n; auto | exact Hk].
  - destruct (IHa _ _ _ Hres) as (st1 & H1 & Hk).
    eexists. split; [exists st1; split; [exact H1 | reflexivity] | exact Hk].
  - destruct (rmatch a st Some) as [st1|] eqn:E; [|discriminate].
    destruct (IHa _ _ _ E) as (st2 & H2 & [= ->]).
    eexists. split; [exists st1; split; [exact H2 | reflexivity] | exact Hres].
Qed.

Lemma iter_ind_prop {A} (R : A -> A -> Prop) (Q : A -> A -> Prop) :
  (forall x, Q x x) ->
  (forall x y z, R x y -> Q y z -> Q x z) ->
  forall n x z, iter n R x z -> Q x z.
Proof.
  intros Hrefl Hstep n. induction n as [|n IH]; intros x z; simpl.
  - intros ->. apply Hrefl.
  - intros (y & Hxy & Hyz). eapply Hstep; eauto.
Qed.

(** A match consumes a stretch of the subject. *)
Lemma matches_suffix r st st' :
  matches r st st' -> exists l, m_rest st = l ++ m_rest st'.
Proof.
  revert st st'.
  induction r as [p| | |a IHa b IHb|a IHa b IHb|g lo hi a IHa|i a IHa|a IHa];
    intros st st'; cbn [matches].
  - intros (c & Hc & _). exists [c]. exact Hc.
  - intros [_ ->]. exists []. reflexivity.
  - intros [_ ->]. exists []. reflexivity.
  - intros (mid & Ha & Hb).
    destruct (IHa _ _ Ha) as [l1 H1]. destruct (IHb _ _ Hb) as [l2 H2].
    exists (l1 ++ l2). rewrite H1, H2. apply app_assoc.
  - intros [H|H]; eauto.
  - intros (n & _ & Hit). revert Hit.
    apply (iter_ind_prop (matches a)
             (fun x z => exists l, m_rest x = l ++ m_rest z)).
    + intros x. exists []. reflexivity.
    + intros x y z Hxy [l2 H2]. destruct (IHa _ _ Hxy) as [l1 H1].
      exists (l1 ++ l2). rewrite H1, H2. apply app_assoc.
  - intros (st1 & Ha & ->). simpl. eauto.
  - intros (st1 & Ha & ->). simpl. exists []. reflexivity.
Qed.

Lemma matches_no_groups r st st' :
  no_groups r = true -> matches r st st' -> m_caps st' = m_caps st.
Proof.
  revert st st'.
  induction r as [p| | |a IHa b IHb|a IHa b IHb|g lo hi a IHa|i a IHa|a IHa];
    intros st st' Hng; cbn [matches]; simpl in Hng.
  - intros (c & _ & _ & _ & Hc). exact Hc.
  - intros [_ ->]. reflexivity.
  - intros [_ ->]. reflexivity.
  - apply andb_true_iff in Hng as [Ha Hb]. intros (mid & H1 & H2).
    rewrite (IHb _ _ Hb H2). exact (IHa _ _ Ha H1).
  - apply andb_true_iff in Hng as [Ha Hb]. intros [H|H]; eauto.
  - intros (n & _ & Hit). revert Hit.
    apply (iter_ind_prop (matches a) (fun x z => m_caps z = m_caps x)).
    + reflexivity.
    + intros x y z Hxy Hyz. rewrite Hyz. exact (IHa _ _ Hng Hxy).
  - discriminate.
  - intros (st1 & Ha & ->). simpl. exact (IHa _ _ Hng Ha).
Qed.

(** A repetition of a character class consumes characters of the class, as
    many as it has iterations. *)
Lemma iter_chr (p : N -> bool) n st st' :
  iter n (matches (Chr p)) st st' ->
  exists l, m_rest st = l ++ m_rest st' /\ length l = n
            /\ Forall (fun c => p c = true) l
            /\ m_pos st' = (m_pos st + n)%nat.
Proof.
  revert st. induction n as [|n IH]; intros st; simpl.
  - intros ->. exists []. repeat split; [constructor | lia].
  - intros (y & (c & Hc & Hp & Hpos & _) & Hit).
    destruct (IH _ Hit) as (l & Hl & Hlen & Hall & Hpos').
    exists (c :: l). rewrite Hc, Hl. simpl.
    repeat split; [lia | constructor; assumption | lia].
Qed.

(** A match of [pat]: two hash signs are in what it consumes, and group 2
    holds a non-empty heading without hash sign and line break. *)
Lemma matches_Seq a b st st' :
  matches (Seq a b) st st' ->
  exists mid, matches a st mid /\ matches b mid st'.
Proof. exact (fun H => H). Qed.

Lemma matches_Grp i a st st' :
  matches (Grp i a) st st' ->
  exists st1, matches a st st1
    /\ m_caps st' = <[i := take (m_pos st1 - m_pos st) (m_rest st)]>
                      (m_caps st1)
    /\ m_rest st' = m_rest st1.
Proof. intros (st1 & H1 & ->). exists st1. auto. Qed.

Lemma matches_Rep_Chr g lo hi p st st' :
  matches (Rep g lo hi (Chr p)) st st' ->
  exists l, m_rest st = l ++ m_rest st' /\ (lo <= length l)%nat
            /\ Forall (fun c => p c = true) l
            /\ m_pos st' = (m_pos st + length l)%nat.
Proof.
  intros (n & Hn & Hit).
  destruct (iter_chr _ _ _ _ Hit) as (l & Hl & Hlen & Hall & Hpos).
  exists l. subst n. auto.
Qed.

Lemma pat_match st0 st' :
  matches pat st0 st' ->
  (exists a b, m_rest st0 = a ++ 35 :: 35 :: b)
  /\ exists h, m_caps st' !! 2%nat = Some h /\ h <> []
       /\ Forall (fun c => c_heading c = true) h.
Proof.
  unfold pat. intros H.
  apply matches_Seq in H as (s7 & H & HLA).
  apply matches_Seq in H as (s6 & H & HG3).
  apply matches_Seq in H as (s5 & H & HNL).
  apply matches_Seq in H as (s4 & H & HWS2).
  apply matches_Seq in H as (s3 & H & HG2).
  apply matches_Seq in H as (s2 & H & HWS).
  apply matches_Seq in H as (s1 & HG1 & HH).
  split.
  - destruct (matches_suffix _ _ _ HG1) as [l0 Hl0].
    apply matches_Rep_Chr in HH as (lh & Hlh & Hlen & Hall & _).
    destruct lh as [|c1 [|c2 lh]]; simpl in Hlen; try lia.
    inversion Hall as [|? ? Hc1 Hall']; subst.
    inversion Hall' as [|? ? Hc2 _]; subst.
    apply N.eqb_eq in Hc1, Hc2. subst.
    exists l0, (lh ++ m_rest s2). rewrite Hl0, Hlh. reflexivity.
  - apply matches_Grp in HG2 as (t & Ht & Hcaps4 & _).
    pose proof Ht as Hcapst; apply matches_no_groups in Hcapst; [|reflexivity].
    apply matches_Rep_Chr in Ht as (h & Hh & Hlen & Hall & Hpos).
    pose proof HWS2 as H5; apply matches_no_groups in H5; [|reflexivity].
    pose proof HNL as H6; apply matches_no_groups in H6; [|reflexivity].
    apply matches_Grp in HG3 as (t3 & Ht3 & Hcaps7 & _).
    pose proof Ht3 as H7; apply matches_no_groups in H7; [|reflexivity].
    pose proof HLA as H8; apply matches_no_groups in H8; [|reflexivity].
    exists h.
    rewrite H8, Hcaps7, lookup_insert_ne by discriminate.
    rewrite H7, H6, H5, Hcaps4, lookup_insert_eq.
    replace (m_pos t - m_pos s3)%nat with (length h) by lia.
    rewrite Hh, take_app_length.
    repeat split; [|exact Hall].
    destruct h; [simpl in Hlen; lia | discriminate].
Qed.

Lemma re_search_matches r pos rest start st' :
  re_search r pos rest = Some (start, st') ->
  exists st0, matches r st0 st' /\ exists pre, rest = pre ++ m_rest st0.
Proof.
  revert pos. induction rest as [|c rest IH]; intros pos; simpl.
  - destruct (rmatch r _ Some) as [st1|] eqn:E; [|discriminate].
    intros [= <- <-].
    destruct (rmatch_matches _ _ _ _ E) as (st2 & Hm & [= ->]).
    eexists. split; [exact Hm |]. exists []. reflexivity.
  - destruct (rmatch r _ Some) as [st1|] eqn:E.
    + intros [= <- <-].
      destruct (rmatch_matches _ _ _ _ E) as (st2 & Hm & [= ->]).
      eexists. split; [exact Hm |]. exists []. reflexivity.
    + intros Hs. destruct (IH _ Hs) as (st0 & Hm & pre & Hpre).
      exists st0. split; [exact Hm |]. exists (c :: pre). rewrite Hpre.
      reflexivity.
Qed.

(** Every element of [finditer]'s result is the groups of a match somewhere
    in the subject. *)
Lemma finditer_from_matches fuel r pos rest (m : gmap nat str) :
  m ∈ finditer_from fuel r pos rest ->
  exists st0 st', matches r st0 st' /\ m = m_caps st'
    /\ exists pre, rest = pre ++ m_rest st0.
Proof.
  revert pos rest.
  induction fuel as [|fuel IH]; intros pos rest; simpl.
  { intros Hm. by apply elem_of_nil in Hm. }
  destruct (re_search r pos rest) as [[start st']|] eqn:E.
  2: { intros Hm. by apply elem_of_nil in Hm. }
  destruct (re_search_matches _ _ _ _ _ E) as (st0 & Hm0 & pre & Hpre).
  destruct (matches_suffix _ _ _ Hm0) as [l Hl].
  intros [->|Hm]%elem_of_cons.
  - exists st0, st'. split; [exact Hm0 | split; [reflexivity | eauto]].
  - assert (Hrec : forall pos' rest' pre',
              m_rest st' = pre' ++ rest' ->
              m ∈ finditer_from fuel r pos' rest' ->
              exists st1 st2, matches r st1 st2 /\ m = m_caps st2
                /\ exists pre2, rest = pre2 ++ m_rest st1).
    { intros pos' rest' pre' Hrest Hin.
      destruct (IH _ _ Hin) as (st1 & st2 & H12 & Hcaps & pre2 & Hpre2).
      exists st1, st2. split; [exact H12 | split; [exact Hcaps |]].
      exists (pre ++ l ++ pre' ++ pre2).
      rewrite Hpre, Hl, Hrest, Hpre2, <- !app_assoc. reflexivity. }
    destruct (Nat.ltb start (m_pos st')).
    + exact (Hrec _ _ [] eq_refl Hm).
    + destruct (m_rest st') as [|c rest'] eqn:Er.
      * by apply elem_of_nil in Hm.
      * exact (Hrec _ _ [c] eq_refl Hm).
Qed.

Lemma Forall_lstrip (Q : N -> Prop) s : Forall Q s -> Forall Q (py_lstrip s).
Proof.
  destruct (lstrip_suffix s) as [ws Hws]. intros H. rewrite Hws in H.
  apply Forall_app in H. tauto.
Qed.

Lemma Forall_strip (Q : N -> Prop) s : Forall Q s -> Forall Q (py_strip s).
Proof.
  intros H. unfold py_strip, py_rstrip.
  apply Forall_rev, Forall_lstrip, Forall_rev, Forall_lstrip, H.
Qed.

Lemma parse_md_fold_entries (Q : str -> str -> Prop)
    (ms : list (gmap nat str)) (out : gmap str str) :
  (forall m, m ∈ ms -> py_strip (group m 2) <> [] ->
     Q (py_strip (group m 2)) (py_strip (group m 3))) ->
  map_Forall Q out ->
  map_Forall Q (foldl parse_md_step out ms).
Proof.
  revert out. induction ms as [|m ms IH]; intros out Hms Hout; simpl;
    [exact Hout|].
  apply IH.
  - intros m' Hm'. apply Hms. by right.
  - unfold parse_md_step.
    destruct (py_strip (group m 2)) as [|c k] eqn:E; [exact Hout|].
    apply map_Forall_insert_2; [|exact Hout].
    rewrite <- E. apply Hms; [by left | congruence].
Qed.

(** X3: every section [parse_md] returns has a non-empty title without
    white space at its ends, without hash sign and without line break, and
    a body without white space at its ends. *)
Theorem parse_md_entries (md k v : str)
    (Hkv : parse_md md !! k = Some v) :
  k <> [] /\ py_strip k = k /\ py_strip v = v
  /\ Forall (fun c => c <> 10 /\ c <> 35) k.
Proof.
  revert k v Hkv.
  change (map_Forall (fun k v => k <> [] /\ py_strip k = k /\ py_strip v = v
                        /\ Forall (fun c => c <> 10 /\ c <> 35) k)
            (parse_md md)).
  unfold parse_md. destruct md as [|c0 md]; [apply map_Forall_empty|].
  apply parse_md_fold_entries; [|apply map_Forall_empty].
  intros m Hm Hne. repeat split; [exact Hne | apply strip_strip ..|].
  apply finditer_from_matches in Hm as (st0 & st' & Hmatch & -> & _).
  destruct (pat_match _ _ Hmatch) as (_ & h & Hh & _ & Hall).
  unfold group. rewrite Hh. simpl. apply Forall_strip.
  eapply Forall_impl; [exact Hall|]. intros c Hc. unfold c_heading in Hc.
  apply andb_true_iff in Hc as [H10 H35].
  apply negb_true_iff in H10, H35. apply N.eqb_neq in H10, H35. auto.
Qed.

Lemma parse_md_entries_witness :
  parse_md doc_twice !! u "A" = Some (u "two")
  /\ py_strip (u "A") = u "A" /\ py_strip (u "two") = u "two".
Proof.
  assert (Hkv : parse_md doc_twice !! u "A" = Some (u "two"))
    by (vm_compute; reflexivity).
  destruct (parse_md_entries _ _ _ Hkv) as (_ & Hk & Hv & _).
  exact (conj Hkv (conj Hk Hv)).
Defined.

(** X4: a text in which no two hash signs follow each other has no
    section: lines with one hash sign are no headings for [parse_md]. *)
Theorem parse_md_needs_two_hashes (md : str)
    (Hmd : forall a b, md <> a ++ 35 :: 35 :: b) :
  parse_md md = ∅.
Proof.
  unfold parse_md. destruct md as [|c0 md]; [reflexivity|].
  destruct (finditer pat (c0 :: md)) as [|m ms] eqn:E; [reflexivity|].
  exfalso.
  assert (Hm : m ∈ finditer pat (c0 :: md)) by (rewrite E; by left).
  apply finditer_from_matches in Hm as (st0 & st' & Hmatch & _ & pre & Hpre).
  destruct (pat_match _ _ Hmatch) as ((a & b & Hab) & _).
  apply (Hmd (pre ++ a) b). rewrite Hpre, Hab, <- app_assoc. reflexivity.
Qed.

Lemma parse_md_needs_two_hashes_witness :
  parse_md (lines [u "# Title"; u "text"]) = ∅.
Proof.
  apply parse_md_needs_two_hashes. intros a b H. vm_compute in H.
  do 13 (destruct a as [|? a]; [discriminate H | injection H as _ H]).
  destruct a; discriminate H.
Defined.

(** ** Field Builder: errors, values, and how the two modes agree *)

Lemma py_or_PDict (i : gmap str pyval) : py_or (PDict i) (PDict ∅) = PDict i.
Proof.
  unfold py_or. simpl. destruct (Nat.eqb_spec (size i) 0); simpl;
    [|reflexivity].
  f_equal. symmetry. by apply map_size_empty_inv.
Qed.

Lemma py_or_PStr (s : str) : py_or (PStr s) (PStr []) = PStr s.
Proof. destruct s; reflexivity. Qed.

Lemma py_get_not_dict v k :
  dict_or_falsy v = false ->
  py_get (py_or v (PDict ∅)) k = Raise AttributeError.
Proof.
  unfold py_or, dict_or_falsy.
  destruct v; simpl; intros Hv; try discriminate;
    apply negb_false_iff in Hv; rewrite Hv; reflexivity.
Qed.

Lemma parse_md_any_not_str v :
  str_or_falsy v = false ->
  parse_md_any (py_or v (PStr [])) = Raise TypeError.
Proof.
  unfold parse_md_any, py_or, str_or_falsy.
  destruct v; simpl; intros Hv; try discriminate;
    apply negb_false_iff in Hv; simpl in Hv; rewrite ?Hv; simpl;
    rewrite ?Hv; reflexivity.
Qed.

(** The Field Set of an event whose [issue] is the dict [i] and whose body
    parses to [md]. *)
Lemma build_from_issue_dict evt d i md :
  py_or evt (PDict ∅) = PDict d ->
  py_or (default PNone (d !! u "issue")) (PDict ∅) = PDict i ->
  parse_md_any (py_or (default PNone (i !! u "body")) (PStr [])) = Ok md ->
  build_from_issue evt =
  Ok (assemble
        match py_strip (default [] (md !! K_TITLE)) with
        | [] => py_or (default PNone (i !! u "title")) (PStr [])
        | t => PStr t
        end
        (if py_truthy (default PNone (i !! u "html_url"))
         then i !! u "html_url" else None)
        (norm_pri (default [] (md !! K_PRI)))
        (norm_type (default [] (md !! K_TYPE)))
        (py_strip (default [] (md !! K_BUGSRC)))).
Proof.
  intros Hd Hi Hmd. unfold build_from_issue.
  rewrite Hd. simpl. rewrite Hi. simpl. rewrite Hmd. simpl.
  destruct (py_strip (default [] (md !! K_TITLE))); simpl;
    destruct (py_truthy (default PNone (i !! u "html_url"))) eqn:Eh; simpl;
    try reflexivity;
    destruct (i !! u "html_url") eqn:Ek; simpl in *;
    try discriminate; reflexivity.
Qed.

Lemma build_raises_evt evt :
  dict_or_falsy evt = false -> build_from_issue evt = Raise AttributeError.
Proof.
  intros Hv. unfold build_from_issue.
  rewrite (py_get_not_dict _ (u "issue") Hv). reflexivity.
Qed.

Lemma build_raises_issue evt d :
  py_or evt (PDict ∅) = PDict d ->
  dict_or_falsy (default PNone (d !! u "issue")) = false ->
  build_from_issue evt = Raise AttributeError.
Proof.
  intros Hd Hv. unfold build_from_issue. rewrite Hd. simpl.
  rewrite (py_get_not_dict _ (u "body") Hv). reflexivity.
Qed.

Lemma build_raises_body evt d i :
  py_or evt (PDict ∅) = PDict d ->
  py_or (default PNone (d !! u "issue")) (PDict ∅) = PDict i ->
  str_or_falsy (default PNone (i !! u "body")) = false ->
  build_from_issue evt = Raise TypeError.
Proof.
  intros Hd Hi Hv. unfold build_from_issue. rewrite Hd. simpl.
  rewrite Hi. simpl. rewrite (parse_md_any_not_str _ Hv). reflexivity.
Qed.

(** How a run of From-event mode went: one of the three type errors, or a
    Field Set assembled from the issue [i] and the sections [md]. *)
Lemma build_from_issue_cases evt :
  (dict_or_falsy evt = false
   /\ build_from_issue evt = Raise AttributeError)
  \/ (exists d, py_or evt (PDict ∅) = PDict d
        /\ dict_or_falsy (default PNone (d !! u "issue")) = false
        /\ build_from_issue evt = Raise AttributeError)
  \/ (exists d i, py_or evt (PDict ∅) = PDict d
        /\ py_or (default PNone (d !! u "issue")) (PDict ∅) = PDict i
        /\ str_or_falsy (default PNone (i !! u "body")) = false
        /\ build_from_issue evt = Raise TypeError)
  \/ (exists d i md, py_or evt (PDict ∅) = PDict d
        /\ py_or (default PNone (d !! u "issue")) (PDict ∅) = PDict i
        /\ parse_md_any (py_or (default PNone (i !! u "body")) (PStr []))
           = Ok md
        /\ build_from_issue evt =
           Ok (assemble
                 match py_strip (default [] (md !! K_TITLE)) with
                 | [] => py_or (default PNone (i !! u "title")) (PStr [])
                 | t => PStr t
                 end
                 (if py_truthy (default PNone (i !! u "html_url"))
                  then i !! u "html_url" else None)
                 (norm_pri (default [] (md !! K_PRI)))
                 (norm_type (default [] (md !! K_TYPE)))
                 (py_strip (default [] (md !! K_BUGSRC))))).
Proof.
  destruct (dict_or_falsy evt) eqn:E1.
  2: { left. split; [reflexivity | by apply build_raises_evt]. }
  destruct (py_or_dict _ E1) as [d Hd].
  destruct (dict_or_falsy (default PNone (d !! u "issue"))) eqn:E2.
  2: { right. left. exists d. eauto using build_raises_issue. }
  destruct (py_or_dict _ E2) as [i Hi].
  destruct (str_or_falsy (default PNone (i !! u "body"))) eqn:E3.
  2: { right. right. left. exists d, i. eauto using build_raises_body. }
  destruct (parse_md_any_ok _ E3) as [md Hmd].
  right. right. right. exists d, i, md.
  eauto using build_from_issue_dict.
Qed.

(** X5: From-event mode fails in three ways only, each a value of the wrong
    type: an event, or the event's [issue], that is neither empty nor an
    object raises AttributeError, and a body that is neither empty nor a
    string raises TypeError.  A missing title, body or [html_url] is no
    error. *)
Theorem build_from_issue_errors (evt : pyval) (e : exn) :
  build_from_issue evt = Raise e <->
  (e = AttributeError /\ dict_or_falsy evt = false)
  \/ (e = AttributeError /\ exists d,
        py_or evt (PDict ∅) = PDict d
        /\ dict_or_falsy (default PNone (d !! u "issue")) = false)
  \/ (e = TypeError /\ exists d i,
        py_or evt (PDict ∅) = PDict d
        /\ py_or (default PNone (d !! u "issue")) (PDict ∅) = PDict i
        /\ str_or_falsy (default PNone (i !! u "body")) = false).
Proof.
  split.
  - intros Hr.
    destruct (build_from_issue_cases evt)
      as [[H1 Hb] | [(d & Hd & H2 & Hb) | [(d & i & Hd & Hi & H3 & Hb)
                                         | (d & i & md & _ & _ & _ & Hb)]]];
      rewrite Hb in Hr; try discriminate; injection Hr as <-; eauto 8.
  - intros [[-> H1] | [[-> (d & Hd & H2)] | [-> (d & i & Hd & Hi & H3)]]];
      eauto using build_raises_evt, build_raises_issue, build_raises_body.
Qed.

Lemma issue_event_or (body title url : str) :
  py_or (issue_event body title url) (PDict ∅) = issue_event body title url.
Proof. apply py_or_PDict. Qed.

(** X6: the two modes agree.  An event whose issue has the body [body], the
    title [title] and the URL [url] gives the Field Set that From-inputs
    mode gives for the sections of [body], with [title] as Issue标题 and
    [url] as the URL, when [title] and [url] have no white space at their
    ends and [url] is not empty. *)
Theorem modes_agree (body title url : str)
    (Hurl : url <> [])
    (Hurl_trim : py_strip url = url)
    (Htitle_trim : py_strip title = title) :
  build_from_issue (issue_event body title url)
  = Ok (build_from_inputs (<[K_ISSUE_TITLE := title]> (parse_md body)) url).
Proof.
  set (i := (list_to_map [ (u "body", PStr body); (u "title", PStr title);
                           (u "html_url", PStr url) ] : gmap str pyval)).
  assert (Hb : i !! u "body" = Some (PStr body)) by apply lookup_insert_eq.
  assert (Ht : i !! u "title" = Some (PStr title)).
  { unfold i. simpl. rewrite lookup_insert_ne by (vm_compute; discriminate).
    apply lookup_insert_eq. }
  assert (Hh : i !! u "html_url" = Some (PStr url)).
  { unfold i. simpl.
    rewrite !lookup_insert_ne by (vm_compute; discriminate).
    apply lookup_insert_eq. }
  assert (Hmd : parse_md_any (py_or (default PNone (i !! u "body")) (PStr []))
                = Ok (parse_md body)).
  { rewrite Hb. simpl. rewrite py_or_PStr. destruct body; reflexivity. }
  rewrite (build_from_issue_dict _ {[ u "issue" := PDict i ]} i (parse_md body)).
  - rewrite build_from_inputs_assemble.
    rewrite (lookup_insert_ne (parse_md body) K_ISSUE_TITLE K_TITLE),
      (lookup_insert_ne (parse_md body) K_ISSUE_TITLE K_PRI),
      (lookup_insert_ne (parse_md body) K_ISSUE_TITLE K_TYPE),
      (lookup_insert_ne (parse_md body) K_ISSUE_TITLE K_BUGSRC)
      by (vm_compute; discriminate).
    rewrite lookup_insert_eq, Ht, Hh. simpl.
    rewrite py_or_PStr, Htitle_trim, Hurl_trim.
    destruct (py_strip (default [] (parse_md body !! K_TITLE)));
      destruct url; try congruence; reflexivity.
  - apply issue_event_or.
  - rewrite lookup_singleton_eq. apply py_or_PDict.
  - exact Hmd.
Qed.

Lemma modes_agree_witness :
  build_from_issue evt_login
  = Ok (build_from_inputs
          (<[K_ISSUE_TITLE := u "Fallback Title"]>
             (parse_md (lines [u "## 标题"; u "Login crash"; u "## 优先级";
                               u "P1"; u "## 需求类型"; u "bug"])))
          (u "https://x/1")).
Proof.
  apply modes_agree; vm_compute; [discriminate | reflexivity | reflexivity].
Defined.

Lemma assemble_values title url pri typ bug (k : str) (v : pyval) :
  (forall r, pri = Some r -> py_strip r = r) ->
  (forall r, typ = Some r -> py_strip r = r) ->
  py_strip bug = bug ->
  k ∈ [K_PRI; K_TYPE; K_BUGSRC] ->
  assemble title url pri typ bug !! k = Some v ->
  exists s, v = PStr s /\ s <> [] /\ py_strip s = s.
Proof.
  intros Hpri Htyp Hbug Hk. rewrite assemble_lookup.
  assert (Hopt : forall x, (forall r, x = Some r -> py_strip r = r) ->
            opt_nonempty x = Some v ->
            exists s, v = PStr s /\ s <> [] /\ py_strip s = s).
  { intros [[|c r]|] Hx; simpl; try discriminate. intros [= <-].
    exists (c :: r). split; [reflexivity | split; [discriminate | auto]]. }
  repeat (apply elem_of_cons in Hk as [-> | Hk]);
    [.. | by apply elem_of_nil in Hk];
    repeat case_decide; try discriminate; intros Hv;
    first [ exact (Hopt _ Hpri Hv) | exact (Hopt _ Htyp Hv)
          | apply (Hopt (Some bug));
            [intros r [= <-]; exact Hbug | exact Hv] ].
Qed.

(** X7: in a Field Set of either mode the values of 优先级, 需求类型 and
    bug来源（可选） are non-empty strings without white space at their
    ends; in From-inputs mode every value is a string without white space
    at its ends. *)
Theorem field_values_trimmed (evt : pyval) (fs : gmap str pyval)
    (inputs : gmap str str) (url : str)
    (Hfs : build_from_issue evt = Ok fs) :
  (forall k v, k ∈ [K_PRI; K_TYPE; K_BUGSRC] ->
     (fs !! k = Some v \/ build_from_inputs inputs url !! k = Some v) ->
     exists s, v = PStr s /\ s <> [] /\ py_strip s = s)
  /\ (forall k v, build_from_inputs inputs url !! k = Some v ->
        exists s, v = PStr s /\ py_strip s = s).
Proof.
  split.
  - intros k v Hk [Hv|Hv].
    + destruct (build_from_issue_cases evt)
        as [[_ Hb] | [(d & _ & _ & Hb) | [(d & i & _ & _ & _ & Hb)
                                         | (d & i & md & _ & _ & _ & Hb)]]];
        rewrite Hb in Hfs; try discriminate. injection Hfs as <-.
      eapply assemble_values; [| | | exact Hk | exact Hv];
        [intros r; apply norm_pri_trimmed
        |intros r; apply norm_type_trimmed | apply strip_strip].
    + rewrite build_from_inputs_assemble in Hv.
      eapply assemble_values; [| | | exact Hk | exact Hv];
        [intros r; apply norm_pri_trimmed
        |intros r; apply norm_type_trimmed | apply strip_strip].
  - intros k v Hv.
    assert (Hkeys : k ∈ FN).
    { rewrite build_from_inputs_assemble in Hv.
      eapply assemble_keys. rewrite Hv. eauto. }
    unfold FN in Hkeys. rewrite !elem_of_cons, elem_of_nil in Hkeys.
    destruct Hkeys as [-> | [-> | Hk]].
    + rewrite build_from_inputs_assemble, assemble_lookup in Hv.
      rewrite decide_True in Hv by reflexivity. injection Hv as <-.
      eexists. split; [reflexivity|].
      destruct (py_strip (default [] (inputs !! K_TITLE))) eqn:E;
        [apply strip_strip | rewrite <- E; apply strip_strip].
    + rewrite build_from_inputs_assemble, assemble_lookup in Hv.
      rewrite decide_False, decide_True in Hv by done. injection Hv as <-.
      eexists. split; [reflexivity | apply strip_strip].
    + rewrite build_from_inputs_assemble in Hv.
      assert (Hk' : k ∈ [K_PRI; K_TYPE; K_BUGSRC]).
      { rewrite !elem_of_cons, elem_of_nil. tauto. }
      destruct (assemble_values _ _ _ _ _ k v
                  (fun r => norm_pri_trimmed _ r)
                  (fun r => norm_type_trimmed _ r)
                  (strip_strip _) Hk' Hv) as (s & -> & _ & Hs).
      eauto.
Qed.

Lemma field_values_trimmed_witness :
  build_from_issue evt_login = Ok fields_login
  /\ exists s, PStr (u "BUG") = PStr s /\ s <> [] /\ py_strip s = s.
Proof.
  assert (Hfs : build_from_issue evt_login = Ok fields_login)
    by (vm_compute; reflexivity).
  split; [exact Hfs |].
  destruct (field_values_trimmed evt_login fields_login ∅ [] Hfs)
    as [Hthree _].
  apply (Hthree K_TYPE).
  - apply list_elem_of_further, list_elem_of_here.
  - left. vm_compute. reflexivity.
Defined.

(** X8: From-event mode puts the issue's [html_url] into the Field Set as
    it is, whatever its type, when it is not empty; when the issue has no
    [html_url], or an empty one, the Field Set has no IssueURL, and an
    upsert of it raises the key-missing error with no remote call. *)
Theorem event_url_passthrough (evt : pyval) (d i : gmap str pyval)
    (fs : gmap str pyval)
    (Hd : py_or evt (PDict ∅) = PDict d)
    (Hi : py_or (default PNone (d !! u "issue")) (PDict ∅) = PDict i)
    (Hfs : build_from_issue evt = Ok fs) :
  (py_truthy (default PNone (i !! u "html_url")) = true ->
     fs !! K_URL = i !! u "html_url")
  /\ (py_truthy (default PNone (i !! u "html_url")) = false ->
      fs !! K_URL = None
      /\ forall W (R : Remote W) token app_token table_id (s : sys W),
           upsert token app_token table_id fs s = (Raise ValueError, s)).
Proof.
  destruct (build_from_issue_cases evt)
    as [[_ Hb] | [(d' & _ & _ & Hb) | [(d' & i' & _ & _ & _ & Hb)
                                     | (d' & i' & md & Hd' & Hi' & _ & Hb)]]];
    rewrite Hb in Hfs; try discriminate. injection Hfs as <-.
  rewrite Hd in Hd'. injection Hd' as <-.
  rewrite Hi in Hi'. injection Hi' as <-.
  rewrite assemble_lookup, decide_False, decide_True by done.
  split; intros Ht; rewrite Ht; [reflexivity|].
  split; [reflexivity|].
  intros W R token app_token table_id s. unfold upsert.
  rewrite assemble_lookup, decide_False, decide_True by done.
  reflexivity.
Qed.

Lemma event_url_passthrough_witness :
  build_from_issue evt_no_url = Ok {[ K_TITLE := PStr (u "T") ]}
  /\ upsert (u "t") (u "app") (u "tbl") {[ K_TITLE := PStr (u "T") ]}
       store_found
     = (Raise ValueError, store_found).
Proof.
  assert (Hfs : build_from_issue evt_no_url = Ok {[ K_TITLE := PStr (u "T") ]})
    by (vm_compute; reflexivity).
  split; [exact Hfs |].
  destruct (event_url_passthrough evt_no_url
              {[ u "issue" := PDict {[ u "title" := PStr (u "T") ]} ]}
              {[ u "title" := PStr (u "T") ]} _
              eq_refl eq_refl Hfs) as [_ Hnone].
  destruct (Hnone eq_refl) as [_ Hup]. apply Hup.
Defined.

(** ** Record Locator and Upsert Executor: every run *)

Section UpsertRuns.
Context {W : Type} `{!Remote W}.
Variables token app_token table_id : str.

(** X9: when the search response lists records, the Record Locator
    returns the [record_id] of the first one and looks at no other; if that
    identifier is not empty, the upsert then patches that record with the
    Field Set. *)
Theorem search_first_record (fields : gmap str pyval) (iu rec_id : pyval)
    (s : sys W) (r : response) (w' : W)
    (d dd first : gmap str pyval) (others : list pyval)
    (Hiu : fields !! K_URL = Some iu)
    (Hnonempty : py_truthy iu = true)
    (Hhttp : http (world s) (search_request token app_token table_id iu)
             = (Ok r, w'))
    (Hjson : resp_json r = Some (PDict d))
    (Hdata : d !! u "data" = Some (PDict dd))
    (Hitems : dd !! u "items" = Some (PList (PDict first :: others)))
    (Hid : first !! u "record_id" = Some rec_id) :
  let s1 := Sys w' (calls s ++ [search_request token app_token table_id iu]) in
  search_record token app_token table_id iu s = (Ok rec_id, s1)
  /\ (py_truthy rec_id = true ->
      issued (upsert token app_token table_id fields) s
      = [ search_request token app_token table_id iu;
          patch_request token app_token table_id rec_id fields ]).
Proof.
  intros s1.
  assert (Hres : search_result r = Ok rec_id).
  { unfold search_result, json_of. rewrite Hjson. simpl. rewrite Hdata.
    change (default PNone (Some (PDict dd))) with (PDict dd).
    rewrite py_or_PDict. simpl. rewrite Hitems. simpl. rewrite Hid.
    reflexivity. }
  assert (Hrun : search_record token app_token table_id iu s = (Ok rec_id, s1)).
  { rewrite search_record_run, Hhttp. simpl. rewrite Hres. reflexivity. }
  split; [exact Hrun |]. intros Hrid.
  apply issued_app.
  rewrite (upsert_run token app_token table_id fields iu s Hiu Hnonempty),
    Hrun, Hrid.
  simpl. rewrite <- app_assoc. reflexivity.
Qed.

(** The calls of a run of [upsert], in every case. *)
Lemma upsert_issued (fields : gmap str pyval) (s : sys W) :
  (py_truthy (default PNone (fields !! K_URL)) = false
   /\ upsert token app_token table_id fields s = (Raise ValueError, s)
   /\ issued (upsert token app_token table_id fields) s = [])
  \/ exists iu, fields !! K_URL = Some iu /\ py_truthy iu = true
     /\ ((exists e s1,
            search_record token app_token table_id iu s = (Raise e, s1)
            /\ upsert token app_token table_id fields s = (Raise e, s1)
            /\ issued (upsert token app_token table_id fields) s
               = [search_request token app_token table_id iu])
         \/ (exists rec_id s1,
               search_record token app_token table_id iu s = (Ok rec_id, s1)
               /\ let rq := if py_truthy rec_id
                      then patch_request token app_token table_id rec_id fields
                      else post_request token app_token table_id fields in
                  upsert token app_token table_id fields s
                  = ((http (world s1) rq).1 ≫= upsert_validate,
                     Sys (http (world s1) rq).2 (calls s1 ++ [rq]))
                  /\ issued (upsert token app_token table_id fields) s
                     = [search_request token app_token table_id iu; rq])).
Proof.
  destruct (py_truthy (default PNone (fields !! K_URL))) eqn:Et.
  - right. destruct (fields !! K_URL) as [iu|] eqn:Hiu; [|discriminate].
    simpl in Et. exists iu. split; [reflexivity | split; [exact Et |]].
    pose proof (upsert_run token app_token table_id fields iu s Hiu Et) as Hup.
    pose proof (search_record_run token app_token table_id iu s) as Hs.
    simpl in Hs.
    destruct (search_record token app_token table_id iu s)
      as [[rec_id|e] s1] eqn:Es.
    + right. exists rec_id, s1. split; [reflexivity |].
      simpl. split; [exact Hup |].
      apply issued_app. rewrite Hup. simpl.
      injection Hs as _ ->. simpl. rewrite <- app_assoc. reflexivity.
    + left. exists e, s1. split; [reflexivity | split; [exact Hup |]].
      apply issued_app. rewrite Hup. by injection Hs as _ ->.
  - left. split; [reflexivity |].
    assert (Hup : upsert token app_token table_id fields s
                  = (Raise ValueError, s)).
    { unfold upsert. rewrite Et. reflexivity. }
    split; [exact Hup |]. unfold issued. rewrite Hup. apply drop_all.
Qed.

(** X10: whatever the store answers, a run of [upsert] issues no call at
    all, or the search alone, or the search and then one write; it never
    writes before it has searched, and never writes twice.  The search
    filters on the IssueURL of the Field Set, the write carries the Field
    Set as it is. *)
Theorem upsert_call_discipline (fields : gmap str pyval) (s : sys W) :
  let new := issued (upsert token app_token table_id fields) s in
  (new = []
   \/ exists iu, fields !! K_URL = Some iu
      /\ (new = [search_request token app_token table_id iu]
          \/ new = [search_request token app_token table_id iu;
                    post_request token app_token table_id fields]
          \/ exists rec_id,
               new = [search_request token app_token table_id iu;
                      patch_request token app_token table_id rec_id fields]))
  /\ (count_method GET new <= 1)%nat
  /\ (count_method PATCH new + count_method POST new <= 1)%nat.
Proof.
  intros new. subst new.
  destruct (upsert_issued fields s)
    as [(_ & _ & ->) | (iu & Hiu & _ & [(e & s1 & _ & _ & ->)
                                       | (rid & s1 & _ & _ & ->)])].
  - split; [auto | split; vm_compute; lia].
  - split; [right; exists iu; auto | split; vm_compute; lia].
  - destruct (py_truthy rid).
    + split; [right; exists iu; eauto 6 | split; vm_compute; lia].
    + split; [right; exists iu; auto | split; vm_compute; lia].
Qed.

(** X11: a failed search stops the upsert: when the search raises, by the
    transport or over the response, the upsert raises the same exception,
    and the search is the only call it has issued. *)
Theorem upsert_stops_on_failed_search (fields : gmap str pyval) (iu : pyval)
    (s s1 : sys W) (e : exn)
    (Hiu : fields !! K_URL = Some iu)
    (Hnonempty : py_truthy iu = true)
    (Hsearch : search_record token app_token table_id iu s = (Raise e, s1)) :
  upsert token app_token table_id fields s = (Raise e, s1)
  /\ issued (upsert token app_token table_id fields) s
     = [search_request token app_token table_id iu].
Proof.
  destruct (upsert_issued fields s)
    as [(Hf & _) | (iu' & Hiu' & _ & [(e' & s1' & Hs & Hup & Hi)
                                     | (rid & s1' & Hs & _)])].
  - rewrite Hiu in Hf. simpl in Hf. congruence.
  - rewrite Hiu in Hiu'. injection Hiu' as <-.
    rewrite Hsearch in Hs. injection Hs as <- <-. auto.
  - rewrite Hiu in Hiu'. injection Hiu' as <-.
    rewrite Hsearch in Hs. discriminate.
Qed.

(** X12: an upsert that returns has issued exactly two calls, the search
    and then one write that carries the Field Set; both were answered by
    the store, the write by the store as the search left it, and what the
    upsert returns is the parsed body of the answer to the write, an object
    with a status code that is zero or absent.  The store and the call log
    the upsert leaves are those after the write. *)
Theorem upsert_returns (fields : gmap str pyval) (s s' : sys W)
    (data : pyval)
    (Hok : upsert token app_token table_id fields s = (Ok data, s')) :
  exists iu rq r0 w1 r w2,
    fields !! K_URL = Some iu /\ py_truthy iu = true
    /\ http (world s) (search_request token app_token table_id iu)
       = (Ok r0, w1)
    /\ http w1 rq = (Ok r, w2)
    /\ s' = Sys w2 (calls s
                     ++ [search_request token app_token table_id iu; rq])
    /\ issued (upsert token app_token table_id fields) s
       = [search_request token app_token table_id iu; rq]
    /\ (req_method rq = PATCH \/ req_method rq = POST)
    /\ req_data rq = Some fields
    /\ resp_json r = Some data
    /\ carries_nonzero_code r = false
    /\ exists d, data = PDict d.
Proof.
  destruct (upsert_issued fields s)
    as [(_ & Hup & _) | (iu & Hiu & Ht & [(e & s1 & _ & Hup & _)
                                        | (rid & s1 & Hs & Hup & Hi)])];
    rewrite Hup in Hok; try discriminate.
  set (rq := if py_truthy rid
             then patch_request token app_token table_id rid fields
             else post_request token app_token table_id fields) in *.
  rewrite search_record_run in Hs. cbn zeta in Hs.
  destruct (http (world s) (search_request token app_token table_id iu))
    as [[r0|e0] w1] eqn:Eh0; simpl in Hs; [|discriminate].
  injection Hs as _ <-. cbn [world calls] in Hok.
  destruct (http w1 rq) as [[r|e] w2] eqn:Eh; simpl in Hok; [|discriminate].
  injection Hok as Hv <-.
  exists iu, rq, r0, w1, r, w2.
  split; [exact Hiu|]. split; [exact Ht|]. split; [exact Eh0|].
  split; [exact Eh|].
  split; [rewrite <- app_assoc; reflexivity|].
  split; [exact Hi|].
  split; [subst rq; destruct (py_truthy rid); auto|].
  split; [subst rq; destruct (py_truthy rid); reflexivity|].
  unfold upsert_validate, carries_nonzero_code in *.
  destruct (resp_json r) as [x|]; [|discriminate].
  destruct x; simpl in Hv; try discriminate.
  destruct (not_in_0_None _); [discriminate|].
  injection Hv as <-. repeat split. eauto.
Qed.

End UpsertRuns.

Lemma search_first_record_witness :
  search_record (u "t") (u "app") (u "tbl") url_x1 store_two
  = (Ok (PStr (u "rec1")), searched url_x1)
  /\ issued (upsert (u "t") (u "app") (u "tbl") fields_x1) store_two
     = [ search_request (u "t") (u "app") (u "tbl") url_x1;
         patch_request (u "t") (u "app") (u "tbl") (PStr (u "rec1"))
           fields_x1 ].
Proof.
  assert (Hiu : fields_x1 !! K_URL = Some url_x1) by (vm_compute; reflexivity).
  destruct (search_first_record (u "t") (u "app") (u "tbl") fields_x1 url_x1
              (PStr (u "rec1")) store_two (Response 200 (Some resp_two))
              [json_response resp_ok]
              (list_to_map [ (u "code", PInt 0);
                 (u "data", PDict {[ u "items" :=
                    PList [ PDict {[ u "record_id" := PStr (u "rec1") ]};
                            PDict {[ u "record_id" := PStr (u "rec2") ]} ] ]}) ])
              {[ u "items" :=
                    PList [ PDict {[ u "record_id" := PStr (u "rec1") ]};
                            PDict {[ u "record_id" := PStr (u "rec2") ]} ] ]}
              {[ u "record_id" := PStr (u "rec1") ]}
              [ PDict {[ u "record_id" := PStr (u "rec2") ]} ]
              Hiu eq_refl eq_refl eq_refl eq_refl eq_refl eq_refl)
    as [Hs Hp].
  exact (conj Hs (Hp eq_refl)).
Defined.

Lemma upsert_stops_on_failed_search_witness :
  upsert (u "t") (u "app") (u "tbl") fields_x1 store_no_json
  = (Raise JSONDecodeError, searched url_x1)
  /\ issued (upsert (u "t") (u "app") (u "tbl") fields_x1) store_no_json
     = [ search_request (u "t") (u "app") (u "tbl") url_x1 ].
Proof.
  assert (Hiu : fields_x1 !! K_URL = Some url_x1) by (vm_compute; reflexivity).
  assert (Hs : search_record (u "t") (u "app") (u "tbl") url_x1 store_no_json
               = (Raise JSONDecodeError, searched url_x1))
    by (vm_compute; reflexivity).
  exact (upsert_stops_on_failed_search (u "t") (u "app") (u "tbl") fields_x1
           url_x1 store_no_json (searched url_x1) JSONDecodeError
           Hiu eq_refl Hs).
Defined.

Lemma upsert_returns_witness :
  upsert (u "t") (u "app") (u "tbl") fields_x1 store_found
  = (Ok resp_ok,
     Sys [] [ search_request (u "t") (u "app") (u "tbl") url_x1;
              patch_request (u "t") (u "app") (u "tbl") (PStr (u "rec1"))
                fields_x1 ])
  /\ exists d, resp_ok = PDict d.
Proof.
  assert (Hok : upsert (u "t") (u "app") (u "tbl") fields_x1 store_found
    = (Ok resp_ok,
       Sys [] [ search_request (u "t") (u "app") (u "tbl") url_x1;
                patch_request (u "t") (u "app") (u "tbl") (PStr (u "rec1"))
                  fields_x1 ]))
    by (vm_compute; reflexivity).
  split; [exact Hok |].
  destruct (upsert_returns (u "t") (u "app") (u "tbl") fields_x1 store_found
              _ resp_ok Hok)
    as (iu & rq & r0 & w1 & r & w2 & _ & _ & _ & _ & _ & _ & _ & _ & _ & _
        & Hd).
  exact Hd.
Defined.

(** ** Token acquisition and the main program *)

Section Main.
Context {W : Type} `{!Remote W} `{!AuthServer W}.
Variable fmt : pyval -> str.

Lemma get_token_run (app_id app_secret : str) (n : net W) :
  get_token app_id app_secret n =
  ((auth_post (n_world n) app_id app_secret).1 ≫= token_result,
   Net (auth_post (n_world n) app_id app_secret).2
       (n_calls n ++ [AuthCall app_id app_secret])).
Proof.
  unfold get_token, auth_call.
  destruct (auth_post (n_world n) app_id app_secret). reflexivity.
Qed.

(** X13: [get_token] issues one call to the token endpoint, with the two
    credentials, and returns the [tenant_access_token] of the answer when
    there is a non-empty one.  An object without token, or with an empty
    one, raises RuntimeError; a body that is not JSON raises the decoding
    error, and a JSON value that is no object AttributeError. *)
Theorem get_token_spec (app_id app_secret : str) (n : net W)
    (r : response) (w' : W)
    (Hhttp : auth_post (n_world n) app_id app_secret = (Ok r, w')) :
  let n' := Net w' (n_calls n ++ [AuthCall app_id app_secret]) in
  (forall d tok, resp_json r = Some (PDict d) ->
     d !! u "tenant_access_token" = Some tok -> py_truthy tok = true ->
     get_token app_id app_secret n = (Ok tok, n'))
  /\ (forall d, resp_json r = Some (PDict d) ->
        py_truthy (default PNone (d !! u "tenant_access_token")) = false ->
        get_token app_id app_secret n = (Raise RuntimeError, n'))
  /\ (resp_json r = None ->
        get_token app_id app_secret n = (Raise JSONDecodeError, n'))
  /\ (forall v, resp_json r = Some v -> (forall d, v <> PDict d) ->
        get_token app_id app_secret n = (Raise AttributeError, n')).
Proof.
  intros n'. rewrite get_token_run, Hhttp. simpl.
  unfold token_result, json_of. repeat split.
  - intros d tok -> Htok Ht. simpl. rewrite Htok. simpl. rewrite Ht.
    reflexivity.
  - intros d -> Ht. simpl. rewrite Ht. reflexivity.
  - intros ->. reflexivity.
  - intros v -> Hv. destruct v; try reflexivity.
    exfalso. eapply Hv. reflexivity.
Qed.

(** A token that [get_token] returns is not empty. *)
Lemma get_token_truthy (app_id app_secret : str) (n n' : net W) tok :
  get_token app_id app_secret n = (Ok tok, n') -> py_truthy tok = true.
Proof.
  rewrite get_token_run. intros [= Hr _].
  destruct (auth_post _ _ _).1 as [r|]; [|discriminate]. simpl in Hr.
  unfold token_result, json_of in Hr.
  destruct (resp_json r) as [data|]; [|discriminate]. simpl in Hr.
  destruct data; try discriminate. simpl in Hr.
  destruct (py_truthy (default PNone (d !! u "tenant_access_token"))) eqn:Et;
    [|discriminate].
  simpl in Hr. destruct (d !! u "tenant_access_token"); [|discriminate].
  injection Hr as <-. exact Et.
Qed.

(** X14: [main] checks the configuration first: when one of FEISHU_APP_ID,
    FEISHU_APP_SECRET, FEISHU_APP_TOKEN and FEISHU_TABLE_ID is not set, or
    is empty, it exits with status 1, whatever the event and the other
    variables are, and has issued no call. *)
Theorem main_config_guard (args_event : option str)
    (environ : gmap str str) (fs : gmap str fnode) (n : net W) (k : str)
    (Hk : k ∈ [E_APP_ID; E_APP_SECRET; E_APP_TOKEN; E_TABLE_ID])
    (Hmissing : getenv environ k = []) :
  main fmt args_event environ fs n = (Aborted (SystemExit 1), n).
Proof.
  unfold main.
  assert (Hall : nonempty (getenv environ E_APP_ID)
                 && nonempty (getenv environ E_APP_SECRET)
                 && nonempty (getenv environ E_APP_TOKEN)
                 && nonempty (getenv environ E_TABLE_ID) = false).
  { repeat (apply elem_of_cons in Hk as [-> | Hk]);
      [.. | by apply elem_of_nil in Hk];
      rewrite Hmissing; simpl; rewrite ?andb_false_r; reflexivity. }
  rewrite Hall. reflexivity.
Qed.

(** The calls of the network part of [main]. *)
Lemma token_then_upsert_calls (app_id app_secret app_token table_id : str)
    (fields : gmap str pyval) (n : net W) :
  let run := (token ← get_token app_id app_secret;
              store_run (upsert (fmt token) app_token table_id fields)) n in
  (exists e, get_token app_id app_secret n = (Raise e, run.2)
     /\ run.1 = Raise e
     /\ n_calls run.2 = n_calls n ++ [AuthCall app_id app_secret])
  \/ exists tok n1 s1,
       get_token app_id app_secret n = (Ok tok, n1)
       /\ n_calls n1 = n_calls n ++ [AuthCall app_id app_secret]
       /\ upsert (fmt tok) app_token table_id fields (Sys (n_world n1) [])
          = (run.1, s1)
       /\ n_calls run.2
          = n_calls n ++ AuthCall app_id app_secret
              :: map StoreCall
                   (issued (upsert (fmt tok) app_token table_id fields)
                      (Sys (n_world n1) [])).
Proof.
  intros run. subst run. unfold mbind, NetM_bind.
  pose proof (get_token_run app_id app_secret n) as Hg.
  destruct (get_token app_id app_secret n) as [[tok|e] n1] eqn:Eg.
  - assert (Hn1 : n_calls n1 = n_calls n ++ [AuthCall app_id app_secret])
      by (injection Hg as _ ->; reflexivity).
    right. unfold store_run, issued.
    destruct (upsert (fmt tok) app_token table_id fields (Sys (n_world n1) []))
      as [res s1] eqn:Eu.
    exists tok, n1, s1. simpl. rewrite Hn1, <- app_assoc, Eu.
    repeat split; assumption.
  - left. exists e. injection Hg as _ ->. auto.
Qed.

(** X15: the calls of a run of [main], whatever the network answers: none,
    or the token request alone, or the token request and the search, or
    these two and one write, in this order.  So nothing is sent to the
    store without a token, nothing is written without a search, and
    nothing is written twice. *)
Theorem main_call_discipline (args_event : option str)
    (environ : gmap str str) (fs : gmap str fnode) (n : net W) :
  let auth := AuthCall (getenv environ E_APP_ID)
                       (getenv environ E_APP_SECRET) in
  exists new,
    n_calls (main fmt args_event environ fs n).2 = n_calls n ++ new
    /\ (new = [] \/ new = [auth]
        \/ (exists rq, new = [auth; StoreCall rq] /\ req_method rq = GET)
        \/ (exists rq rq', new = [auth; StoreCall rq; StoreCall rq']
              /\ req_method rq = GET
              /\ (req_method rq' = PATCH \/ req_method rq' = POST))).
Proof.
  intros auth. unfold main.
  destruct (negb _).
  { exists []. rewrite app_nil_r. auto. }
  destruct (load_event args_event environ fs) as [evt|e].
  2: { exists []. rewrite app_nil_r. auto. }
  destruct (main_fields evt environ) as [fields|e].
  2: { exists []. rewrite app_nil_r. auto. }
  destruct (token_then_upsert_calls (getenv environ E_APP_ID)
              (getenv environ E_APP_SECRET) (getenv environ E_APP_TOKEN)
              (getenv environ E_TABLE_ID) fields n)
    as [(e & _ & He & Hc) | (tok & n1 & s1 & _ & _ & _ & Hc)];
    simpl in *;
    destruct ((get_token _ _ ≫= _) n) as [[res|e'] n'];
    simpl in *; rewrite Hc; eexists; (split; [reflexivity|]); auto.
  all: destruct (upsert_issued (fmt tok) (getenv environ E_APP_TOKEN)
                   (getenv environ E_TABLE_ID) fields (Sys (n_world n1) []))
         as [(_ & _ & ->) | (iu & _ & _ & [(e1 & s2 & _ & _ & ->)
                                          | (rid & s2 & _ & _ & ->)])];
    simpl; auto.
  all: try (right; right; left; eexists; split; reflexivity).
  all: right; right; right; do 2 eexists; split; [reflexivity|];
       destruct (py_truthy rid); auto.
Qed.

End Main.

Section MainRuns.
Context {W : Type} `{!Remote W} `{!AuthServer W}.
Variable fmt : pyval -> str.




End MainRuns.

Lemma get_token_spec_witness :
  get_token (u "cli_1") (u "secret") net_fresh
  = (Ok (PStr (u "t-123")),
     Net [json_response resp_none; json_response resp_ok]
         [AuthCall (u "cli_1") (u "secret")]).
Proof.
  destruct (get_token_spec (u "cli_1") (u "secret") net_fresh
              (Response 200 (Some resp_token))
              [json_response resp_none; json_response resp_ok] eq_refl)
    as [Hok _].
  apply (Hok token_dict (PStr (u "t-123")));
    [reflexivity | vm_compute; reflexivity | reflexivity].
Defined.

Lemma main_config_guard_witness :
  main fmt_str None (delete E_TABLE_ID env_config) ∅ net_fresh
  = (Aborted (SystemExit 1), net_fresh).
Proof.
  apply (main_config_guard fmt_str None _ ∅ net_fresh E_TABLE_ID).
  - do 3 apply list_elem_of_further. apply list_elem_of_here.
  - vm_compute. reflexivity.
Defined.



(** ** The event file and the inputs of the environment *)

(** X18: the two sources of the event are not treated alike.  A path given
    with [--event] that does not exist is passed over without an error, as
    if the option were not there; a path in GITHUB_EVENT_PATH that does not
    exist ends the run with the error of [open]. *)
Theorem load_event_missing_file (environ : gmap str str)
    (fs : gmap str fnode) (p : str)
    (Hp : fs !! p = None) :
  load_event (Some p) environ fs = load_event None environ fs
  /\ (forall q, q <> [] -> environ !! E_EVENT_PATH = Some q ->
        fs !! q = None ->
        load_event (Some p) environ fs = Aborted OSError).
Proof.
  assert (Hsame : load_event (Some p) environ fs
                  = load_event None environ fs).
  { unfold load_event. destruct p as [|c p]; [reflexivity|].
    rewrite Hp.
    rewrite bool_decide_eq_false_2 by (intros [? ?]; discriminate).
    reflexivity. }
  split; [exact Hsame|].
  intros q Hq Henv Hq_missing. rewrite Hsame.
  unfold load_event. rewrite Henv. destruct q as [|c q]; [congruence|].
  unfold load_json. rewrite Hq_missing. reflexivity.
Qed.

Lemma load_event_missing_file_witness :
  load_event (Some (u "mock_event.json"))
    {[ E_EVENT_PATH := u "/github/event.json" ]} ∅
  = load_event None {[ E_EVENT_PATH := u "/github/event.json" ]} ∅
  /\ load_event (Some (u "mock_event.json"))
       {[ E_EVENT_PATH := u "/github/event.json" ]} ∅
     = Aborted OSError.
Proof.
  destruct (load_event_missing_file
              {[ E_EVENT_PATH := u "/github/event.json" ]} ∅
              (u "mock_event.json") (lookup_empty _)) as [Hsame Hq].
  split; [exact Hsame|].
  apply (Hq (u "/github/event.json"));
    [vm_compute; discriminate | vm_compute; reflexivity | reflexivity].
Defined.

(** X19: in From-inputs mode the Field Set is made of the six input
    variables only: two environments that agree on 标题, 优先级, 需求类型,
    bug来源（可选）, Issue标题 and IssueURL give the same Field Set, whatever
    else they hold (the credentials, say). *)
Theorem main_fields_inputs_only (evt issue : pyval)
    (environ environ' : gmap str str)
    (Hissue : py_get evt (u "issue") = Ok issue)
    (Hfalsy : py_truthy issue = false)
    (Hagree : forall k, k ∈ INPUT_KEYS -> environ !! k = environ' !! k) :
  main_fields evt environ = main_fields evt environ'.
Proof.
  unfold main_fields. rewrite Hissue. simpl. rewrite Hfalsy.
  assert (Heq : filter (fun kv : str * str => kv.1 ∈ INPUT_KEYS) environ
                = filter (fun kv : str * str => kv.1 ∈ INPUT_KEYS) environ').
  { apply map_eq. intros k. rewrite !map_lookup_filter.
    destruct (decide (k ∈ INPUT_KEYS)) as [Hk|Hk].
    - rewrite (Hagree k Hk). reflexivity.
    - destruct (environ !! k), (environ' !! k); simpl;
        rewrite ?option_guard_False by exact Hk; reflexivity. }
  rewrite Heq. reflexivity.
Qed.

Lemma main_fields_inputs_only_witness :
  main_fields (PDict ∅) (<[K_PRI := u "high"]> env_config)
  = main_fields (PDict ∅) {[ K_PRI := u "high" ]}.
Proof.
  apply (main_fields_inputs_only (PDict ∅) PNone);
    [reflexivity | reflexivity |].
  intros k Hk. unfold INPUT_KEYS in Hk.
  repeat (apply elem_of_cons in Hk as [-> | Hk]);
    [vm_compute; reflexivity .. | by apply elem_of_nil in Hk].
Defined.


(** * The companion tools *)

(** ** The node token of a wiki URL *)

Lemma alnum_not_space c : c_alnum c = true -> py_isspace c = false.
Proof.
  unfold c_alnum, py_isspace. intros H.
  repeat match type of H with
  | context [(?a <=? ?b)%N] => destruct (N.leb_spec a b); simpl in H
  end; try discriminate; try (exfalso; lia); cmp_lia; reflexivity.
Qed.

Lemma alnum_hd_ok (t : str) :
  Forall (fun c => c_alnum c = true) t -> hd_ok t.
Proof.
  destruct t as [|c t]; simpl; [trivial|].
  intros H. inversion H; subst. apply alnum_not_space. assumption.
Qed.

Lemma alnum_strip (t : str) :
  Forall (fun c => c_alnum c = true) t -> py_strip t = t.
Proof.
  intros H. apply strip_fix; apply alnum_hd_ok; [exact H|].
  apply List.Forall_rev. exact H.
Qed.

Lemma matches_Chr_is x st st' :
  matches (Chr (c_is x)) st st' -> m_rest st = x :: m_rest st'.
Proof.
  simpl. intros (c & Hc & Hp & _). apply N.eqb_eq in Hp. subst. exact Hc.
Qed.

(** What a match of the pattern has gone through. *)
Lemma wiki_pat_match st0 st' :
  matches wiki_pat st0 st' ->
  exists tok, m_rest st0 = WIKI ++ tok ++ m_rest st'
    /\ tok <> [] /\ Forall (fun c => c_alnum c = true) tok
    /\ m_caps st' !! 1%nat = Some tok.
Proof.
  unfold wiki_pat. intros H.
  apply matches_Seq in H as (s6 & H & HG).
  apply matches_Seq in H as (s5 & H & H6).
  apply matches_Seq in H as (s4 & H & H5).
  apply matches_Seq in H as (s3 & H & H4).
  apply matches_Seq in H as (s2 & H & H3).
  apply matches_Seq in H as (s1 & H1 & H2).
  apply matches_Chr_is in H1, H2, H3, H4, H5, H6.
  apply matches_Grp in HG as (t & Ht & Hcaps & Hrest).
  apply matches_Rep_Chr in Ht as (tok & Htok & Hlen & Hall & Hpos).
  exists tok. repeat split.
  - rewrite H1, H2, H3, H4, H5, H6, Htok, Hrest. reflexivity.
  - destruct tok; [simpl in Hlen; lia | discriminate].
  - exact Hall.
  - rewrite Hcaps, lookup_insert_eq.
    replace (m_pos t - m_pos s6)%nat with (length tok) by lia.
    rewrite Htok, take_app_length. reflexivity.
Qed.

(** A text of letters and digits has no match. *)
Lemma search_alnum_none (t : str) pos :
  Forall (fun c => c_alnum c = true) t -> re_search wiki_pat pos t = None.
Proof.
  intros Hall. destruct (re_search wiki_pat pos t) as [[start st']|] eqn:E;
    [|reflexivity].
  apply re_search_matches in E as (st0 & Hm & pre & Hpre).
  apply wiki_pat_match in Hm as (tok & Hrest & _).
  rewrite Hrest in Hpre. subst t.
  apply Forall_app in Hall as [_ Hall]. unfold WIKI in Hall.
  inversion Hall as [|? ? Hc _]. vm_compute in Hc. discriminate.
Qed.

(** What [extract_node_token] returns when the pattern matches. *)
Lemma extract_matched (s : str) start st' :
  re_search wiki_pat 0 (py_strip s) = Some (start, st') ->
  extract_node_token s <> []
  /\ Forall (fun c => c_alnum c = true) (extract_node_token s).
Proof.
  intros E. unfold extract_node_token. rewrite E.
  apply re_search_matches in E as (st0 & Hm & _).
  apply wiki_pat_match in Hm as (tok & _ & Hne & Hall & Hcap).
  unfold group. rewrite Hcap. simpl. split; assumption.
Qed.

(** X20: what [extract_node_token] returns is either the input without
    the white space at its ends or a non-empty run of ASCII letters and
    digits; it has no white space at its ends, and extracting from it again
    returns it unchanged. *)
Theorem extract_node_token_idempotent (s : str) :
  (extract_node_token s = py_strip s
   \/ (extract_node_token s <> []
       /\ Forall (fun c => c_alnum c = true) (extract_node_token s)))
  /\ py_strip (extract_node_token s) = extract_node_token s
  /\ extract_node_token (extract_node_token s) = extract_node_token s.
Proof.
  destruct (re_search wiki_pat 0 (py_strip s)) as [[start st']|] eqn:E.
  - destruct (extract_matched s _ _ E) as [Hne Hall].
    split; [right; split; assumption|].
    split; [apply alnum_strip; exact Hall|].
    unfold extract_node_token at 1.
    rewrite (alnum_strip _ Hall), (search_alnum_none _ _ Hall).
    reflexivity.
  - assert (Hs : extract_node_token s = py_strip s).
    { unfold extract_node_token. rewrite E. reflexivity. }
    rewrite Hs. split; [left; reflexivity|].
    split; [apply strip_strip|].
    unfold extract_node_token. rewrite strip_strip, E. reflexivity.
Qed.

Lemma re_search_cons r pos c rest :
  re_search r pos (c :: rest)
  = match rmatch r (MState pos (c :: rest) ∅) Some with
    | Some st' => Some (pos, st')
    | None => re_search r (S pos) rest
    end.
Proof. reflexivity. Qed.

Lemma rmatch_Chr_cons p pos c rest caps k :
  p c = true ->
  rmatch (Chr p) (MState pos (c :: rest) caps) k
  = k (MState (S pos) rest caps).
Proof. simpl. intros ->. reflexivity. Qed.

(** A greedy repetition of a class runs to the end of the characters of
    the class when what follows the repetition accepts that. *)
Lemma rep_chr_greedy p k res (tok : str) :
  forall fuel lo pos rest caps,
    Forall (fun c => p c = true) tok -> hd_outside p rest ->
    (lo <= length tok)%nat -> (length tok < fuel)%nat ->
    k (MState (pos + length tok) rest caps) = Some res ->
    rep_loop (rmatch (Chr p)) true fuel lo None
      (MState pos (tok ++ rest) caps) k = Some res.
Proof.
  induction tok as [|c tok IH]; intros fuel lo pos rest caps Hall Hout Hlo Hf Hk.
  - simpl in *. destruct fuel as [|fuel]; [lia|].
    assert (lo = O) by lia. subst lo. simpl.
    rewrite Nat.add_0_r in Hk.
    destruct rest as [|c rest]; simpl; [exact Hk|].
    simpl in Hout. rewrite Hout. simpl. exact Hk.
  - inversion Hall as [|? ? Hc Hall']; subst.
    destruct fuel as [|fuel]; [simpl in Hf; lia|].
    simpl in Hlo, Hf, Hk.
    replace (pos + S (length tok))%nat with (S pos + length tok)%nat in Hk
      by lia.
    destruct lo as [|lo].
    + cbn [rep_loop app]. rewrite rmatch_Chr_cons by exact Hc.
      cbn [m_pos]. rewrite (proj2 (Nat.ltb_lt pos (S pos))) by lia.
      cbn [fmap option_fmap option_map].
      rewrite (IH fuel O (S pos) rest caps Hall' Hout) by (lia || exact Hk).
      reflexivity.
    + cbn [rep_loop app]. rewrite rmatch_Chr_cons by exact Hc.
      cbn [fmap option_fmap option_map].
      apply IH; (lia || assumption).
Qed.

(** The pattern at a [/wiki/] that a token follows. *)
Lemma rmatch_wiki_here pos (tok rest : str) :
  tok <> [] -> Forall (fun c => c_alnum c = true) tok ->
  hd_outside c_alnum rest ->
  rmatch wiki_pat (MState pos (WIKI ++ tok ++ rest) ∅) Some
  = Some (MState (pos + 6 + length tok) rest {[ 1%nat := tok ]}).
Proof.
  intros Hne Hall Hout. unfold wiki_pat, WIKI.
  cbn [rmatch app m_rest m_pos m_caps c_is N.eqb Pos.eqb].
  apply (rep_chr_greedy c_alnum); [exact Hall | exact Hout | | | ].
  - destruct tok; [congruence | simpl; lia].
  - rewrite length_app. lia.
  - cbn [m_pos m_rest m_caps]. f_equal. f_equal; [lia|].
    replace (S (S (S (S (S (S pos))))) + length tok
             - S (S (S (S (S (S pos))))))%nat with (length tok) by lia.
    rewrite take_app_length. reflexivity.
Qed.

Lemma search_first_wiki (tok rest : str) :
  tok <> [] -> Forall (fun c => c_alnum c = true) tok ->
  hd_outside c_alnum rest ->
  forall (pre : str) pos,
    (forall i, (i < length pre)%nat ->
       take 6 (drop i (pre ++ WIKI)) <> WIKI) ->
    exists start,
      re_search wiki_pat pos (pre ++ WIKI ++ tok ++ rest)
      = Some (start, MState (start + 6 + length tok) rest {[ 1%nat := tok ]}).
Proof.
  intros Hne Hall Hout. induction pre as [|c pre IH]; intros pos Hfirst.
  - exists pos. cbn [app]. unfold WIKI at 1. cbn [app].
    rewrite re_search_cons.
    change (47 :: 119 :: 105 :: 107 :: 105 :: 47 :: tok ++ rest)
      with (WIKI ++ tok ++ rest).
    rewrite rmatch_wiki_here by assumption. reflexivity.
  - cbn [app]. rewrite re_search_cons.
    destruct (rmatch wiki_pat _ Some) as [st1|] eqn:E.
    + exfalso. apply rmatch_matches in E as (st2 & Hm & _).
      apply wiki_pat_match in Hm as (tok' & Hrest & _).
      cbn [m_rest] in Hrest.
      apply (Hfirst O); [simpl; lia|].
      cbn [drop].
      assert (Ht : take 6 (((c :: pre) ++ WIKI) ++ tok ++ rest) = WIKI).
      { rewrite <- app_assoc. cbn [app]. rewrite Hrest. reflexivity. }
      rewrite take_app_le in Ht; [exact Ht|].
      rewrite length_app. simpl. lia.
    + apply IH. intros i Hi. apply (Hfirst (S i)). simpl. lia.
Qed.

(** X21: when the input, without the white space at its ends, has its
    first [/wiki/] followed by a non-empty run of ASCII letters and digits,
    [extract_node_token] returns that run, up to the first character that
    is no letter and no digit, whatever comes before and after. *)
Theorem extract_node_token_url (s pre tok rest : str)
    (Hs : py_strip s = pre ++ WIKI ++ tok ++ rest)
    (Htok : tok <> [])
    (Halnum : Forall (fun c => c_alnum c = true) tok)
    (Hrest : hd_outside c_alnum rest)
    (Hfirst : forall i, (i < length pre)%nat ->
                take 6 (drop i (pre ++ WIKI)) <> WIKI) :
  extract_node_token s = tok.
Proof.
  unfold extract_node_token. rewrite Hs.
  destruct (search_first_wiki tok rest Htok Halnum Hrest pre O Hfirst)
    as [start ->].
  unfold group. cbn [m_caps]. rewrite lookup_singleton_eq. reflexivity.
Qed.

Lemma extract_node_token_url_witness :
  extract_node_token
    (u " https://x.feishu.cn/wiki/GCFkw15cunH8?table=tblTq ")
  = u "GCFkw15cunH8".
Proof.
  apply (extract_node_token_url _ (u "https://x.feishu.cn")
           (u "GCFkw15cunH8") (u "?table=tblTq")).
  - vm_compute. reflexivity.
  - vm_compute. discriminate.
  - vm_compute. repeat constructor.
  - vm_compute. reflexivity.
  - intros i Hi.
    do 19 (destruct i as [|i]; [vm_compute; discriminate|]).
    vm_compute in Hi. lia.
Defined.

(** ** The mask of the runner *)

Lemma mask_secret_eq (v : str) :
  v <> [] ->
  mask_secret v = take 6 v ++ DOTS ++ drop (length v - 6) v.
Proof.
  destruct v as [|c v]; [congruence|]. intros _.
  unfold mask_secret, py_last, MASK_LEN.
  destruct (_ <=? _)%nat; reflexivity.
Qed.

(** X22: [mask_secret] shows the first six and the last six characters of
    a value and three dots for whatever lies between them: values that
    differ in the middle only have the same mask, of fifteen characters. *)
Theorem mask_secret_hides_middle (a mid b : str)
    (Ha : length a = 6%nat) (Hb : length b = 6%nat) :
  mask_secret (a ++ mid ++ b) = a ++ DOTS ++ b
  /\ length (mask_secret (a ++ mid ++ b)) = 15%nat.
Proof.
  assert (Hm : mask_secret (a ++ mid ++ b) = a ++ DOTS ++ b).
  { rewrite mask_secret_eq by (destruct a; [discriminate Ha | discriminate]).
    rewrite <- Ha at 1. rewrite take_app_length. do 2 f_equal.
    rewrite app_assoc.
    replace (length ((a ++ mid) ++ b) - 6)%nat with (length (a ++ mid))
      by (rewrite !length_app; lia).
    apply drop_app_length. }
  split; [exact Hm|].
  rewrite Hm, !length_app, Ha, Hb. reflexivity.
Qed.

Lemma mask_secret_hides_middle_witness :
  mask_secret (u "cli_a1" ++ u "SECRETPART" ++ u "z9y8x7")
  = u "cli_a1" ++ DOTS ++ u "z9y8x7"
  /\ length (mask_secret (u "cli_a1" ++ u "SECRETPART" ++ u "z9y8x7"))
     = 15%nat.
Proof.
  apply (mask_secret_hides_middle (u "cli_a1") (u "SECRETPART") (u "z9y8x7"));
    vm_compute; reflexivity.
Defined.

(** X23: a value of at most twelve characters is not hidden by its mask.
    Up to six characters the mask is the value, three dots and the value
    again; from six to twelve characters the value is the first six
    characters of the mask followed by the characters of the mask from
    position [21 - length v] on. *)
Theorem mask_secret_short_values (v : str)
    (Hne : v <> []) (Hlen : (length v <= 12)%nat) :
  ((length v <= 6)%nat -> mask_secret v = v ++ DOTS ++ v)
  /\ ((6 <= length v)%nat ->
      v = take 6 (mask_secret v) ++ drop (21 - length v) (mask_secret v)).
Proof.
  rewrite (mask_secret_eq v Hne). split; intros H6.
  - rewrite take_ge by lia.
    replace (length v - 6)%nat with O by lia. reflexivity.
  - assert (Ht : length (take 6 v) = 6%nat) by (rewrite length_take; lia).
    rewrite (take_app_length' (take 6 v)) by lia.
    rewrite drop_app_ge by (rewrite Ht; lia). rewrite Ht.
    rewrite drop_app_ge by (simpl; lia).
    rewrite drop_drop. change (length DOTS) with 3%nat.
    replace (length v - 6 + (21 - length v - 6 - 3))%nat with 6%nat by lia.
    symmetry. apply take_drop.
Qed.

Lemma mask_secret_short_values_witness :
  mask_secret (u "tbl1") = u "tbl1...tbl1"
  /\ u "secret99" = take 6 (mask_secret (u "secret99"))
                    ++ drop 13 (mask_secret (u "secret99")).
Proof.
  split.
  - apply (mask_secret_short_values (u "tbl1"));
      [vm_compute; discriminate | vm_compute; lia | vm_compute; lia].
  - apply (mask_secret_short_values (u "secret99"));
      [vm_compute; discriminate | vm_compute; lia | vm_compute; lia].
Defined.

(** ** The token of the wiki resolver *)

Section TenantToken.
Context {W : Type} `{AuthServer W}.

(** X24: [get_tenant_token_if_needed] asks the network only when it has
    to.  A TENANT_ACCESS_TOKEN that is not blank is returned without its
    outer white space and no call is issued, whatever the credentials are;
    without it, and with FEISHU_APP_ID or FEISHU_APP_SECRET unset or blank,
    the program exits with status 1 and no call is issued either. *)
Theorem tenant_token_offline (environ : gmap str str) (n : net W) :
  (py_strip (getenv environ E_TENANT_TOKEN) <> [] ->
     get_tenant_token_if_needed environ n
     = (Done (PStr (py_strip (getenv environ E_TENANT_TOKEN))), n))
  /\ (py_strip (getenv environ E_TENANT_TOKEN) = [] ->
      py_strip (getenv environ E_APP_ID) = []
      \/ py_strip (getenv environ E_APP_SECRET) = [] ->
      get_tenant_token_if_needed environ n = (Aborted (SystemExit 1), n)).
Proof.
  unfold get_tenant_token_if_needed. split.
  - intros Ht. destruct (py_strip (getenv environ E_TENANT_TOKEN));
      [congruence | reflexivity].
  - intros -> [-> | ->]; simpl; [reflexivity|].
    rewrite orb_true_r. reflexivity.
Qed.

Lemma tenant_token_run (environ : gmap str str) (n : net W)
    (r : response) (w' : W) (a s : str) :
  py_strip (getenv environ E_TENANT_TOKEN) = [] ->
  py_strip (getenv environ E_APP_ID) = a ->
  py_strip (getenv environ E_APP_SECRET) = s ->
  a <> [] -> s <> [] ->
  auth_post (n_world n) a s = (Ok r, w') ->
  get_tenant_token_if_needed environ n
  = (match token_result r with
     | Ok tok => Done tok
     | Raise e => Aborted match e with
                          | RuntimeError => SystemExit 1
                          | _ => PyExn e
                          end
     end, Net w' (n_calls n ++ [AuthCall a s])).
Proof.
  intros Htoken Ha Hs Hane Hsne Hhttp.
  unfold get_tenant_token_if_needed. rewrite Htoken, Ha, Hs.
  destruct a as [|c1 a]; [congruence|].
  destruct s as [|c2 s]; [congruence|].
  cbn [nonempty negb orb]. unfold auth_call. rewrite Hhttp.
  unfold token_result, json_of.
  destruct (resp_json r) as [data|]; [|reflexivity]. cbn.
  destruct (py_get data (u "tenant_access_token")) as [tok|e] eqn:Eg; cbn.
  - destruct (py_truthy tok); cbn; [|reflexivity].
    destruct (py_item data (u "tenant_access_token")) as [t|e] eqn:Ei;
      [reflexivity|].
    destruct data as [| | | | | |d]; simpl in Eg, Ei; try discriminate.
    destruct (d !! u "tenant_access_token"); [discriminate|].
    injection Ei as <-. reflexivity.
  - destruct data; simpl in Eg; try discriminate;
      injection Eg as <-; reflexivity.
Qed.

(** X25: when it requests a token, [get_tenant_token_if_needed] sends the
    credentials without their outer white space and then goes the way of
    the script's [get_token] on them: the same call, the same token on
    success, the same exception on a failure over the response, except
    that a missing or empty token ends the program with status 1 where
    [get_token] raises RuntimeError. *)
Theorem tenant_token_like_get_token (environ : gmap str str) (n : net W)
    (r : response) (w' : W)
    (Htoken : py_strip (getenv environ E_TENANT_TOKEN) = [])
    (Hid : py_strip (getenv environ E_APP_ID) <> [])
    (Hsecret : py_strip (getenv environ E_APP_SECRET) <> [])
    (Hhttp : auth_post (n_world n) (py_strip (getenv environ E_APP_ID))
               (py_strip (getenv environ E_APP_SECRET)) = (Ok r, w')) :
  let app_id := py_strip (getenv environ E_APP_ID) in
  let app_secret := py_strip (getenv environ E_APP_SECRET) in
  let n' := Net w' (n_calls n ++ [AuthCall app_id app_secret]) in
  match token_result r with
  | Ok tok =>
    get_token app_id app_secret n = (Ok tok, n')
    /\ get_tenant_token_if_needed environ n = (Done tok, n')
  | Raise e =>
    get_token app_id app_secret n = (Raise e, n')
    /\ get_tenant_token_if_needed environ n
       = (Aborted match e with
                  | RuntimeError => SystemExit 1
                  | _ => PyExn e
                  end, n')
  end.
Proof.
  intros app_id app_secret n'. subst app_id app_secret n'.
  rewrite (tenant_token_run environ n r w' _ _ Htoken eq_refl eq_refl
             Hid Hsecret Hhttp).
  unfold get_token, auth_call. rewrite Hhttp. cbn.
  destruct (token_result r); split; reflexivity.
Qed.

End TenantToken.

Lemma tenant_token_offline_witness :
  get_tenant_token_if_needed env_token net_fresh
  = (Done (PStr (u "t-9")), net_fresh)
  /\ get_tenant_token_if_needed ∅ net_fresh
     = (Aborted (SystemExit 1), net_fresh).
Proof.
  split.
  - apply (tenant_token_offline env_token net_fresh).
    vm_compute. discriminate.
  - apply (tenant_token_offline ∅ net_fresh).
    + vm_compute. reflexivity.
    + left. vm_compute. reflexivity.
Defined.

Lemma tenant_token_like_get_token_witness :
  get_token (u "cli_1") (u "secret")
    (Net [json_response resp_token] [])
  = (Ok (PStr (u "t-123")), Net [] [AuthCall (u "cli_1") (u "secret")])
  /\ get_tenant_token_if_needed env_padded
       (Net [json_response resp_token] [])
     = (Done (PStr (u "t-123")), Net [] [AuthCall (u "cli_1") (u "secret")]).
Proof.
  assert (H1 : py_strip (getenv env_padded E_TENANT_TOKEN) = [])
    by (vm_compute; reflexivity).
  assert (H2 : py_strip (getenv env_padded E_APP_ID) <> [])
    by (vm_compute; discriminate).
  assert (H3 : py_strip (getenv env_padded E_APP_SECRET) <> [])
    by (vm_compute; discriminate).
  exact (tenant_token_like_get_token env_padded
           (Net [json_response resp_token] [])
           (Response 200 (Some resp_token)) [] H1 H2 H3 eq_refl).
Defined.

(** * Documents made of sections *)

(** ** Repetitions of a character class, step by step *)




(** ** The parts of the pattern *)

















(** ** The pattern on a section *)













(** ** The text of a section, taken apart *)















(** ** The match of a section *)





(** ** The matches of a document made of sections *)













(** ** What [parse_md] makes of the matches *)




(** ** Text before the first section *)








(** ** The document as a whole *)













